(** * ultra-mcp: pricing, streaming and conversation memory

    A shallow embedding of the request-pipeline engine of ultra-mcp
    (TypeScript) and the properties of it that the specification states.

    Conventions of the embedding.
    - A JavaScript [number] is an IEEE-754 binary64 value: Rocq's primitive
      [float].  Integer columns of the SQLite schema are [Z].
    - A JavaScript string is a [string]; its characters stand for UTF-16
      code units below 256.
    - An optional field or parameter ([x?: T]) is an [option].
    - [Date.now()] / [new Date()] are read once per operation and passed in
      as the operation's [now].
    - Exceptions are results: [inl err] / [inr value], or [option].

    Part I holds the definitions, in the order of the source files;
    Part II the properties. *)

From Stdlib Require Import Bool ZArith List String Ascii Lia Sorted FinFun.
From Stdlib Require Import PrimFloat Uint63 FloatOps SpecFloat.
Import ListNotations.

Local Open Scope string_scope.
Local Open Scope list_scope.

(* ================================================================== *)
(** * Part I: the embedding *)
(* ================================================================== *)

(** ** JavaScript primitives used by the sources *)

Module Js.

(** Truthiness of a number: [0], [-0] and [NaN] are falsy. *)
Definition truthy_number (x : float) : bool :=
  negb (PrimFloat.eqb x 0%float) && negb (PrimFloat.is_nan x).

(** Truthiness of an optional number ([undefined] is falsy). *)
Definition truthy_opt_number (x : option float) : bool :=
  match x with
  | Some v => truthy_number v
  | None => false
  end.

(** [ToNumber(undefined)] is [NaN]. *)
Definition toNumber (x : option float) : float :=
  match x with
  | Some v => v
  | None => PrimFloat.nan
  end.

(** [a > b] on numbers. *)
Definition gt (a b : float) : bool := PrimFloat.ltb b a.

(** [a >= b] on numbers. *)
Definition ge (a b : float) : bool := PrimFloat.leb b a.

(** An integer as a number (exact below 2^53 in magnitude). *)
Definition of_int (z : Z) : float :=
  if (z <? 0)%Z then PrimFloat.opp (PrimFloat.of_uint63 (Uint63.of_Z (- z)))
  else PrimFloat.of_uint63 (Uint63.of_Z z).

(** [Number.isSafeInteger], on an integer: its magnitude is at most
    [2^53 - 1]. *)
Definition safe_integer (n : Z) : bool := (Z.abs n <=? 9007199254740991)%Z.

(** The binary64 number nearest to an integer, ties to even: what a sum
    of numbers that hold integers comes to.  An integer of at most 53
    bits is kept as it is. *)
Definition nearest_double (n : Z) : Z :=
  let a := Z.abs n in
  let bits := (Z.log2 a + 1)%Z in
  if (bits <=? 53)%Z then n
  else
    let shift := (bits - 53)%Z in
    let q := Z.shiftr a shift in
    let r := (a - Z.shiftl q shift)%Z in
    let half := Z.shiftl 1 (shift - 1) in
    let q := if (half <? r)%Z || ((r =? half)%Z && Z.odd q) then (q + 1)%Z else q in
    (Z.sgn n * Z.shiftl q shift)%Z.

(** Whether an integer, as a number, is finite: beyond [2^1024] a number
    is [Infinity]. *)
Definition finite_integer (n : Z) : bool := (Z.abs n <? 2 ^ 1024)%Z.

(** [Math.floor]: a finite number with a fraction is [m * 2^e] with
    [e < 0] and [m < 2^53]. *)
Definition floor (x : float) : float :=
  match Prim2SF x with
  | S754_finite negative m e =>
      if (0 <=? e)%Z then x
      else
        let q := Z.shiftr (Zpos m) (- e) in
        let exact := (Z.shiftl q (- e) =? Zpos m)%Z in
        if negative then PrimFloat.opp (of_int (if exact then q else q + 1))
        else of_int q
  | _ => x
  end.

(** Truthiness of a string: only the empty string is falsy. *)
Definition truthy_string (s : string) : bool :=
  match s with
  | EmptyString => false
  | String _ _ => true
  end.

Definition nat_of_char (c : ascii) : nat := nat_of_ascii c.

(** [String.prototype.toLowerCase] on code units below 256: the Latin
    capital letters A-Z, and U+00C0..U+00DE except the multiplication
    sign U+00D7, move up by 32. *)
Definition lower_char (c : ascii) : ascii :=
  let n := nat_of_char c in
  if ((65 <=? n) && (n <=? 90))%nat then ascii_of_nat (n + 32)
  else if ((192 <=? n) && (n <=? 222) && negb (n =? 215))%nat
       then ascii_of_nat (n + 32)
  else c.

Fixpoint toLowerCase (s : string) : string :=
  match s with
  | EmptyString => EmptyString
  | String c s' => String (lower_char c) (toLowerCase s')
  end.

(** [s.startsWith(p)]. *)
Fixpoint startsWith (s p : string) : bool :=
  match p with
  | EmptyString => true
  | String c p' =>
      match s with
      | EmptyString => false
      | String d s' => Ascii.eqb c d && startsWith s' p'
      end
  end.

(** [s.includes(p)]. *)
Fixpoint includes (s p : string) : bool :=
  startsWith s p ||
  match s with
  | EmptyString => false
  | String _ s' => includes s' p
  end.

(** [s.slice(n)] for [0 <= n]. *)
Fixpoint slice (n : nat) (s : string) : string :=
  match n with
  | O => s
  | S n' =>
      match s with
      | EmptyString => EmptyString
      | String _ s' => slice n' s'
      end
  end.

(** White space removed by [trim], among code units below 256: TAB, LF,
    VT, FF, CR, SPACE and NBSP. *)
Definition is_space (c : ascii) : bool :=
  let n := nat_of_char c in
  ((9 <=? n) && (n <=? 13) || (n =? 32) || (n =? 160))%nat.

Fixpoint trimStart (s : string) : string :=
  match s with
  | EmptyString => EmptyString
  | String c s' => if is_space c then trimStart s' else s
  end.

(** [trimEnd]: a character is kept when it is not a space or something
    is left after it. *)
Fixpoint trimEnd (s : string) : string :=
  match s with
  | EmptyString => EmptyString
  | String c s' =>
      match trimEnd s' with
      | EmptyString => if is_space c then EmptyString else String c EmptyString
      | r => String c r
      end
  end.

Definition trim (s : string) : string := trimEnd (trimStart s).

(** [s.split('\n')]: never empty; the last element is the text after the
    last newline. *)
Definition newline : ascii := ascii_of_nat 10.

Fixpoint split_newline (s : string) : list string :=
  match s with
  | EmptyString => [EmptyString]
  | String c s' =>
      if Ascii.eqb c newline then EmptyString :: split_newline s'
      else match split_newline s' with
           | [] => [String c EmptyString]
           | h :: t => String c h :: t
           end
  end.

(** The own property of a name, for objects used as string-keyed
    records. *)
Fixpoint lookup {A : Type} (o : list (string * A)) (k : string) : option A :=
  match o with
  | [] => None
  | (k', v) :: o' => if String.eqb k' k then Some v else lookup o' k
  end.

(** The names every object literal and every parsed object finds on
    [Object.prototype]. *)
Definition prototype_names : list string :=
  [ "constructor"; "__defineGetter__"; "__defineSetter__"; "hasOwnProperty";
    "__lookupGetter__"; "__lookupSetter__"; "isPrototypeOf";
    "propertyIsEnumerable"; "toString"; "valueOf"; "__proto__";
    "toLocaleString" ].

Definition on_prototype (k : string) : bool :=
  existsb (String.eqb k) prototype_names.

(** What [o[k]] gives on such an object: its own property; else, for a
    name of [Object.prototype], the member found there (a function, and
    for [__proto__] the prototype itself), which is truthy; else
    [undefined]. *)
Inductive Read (A : Type) :=
| own (v : A)
| inherited (k : string)
| absent.

Arguments own {A} v.
Arguments inherited {A} k.
Arguments absent {A}.

Definition read {A : Type} (o : list (string * A)) (k : string) : Read A :=
  match lookup o k with
  | Some v => own v
  | None => if on_prototype k then inherited k else absent
  end.

(** [String(m)] for the member of [Object.prototype] under a name, as
    Node prints it; [constructor] is the function [Object]. *)
Definition member_text (k : string) : string :=
  if String.eqb k "__proto__" then "[object Object]"
  else if String.eqb k "constructor" then "function Object() { [native code] }"
  else ("function " ++ k ++ "() { [native code] }")%string.

(** The values [JSON.parse] builds, and [undefined]. *)
#[warnings="-register-all"] Inductive value :=
| Undefined
| Null
| Bool (b : bool)
| Number (n : float)
| Str (s : string)
| Array (items : list value)
| Object (props : list (string * value)).

Definition nullish (v : value) : bool :=
  match v with
  | Undefined | Null => true
  | _ => false
  end.

Definition truthy (v : value) : bool :=
  match v with
  | Undefined | Null => false
  | Bool b => b
  | Number n => truthy_number n
  | Str s => truthy_string s
  | Array _ | Object _ => true
  end.

(** [v.name] for a [v] that is not nullish, and [v?.name] for every [v]
    (a nullish [v] then gives [undefined]).  Own properties and [length];
    other names of the prototypes are outside the model. *)
Definition member (v : value) (name : string) : value :=
  match v with
  | Object props =>
      match lookup props name with
      | Some x => x
      | None => Undefined
      end
  | Str s =>
      if String.eqb name "length" then Number (of_int (Z.of_nat (String.length s)))
      else Undefined
  | Array items =>
      if String.eqb name "length" then Number (of_int (Z.of_nat (List.length items)))
      else Undefined
  | _ => Undefined
  end.

(** [v[0]] for a [v] that is not nullish, and [v?.[0]] for every [v]. *)
Definition item0 (v : value) : value :=
  match v with
  | Array (x :: _) => x
  | Str (String c _) => Str (String c EmptyString)
  | Object props =>
      match lookup props "0" with
      | Some x => x
      | None => Undefined
      end
  | _ => Undefined
  end.

(** [a || b]. *)
Definition or_else (a b : value) : value := if truthy a then a else b.

(** Whether a value can be converted to a primitive, as [text += v] and
    [String(v)] do.  An object that has a [toString] property of its own
    cannot: in parsed JSON that property is no function, the [valueOf] of
    [Object.prototype] gives the object back, and the conversion throws a
    [TypeError].  An array is converted by joining its elements, and
    cannot be converted when one of them, [null] and [undefined] aside,
    cannot. *)
Fixpoint converts (v : value) : bool :=
  match v with
  | Object props =>
      match lookup props "toString" with
      | Some _ => false
      | None => true
      end
  | Array items =>
      (fix all (l : list value) : bool :=
         match l with
         | [] => true
         | x :: rest => (nullish x || converts x) && all rest
         end) items
  | _ => true
  end.

Section ToString.

(** [Number.prototype.toString], left to the platform. *)
Variable numberToString : float -> string.

(** [String(v)], as in [text += v], for a value that [converts]; the
    elements of an array are joined with commas, [null] and [undefined]
    among them giving nothing. *)
Fixpoint toString (v : value) : string :=
  match v with
  | Undefined => "undefined"
  | Null => "null"
  | Bool true => "true"
  | Bool false => "false"
  | Number n => numberToString n
  | Str s => s
  | Array items =>
      (fix join (l : list value) : string :=
         match l with
         | [] => ""
         | [x] => if nullish x then "" else toString x
         | x :: rest =>
             ((if nullish x then "" else toString x) ++ "," ++ join rest)%string
         end) items
  | Object _ => "[object Object]"
  end.

End ToString.

End Js.

(** ** pricing/types.ts *)

Module Types.

(** [max_tokens] and its siblings are [number | string] in the catalog. *)
Inductive NumOrStr :=
| Num (n : float)
| Str (s : string).

Definition truthy_NumOrStr (v : NumOrStr) : bool :=
  match v with
  | Num n => Js.truthy_number n
  | Str s => Js.truthy_string s
  end.

(** [ModelPricing]: the fields of the catalog entry that the calculator and
    the service read (capability flags and media limits are carried by the
    real type and never read by them). *)
Record ModelPricing := {
  max_tokens : option NumOrStr;
  max_input_tokens : option NumOrStr;
  max_output_tokens : option NumOrStr;
  input_cost_per_token : option float;
  output_cost_per_token : option float;
  input_cost_per_token_above_200k_tokens : option float;
  output_cost_per_token_above_200k_tokens : option float
}.

(** [PricingData]: a record keyed by model name, in property order (the
    order [Object.entries] walks). *)
Definition PricingData := list (string * ModelPricing).

Record CacheMetadata := {
  timestamp : Z;
  source : string;
  ttl : Z
}.

Record CacheFile := {
  metadata : CacheMetadata;
  data : PricingData
}.

Record SimplifiedPricing := {
  sp_model : string;
  inputCostPerToken : float;
  outputCostPerToken : float;
  inputCostPerTokenAbove200k : option float;
  outputCostPerTokenAbove200k : option float;
  maxInputTokens : option NumOrStr;
  maxOutputTokens : option NumOrStr
}.

Record CostCalculation := {
  inputCost : float;
  outputCost : float;
  totalCost : float;
  inputTokens : float;
  outputTokens : float;
  cc_model : string;
  tieredPricingApplied : bool
}.

End Types.

(** ** pricing/calculator.ts *)

Module PricingCalculator.
Import Types.

Definition TIERED_PRICING_THRESHOLD : float := 200000%float.

(** The table of [normalizeModelName], in source order. *)
Definition normalizations : list (string * string) :=
  [ ("gpt-5", "gpt-5");
    ("o3", "o3");
    ("gpt-4o", "gpt-4o");
    ("gpt-4o-mini", "gpt-4o-mini");
    ("gpt-4-turbo", "gpt-4-turbo");
    ("gpt-4", "gpt-4");
    ("gpt-3.5-turbo", "gpt-3.5-turbo");
    ("gemini-2.5-pro", "gemini-2.5-pro");
    ("gemini-2.0-flash", "gemini-2.0-flash");
    ("gemini-2.0-flash-exp", "gemini-2.0-flash");
    ("gemini-1.5-pro", "gemini-1.5-pro");
    ("gemini-1.5-flash", "gemini-1.5-flash");
    ("gemini-pro", "gemini-1.5-pro");
    ("claude-3-5-sonnet", "claude-3.5-sonnet");
    ("claude-3-5-sonnet-20241022", "claude-3.5-sonnet");
    ("claude-3-opus", "claude-3-opus");
    ("claude-3-sonnet", "claude-3-sonnet");
    ("claude-3-haiku", "claude-3-haiku");
    ("grok-4", "grok-4");
    ("grok-3", "grok-3");
    ("grok-2", "grok-2");
    ("grok-1", "grok-1");
    ("gpt-5-azure", "gpt-5");
    ("o3-azure", "o3") ].

(** The [for ... of Object.entries(normalizations)] loop: the replacement
    of the first pattern the lower-cased name includes. *)
Fixpoint first_included (lowered : string) (entries : list (string * string))
  : option string :=
  match entries with
  | [] => None
  | (pattern, replacement) :: rest =>
      if Js.includes lowered (Js.toLowerCase pattern) then Some replacement
      else first_included lowered rest
  end.

(** What [normalizeModelName] returns: a model name or, when the lookup
    in the table finds a member of [Object.prototype], that member, which
    is no string. *)
Inductive Normalized :=
| model_name (n : string)
| prototype_member (key : string).

Coercion model_name : string >-> Normalized.

Definition normalizeModelName (model : string) : Normalized :=
  let lowered := Js.toLowerCase model in
  let scanned :=
    match first_included lowered normalizations with
    | Some replacement => replacement
    | None => model
    end in
  match Js.read normalizations lowered with
  | Js.own normalized =>
      if Js.truthy_string normalized then model_name normalized
      else model_name scanned
  | Js.inherited key => prototype_member key
  | Js.absent => model_name scanned
  end.

(** [a || b] on optional [number | string] values. *)
Definition or_NumOrStr (a b : option NumOrStr) : option NumOrStr :=
  match a with
  | Some v => if truthy_NumOrStr v then a else b
  | None => b
  end.

(** [simplifyPricing].  A base rate the entry lacks is [undefined] at run
    time; it is only ever multiplied, where it acts as [NaN]. *)
Definition simplifyPricing (model : string) (pricing : ModelPricing)
  : SimplifiedPricing :=
  {| sp_model := model;
     inputCostPerToken := Js.toNumber (input_cost_per_token pricing);
     outputCostPerToken := Js.toNumber (output_cost_per_token pricing);
     inputCostPerTokenAbove200k := input_cost_per_token_above_200k_tokens pricing;
     outputCostPerTokenAbove200k := output_cost_per_token_above_200k_tokens pricing;
     maxInputTokens := or_NumOrStr (max_input_tokens pricing) (max_tokens pricing);
     maxOutputTokens := or_NumOrStr (max_output_tokens pricing) (max_tokens pricing) |}.

(** [calculateCost].  The guard of each branch is
    [pricing.xCostPerTokenAbove200k && xTokens > THRESHOLD]: the rate must
    be truthy, not merely present. *)
Definition calculateCost (pricing : SimplifiedPricing)
  (inputTokens outputTokens : float) : CostCalculation :=
  let tieredPricingApplied := false in
  let '(inputCost, tieredPricingApplied) :=
    if Js.truthy_opt_number (inputCostPerTokenAbove200k pricing)
       && Js.gt inputTokens TIERED_PRICING_THRESHOLD
    then
      let baseTokens := TIERED_PRICING_THRESHOLD in
      let excessTokens := (inputTokens - baseTokens)%float in
      ((baseTokens * inputCostPerToken pricing
        + excessTokens * Js.toNumber (inputCostPerTokenAbove200k pricing))%float,
       true)
    else ((inputTokens * inputCostPerToken pricing)%float, tieredPricingApplied) in
  let '(outputCost, tieredPricingApplied) :=
    if Js.truthy_opt_number (outputCostPerTokenAbove200k pricing)
       && Js.gt outputTokens TIERED_PRICING_THRESHOLD
    then
      let baseTokens := TIERED_PRICING_THRESHOLD in
      let excessTokens := (outputTokens - baseTokens)%float in
      ((baseTokens * outputCostPerToken pricing
        + excessTokens * Js.toNumber (outputCostPerTokenAbove200k pricing))%float,
       true)
    else ((outputTokens * outputCostPerToken pricing)%float, tieredPricingApplied) in
  {| inputCost := inputCost;
     outputCost := outputCost;
     totalCost := (inputCost + outputCost)%float;
     inputTokens := inputTokens;
     outputTokens := outputTokens;
     cc_model := sp_model pricing;
     tieredPricingApplied := tieredPricingApplied |}.

Definition calculateCostFromPricing (model : string) (pricing : ModelPricing)
  (inputTokens outputTokens : float) : CostCalculation :=
  let simplified := simplifyPricing model pricing in
  calculateCost simplified inputTokens outputTokens.

End PricingCalculator.

Import (coercions) PricingCalculator.

(** ** pricing/fetcher.ts *)

Module PricingFetcher.
Import Types.

Definition LITELLM_PRICING_URL : string :=
  "https://raw.githubusercontent.com/BerriAI/litellm/refs/heads/main/model_prices_and_context_window.json".

(** One hour, in milliseconds. *)
Definition DEFAULT_TTL : Z := 60 * 60 * 1000.

(** What the fetcher reads and writes.  [cacheFile] is what
    [loadFromCache] finds: [None] when the file is missing, unreadable or
    fails validation.  [remote] is the outcome of [fetchFromRemote]: the
    ingested catalog, or the rendering of the error it throws.
    [writeError] is the error [saveToCache] meets, if any; a failed write
    leaves the file as it was.  [requests] counts the HTTP requests sent
    to the catalog's URL. *)
Record World := {
  now : Z;
  cacheFile : option CacheFile;
  remote : string + PricingData;
  writeError : option string;
  requests : nat
}.

Inductive Console :=
| Warn (message : string)
| Error (message : string).

Definition fetchFromRemote (w : World) : (string + PricingData) * World :=
  (remote w,
   {| now := now w;
      cacheFile := cacheFile w;
      remote := remote w;
      writeError := writeError w;
      requests := S (requests w) |}).

Definition saveToCache (ttl : Z) (data : PricingData) (w : World)
  : (string + unit) * World :=
  match writeError w with
  | Some e => (inl e, w)
  | None =>
      let cacheFile :=
        {| metadata := {| timestamp := now w;
                          source := LITELLM_PRICING_URL;
                          ttl := ttl |};
           data := data |} in
      (inr tt,
       {| now := now w;
          cacheFile := Some cacheFile;
          remote := remote w;
          writeError := writeError w;
          requests := requests w |})
  end.

Definition loadFromCache (w : World) : option CacheFile := cacheFile w.

Definition isCacheExpired (ttl : Z) (w : World) (metadata : CacheMetadata)
  : bool :=
  let age := (now w - timestamp metadata)%Z in
  (age >? ttl)%Z.

(** The [try] block of [getLatestPricing]: fetch, then save. *)
Definition fetch_and_save (ttl : Z) (w : World)
  : (string + PricingData) * World :=
  match fetchFromRemote w with
  | (inl fetchError, w1) => (inl fetchError, w1)
  | (inr freshData, w1) =>
      match saveToCache ttl freshData w1 with
      | (inl saveError, w2) => (inl saveError, w2)
      | (inr _, w2) => (inr freshData, w2)
      end
  end.

(** [getLatestPricing]: the value returned or the message of the error
    thrown, the world afterwards, and what was written to the console. *)
Definition getLatestPricing (ttl : Z) (forceRefresh : bool) (w : World)
  : (string + PricingData) * World * list Console :=
  let valid :=
    if negb forceRefresh then
      match loadFromCache w with
      | Some cached =>
          if negb (isCacheExpired ttl w (metadata cached))
          then Some (data cached) else None
      | None => None
      end
    else None in
  match valid with
  | Some cachedData => (inr cachedData, w, [])
  | None =>
      match fetch_and_save ttl w with
      | (inr freshData, w') => (inr freshData, w', [])
      | (inl fetchError, w') =>
          match loadFromCache w' with
          | Some cached =>
              (inr (data cached), w',
               [Warn ("Using stale cache due to network error: " ++ fetchError)%string])
          | None =>
              (inl ("Failed to fetch pricing data and no cache available: "
                    ++ fetchError)%string, w', [])
          end
      end
  end.

(** [getCacheInfo] of the fetcher; [info_age] is in seconds. *)
Record CacheInfo := {
  info_exists : bool;
  info_age : option Z;
  info_expired : option bool
}.

Definition getCacheInfo (ttl : Z) (w : World) : CacheInfo :=
  match loadFromCache w with
  | None =>
      {| info_exists := false; info_age := None; info_expired := None |}
  | Some cached =>
      let age := (now w - timestamp (metadata cached))%Z in
      {| info_exists := true;
         info_age := Some (age / 1000)%Z;
         info_expired := Some (isCacheExpired ttl w (metadata cached)) |}
  end.

(** [clearCache]: [fs.unlink], a missing file being no error. *)
Definition clearCache (w : World) : World :=
  {| now := now w;
     cacheFile := None;
     remote := remote w;
     writeError := writeError w;
     requests := requests w |}.

(** The names [fetchFromRemote] passes over. *)
Definition skipped_name (modelName : string) : bool :=
  Js.includes modelName "dall-e"
  || Js.includes modelName "whisper"
  || Js.includes modelName "tts"
  || Js.includes modelName "embedding"
  || Js.includes modelName "moderation"
  || Js.includes modelName "flux"
  || Js.includes modelName "stable-diffusion"
  || Js.includes modelName "sample_spec".

Section Ingest.

(** [parseInt(s, 10)], and [ModelPricingSchema.parse] of zod ([None] when
    it throws), both left to their libraries. *)
Variable parseInt : string -> float.
Variable ModelPricingSchema_parse : Js.value -> option ModelPricing.

(** [typeof x === 'string' ? parseInt(x, 10) : x]. *)
Definition coerce_limit (x : Js.value) : Js.value :=
  match x with
  | Js.Str s => Js.Number (parseInt s)
  | _ => x
  end.

(** [{ ...o, key: v }]: a key the object has keeps its place. *)
Fixpoint set_prop {A : Type} (o : list (string * A)) (key : string) (v : A)
  : list (string * A) :=
  match o with
  | [] => [(key, v)]
  | (k, x) :: o' =>
      if String.eqb k key then (k, v) :: o' else (k, x) :: set_prop o' key v
  end.

(** [processedData] for a catalog entry that is an object. *)
Definition processedData (props : list (string * Js.value)) : Js.value :=
  let modelData := Js.Object props in
  Js.Object
    (set_prop
       (set_prop
          (set_prop props "max_tokens"
             (coerce_limit (Js.member modelData "max_tokens")))
          "max_input_tokens"
          (coerce_limit (Js.member modelData "max_input_tokens")))
       "max_output_tokens"
       (coerce_limit (Js.member modelData "max_output_tokens"))).

Definition is_undefined (v : Js.value) : bool :=
  match v with
  | Js.Undefined => true
  | _ => false
  end.

(** The body of the loop of [fetchFromRemote] for one entry of the
    document: the entry to keep, if any.  Reading [max_tokens] off
    [null] throws and the entry is passed over; an entry that is no
    object has no cost fields and is passed over as well. *)
Definition ingest_entry (modelName : string) (modelData : Js.value)
  : option ModelPricing :=
  if skipped_name modelName then None
  else
    match modelData with
    | Js.Object props =>
        let processed := processedData props in
        if negb (is_undefined (Js.member processed "input_cost_per_token"))
           && negb (is_undefined (Js.member processed "output_cost_per_token"))
        then ModelPricingSchema_parse processed
        else None
    | _ => None
    end.

(** The loop of [fetchFromRemote] over [Object.entries(rawData)],
    filling [filteredData]. *)
Fixpoint ingest (rawData : list (string * Js.value)) (filteredData : PricingData)
  : PricingData :=
  match rawData with
  | [] => filteredData
  | (modelName, modelData) :: rest =>
      match ingest_entry modelName modelData with
      | Some validated => ingest rest (set_prop filteredData modelName validated)
      | None => ingest rest filteredData
      end
  end.

End Ingest.

End PricingFetcher.

(** ** pricing/service.ts *)

Module PricingService.
Import Types PricingFetcher.

(** The singleton's fields; its fetcher is built with the default TTL. *)
Record Service := {
  pricingDataCache : option PricingData;
  lastFetchTime : Z
}.

(** Five minutes, in milliseconds. *)
Definition MEMORY_CACHE_TTL : Z := 5 * 60 * 1000.

(** The outcome of a service call: the value, the service and the world
    afterwards, and the console output. *)
Definition Outcome (A : Type) : Type := A * Service * World * list Console.

Definition returned {A : Type} (o : Outcome A) : A := fst (fst (fst o)).

Definition getPricingData (forceRefresh : bool) (this : Service) (w : World)
  : Outcome (string + PricingData) :=
  let now := now w in
  let inMemory :=
    match pricingDataCache this with
    | Some cached =>
        if negb forceRefresh && (now - lastFetchTime this <? MEMORY_CACHE_TTL)%Z
        then Some cached else None
    | None => None
    end in
  match inMemory with
  | Some cached => (inr cached, this, w, [])
  | None =>
      match getLatestPricing DEFAULT_TTL forceRefresh w with
      | (inr fetched, w', out) =>
          (inr fetched,
           {| pricingDataCache := Some fetched; lastFetchTime := now |},
           w', out)
      | (inl e, w', out) => (inl e, this, w', out)
      end
  end.

(** The loop of [getModelPricing] over [Object.entries(pricingData)]. *)
Fixpoint find_same_lowercase (entries : PricingData) (normalizedModel : string)
  : option ModelPricing :=
  match entries with
  | [] => None
  | (key, value) :: rest =>
      if String.eqb (Js.toLowerCase key) (Js.toLowerCase normalizedModel)
      then Some value
      else find_same_lowercase rest normalizedModel
  end.

(** A member of [Object.prototype] that is read as an entry of the
    catalog: a function or an object, on which every field of an entry is
    [undefined]. *)
Definition no_fields : ModelPricing :=
  {| max_tokens := None;
     max_input_tokens := None;
     max_output_tokens := None;
     input_cost_per_token := None;
     output_cost_per_token := None;
     input_cost_per_token_above_200k_tokens := None;
     output_cost_per_token_above_200k_tokens := None |}.

(** [pricingData[key]], when it is truthy. *)
Definition exact_match (pricingData : PricingData) (key : string)
  : option ModelPricing :=
  match Js.read pricingData key with
  | Js.own exact => Some exact
  | Js.inherited _ => Some no_fields
  | Js.absent => None
  end.

(** [getModelPricing].  When [normalizeModelName] gave no string, the
    key of the first lookup is its text, and the loop throws at its first
    entry, [toLowerCase] being no method of it; the [catch] logs the
    error and gives [null]. *)
Definition getModelPricing (model : string) (this : Service) (w : World)
  : Outcome (option ModelPricing) :=
  match getPricingData false this w with
  | (inr pricingData, this', w', out) =>
      match PricingCalculator.normalizeModelName model with
      | PricingCalculator.model_name normalizedModel =>
          match exact_match pricingData normalizedModel with
          | Some exact => (Some exact, this', w', out)
          | None =>
              match find_same_lowercase pricingData normalizedModel with
              | Some value => (Some value, this', w', out)
              | None =>
                  (None, this', w',
                   out ++ [Warn ("Pricing not found for model: " ++ model
                                 ++ " (normalized: " ++ normalizedModel ++ ")")%string])
              end
          end
      | PricingCalculator.prototype_member key =>
          match exact_match pricingData (Js.member_text key) with
          | Some exact => (Some exact, this', w', out)
          | None =>
              match pricingData with
              | [] =>
                  (None, this', w',
                   out ++ [Warn ("Pricing not found for model: " ++ model
                                 ++ " (normalized: " ++ Js.member_text key
                                 ++ ")")%string])
              | _ :: _ =>
                  (None, this', w',
                   out ++ [Error ("Error getting model pricing: "
                                  ++ "TypeError: normalizedModel.toLowerCase is not a function")%string])
              end
          end
      end
  | (inl error, this', w', out) =>
      (None, this', w', out ++ [Error ("Error getting model pricing: " ++ error)%string])
  end.

(** [calculateCost]: [Some] for a cost object, [None] for [null]. *)
Definition calculateCost (model : string) (inputTokens outputTokens : float)
  (this : Service) (w : World) : Outcome (option CostCalculation) :=
  match getModelPricing model this w with
  | (None, this', w', out) =>
      (Some {| inputCost := 0%float;
               outputCost := 0%float;
               totalCost := 0%float;
               inputTokens := inputTokens;
               outputTokens := outputTokens;
               cc_model := model;
               tieredPricingApplied := false |},
       this', w', out)
  | (Some pricing, this', w', out) =>
      (Some (PricingCalculator.calculateCostFromPricing
               model pricing inputTokens outputTokens),
       this', w', out)
  end.

(** [refreshCache]: the value is [inl] when the forced fetch throws. *)
Definition refreshCache (this : Service) (w : World) : Outcome (string + unit) :=
  let cleared := {| pricingDataCache := None; lastFetchTime := 0 |} in
  match getPricingData true cleared w with
  | (inr _, this', w', out) => (inr tt, this', w', out)
  | (inl e, this', w', out) => (inl e, this', w', out)
  end.

(** [clearCache] of the service: both layers. *)
Definition clearCache (this : Service) (w : World) : Service * World :=
  ({| pricingDataCache := None; lastFetchTime := 0 |},
   PricingFetcher.clearCache w).

Definition hasModelPricing (model : string) (this : Service) (w : World)
  : Outcome bool :=
  match getModelPricing model this w with
  | (Some _, this', w', out) => (true, this', w', out)
  | (None, this', w', out) => (false, this', w', out)
  end.

End PricingService.

(** ** providers/openai.ts *)

Module OpenAIProvider.

Inductive ReasoningEffort := low | medium | high.

(** [AIRequest], with the fields the adapter reads. *)
Record AIRequest := {
  model : option string;
  prompt : string;
  systemPrompt : option string;
  temperature : option float;
  maxOutputTokens : option float;
  reasoningEffort : option ReasoningEffort;
  toolName : option string
}.

(** The options handed to the SDK's [generateText] / [streamText]. *)
Record Options := {
  opt_model : string;
  opt_prompt : string;
  opt_temperature : float;
  opt_maxOutputTokens : option float;
  opt_system : option string;
  opt_reasoningEffort : option ReasoningEffort
}.

Definition getDefaultModel : string := "gpt-5".

(** [config.openai?.preferredModel || this.getDefaultModel()]. *)
Definition getPreferredModel (preferredModel : option string) : string :=
  match preferredModel with
  | Some m => if Js.truthy_string m then m else getDefaultModel
  | None => getDefaultModel
  end.

(** [request.model || await this.getPreferredModel()]. *)
Definition selectedModel (request : AIRequest) (preferredModel : option string)
  : string :=
  match model request with
  | Some m => if Js.truthy_string m then m else getPreferredModel preferredModel
  | None => getPreferredModel preferredModel
  end.

(** The literal [0.7]: the binary64 value nearest to it. *)
Definition default_temperature : float := 0x1.6666666666666p-1%float.

(** [(model === 'gpt-5' || model === 'o3') ? 1 : (request.temperature ?? 0.7)]. *)
Definition enforcedTemperature (model : string) (request : AIRequest) : float :=
  if String.eqb model "gpt-5" || String.eqb model "o3" then 1%float
  else match temperature request with
       | Some t => t
       | None => default_temperature
       end.

(** [request.systemPrompt && { system: request.systemPrompt }], spread. *)
Definition system_option (request : AIRequest) : option string :=
  match systemPrompt request with
  | Some s => if Js.truthy_string s then Some s else None
  | None => None
  end.

(** [(model.startsWith("o3") || model.startsWith("o1")) &&
     { reasoningEffort: request.reasoningEffort || "medium" }], spread. *)
Definition reasoning_option (model : string) (request : AIRequest)
  : option ReasoningEffort :=
  if Js.startsWith model "o3" || Js.startsWith model "o1" then
    match reasoningEffort request with
    | Some e => Some e
    | None => Some medium
    end
  else None.

(** The [options] object built by [generateText]. *)
Definition generateText_options (request : AIRequest)
  (preferredModel : option string) : Options :=
  let model := selectedModel request preferredModel in
  let enforcedTemperature := enforcedTemperature model request in
  {| opt_model := model;
     opt_prompt := prompt request;
     opt_temperature := enforcedTemperature;
     opt_maxOutputTokens := maxOutputTokens request;
     opt_system := system_option request;
     opt_reasoningEffort := reasoning_option model request |}.

(** The [options] object built by [streamText] (its [onFinish] callback
    aside). *)
Definition streamText_options (request : AIRequest)
  (preferredModel : option string) : Options :=
  let model := selectedModel request preferredModel in
  let enforcedTemperature := enforcedTemperature model request in
  {| opt_model := model;
     opt_prompt := prompt request;
     opt_temperature := enforcedTemperature;
     opt_maxOutputTokens := maxOutputTokens request;
     opt_system := system_option request;
     opt_reasoningEffort := reasoning_option model request |}.

End OpenAIProvider.

(** ** db/tracking.ts *)

Module Tracking.

Inductive Status := pending | success | error.

(** [usage] as the adapters hand it over. *)
Record Usage := {
  promptTokens : Js.value;
  completionTokens : Js.value;
  totalTokens : Js.value
}.

(** The part of a request record a streaming call settles. *)
Record RequestRecord := {
  status : Status;
  responseText : option string;
  usage : option Usage;
  finishReason : option Js.value;
  errorMessage : option string
}.

(** The argument of [updateLLMCompletion]. *)
Record Completion := {
  responseData : option string;
  completion_usage : option Usage;
  completion_finishReason : option Js.value;
  completion_error : option string
}.

(** The record [trackLLMRequest] opens. *)
Definition trackLLMRequest : RequestRecord :=
  {| status := pending;
     responseText := None;
     usage := None;
     finishReason := None;
     errorMessage := None |}.

(** Modelled from the spec: [updateLLMCompletion] of db/tracking, which is
    not among the sources.  Section 4.2: completing a record with a
    response text, usage and finish reason updates it to [success];
    failing it with an error message updates it to [status=error] and
    leaves the other fields null. *)
Definition updateLLMCompletion (c : Completion) (r : RequestRecord) : RequestRecord :=
  match completion_error c with
  | Some message =>
      {| status := error;
         responseText := None;
         usage := None;
         finishReason := None;
         errorMessage := Some message |}
  | None =>
      {| status := success;
         responseText := responseData c;
         usage := completion_usage c;
         finishReason := completion_finishReason c;
         errorMessage := None |}
  end.

End Tracking.

(** ** providers/deepseek-r1.ts *)

Module DeepSeekR1Provider.

(** The HTTP response of the upstream: [body] is absent, or the decoded
    text of each [reader.read()] in turn, followed by a clean end
    ([done]) or by the error a read rejects with. *)
Record Response := {
  ok : bool;
  http_status : string;
  errorText : string;
  body : option (list string * option string)
}.

(** The variables of [streamText] while the body is read, and the chunks
    yielded so far. *)
Record Stream := {
  buffer : string;
  fullText : string;
  usage : option Tracking.Usage;
  finishReason : Js.value;
  yielded : list Js.value
}.

(** What a consumer that drains the generator sees: the chunks, the
    error thrown at it if any, and the tracking record left behind. *)
Record Outcome := {
  chunks : list Js.value;
  thrown : option string;
  tracked : Tracking.RequestRecord
}.

Section Adapter.

(** [JSON.parse]: [None] when it throws a [SyntaxError]. *)
Variable JSON_parse : string -> option Js.value.

Variable numberToString : float -> string.

(** [parsed.choices?.[0]?.delta?.content], for a [parsed] that is not
    nullish. *)
Definition delta_content (parsed : Js.value) : Js.value :=
  Js.member (Js.member (Js.item0 (Js.member parsed "choices")) "delta") "content".

(** [parsed.choices?.[0]?.finish_reason]. *)
Definition finish_reason (parsed : Js.value) : Js.value :=
  Js.member (Js.item0 (Js.member parsed "choices")) "finish_reason".

(** [fullText += content] throws: the content is truthy and cannot be
    converted to a primitive. *)
Definition unconvertible_content (parsed : Js.value) : bool :=
  Js.truthy (delta_content parsed) && negb (Js.converts (delta_content parsed)).

(** The body of the inner [try] for one payload; a [SyntaxError] of
    [JSON.parse], the [TypeError] of reading [choices] off [null], or the
    [TypeError] of [fullText += content] for a content that cannot be
    converted, is caught and the line skipped: nothing is yielded for
    it, and its usage and finish reason are not read. *)
Definition on_payload (data : string) (st : Stream) : Stream :=
  match JSON_parse data with
  | None => st
  | Some parsed =>
      if Js.nullish parsed then st
      else if unconvertible_content parsed then st
      else
        let st1 :=
          if Js.truthy (delta_content parsed) then
            let content := delta_content parsed in
            {| buffer := buffer st;
               fullText := (fullText st ++ Js.toString numberToString content)%string;
               usage := usage st;
               finishReason := finishReason st;
               yielded := yielded st ++ [content] |}
          else st in
        let st2 :=
          if Js.truthy (Js.member parsed "usage") then
            {| buffer := buffer st1;
               fullText := fullText st1;
               usage :=
                 Some {| Tracking.promptTokens :=
                           Js.or_else (Js.member (Js.member parsed "usage") "prompt_tokens")
                             (Js.Number 0%float);
                         Tracking.completionTokens :=
                           Js.or_else (Js.member (Js.member parsed "usage") "completion_tokens")
                             (Js.Number 0%float);
                         Tracking.totalTokens :=
                           Js.or_else (Js.member (Js.member parsed "usage") "total_tokens")
                             (Js.Number 0%float) |};
               finishReason := finishReason st1;
               yielded := yielded st1 |}
          else st1 in
        if Js.truthy (finish_reason parsed) then
          {| buffer := buffer st2;
             fullText := fullText st2;
             usage := usage st2;
             finishReason := finish_reason parsed;
             yielded := yielded st2 |}
        else st2
  end.

(** [for (const line of lines)]; the [break] at [[DONE]] leaves this
    loop. *)
Fixpoint for_lines (lines : list string) (st : Stream) : Stream :=
  match lines with
  | [] => st
  | line :: rest =>
      if Js.startsWith line "data: " then
        let data := Js.trim (Js.slice 6 line) in
        if String.eqb data "[DONE]" then st
        else for_lines rest (on_payload data st)
      else for_lines rest st
  end.

(** One turn of [while (true)] with a read that is not [done]. *)
Definition on_read (st : Stream) (value : string) : Stream :=
  let buffer := (buffer st ++ value)%string in
  let lines := Js.split_newline buffer in
  let rest := last lines "" in
  for_lines (removelast lines)
    {| buffer := rest;
       fullText := fullText st;
       usage := usage st;
       finishReason := finishReason st;
       yielded := yielded st |}.

Definition start : Stream :=
  {| buffer := "";
     fullText := "";
     usage := None;
     finishReason := Js.Str "stop";
     yielded := [] |}.

(** The reads of a body, from first to last. *)
Definition read_all (reads : list string) : Stream := fold_left on_read reads start.

Definition fail (chunks : list Js.value) (message : string) : Outcome :=
  {| chunks := chunks;
     thrown := Some message;
     tracked :=
       Tracking.updateLLMCompletion
         {| Tracking.responseData := None;
            Tracking.completion_usage := None;
            Tracking.completion_finishReason := None;
            Tracking.completion_error := Some message |}
         Tracking.trackLLMRequest |}.

(** [streamText], from the response on, drained by its consumer. *)
Definition streamText (response : Response) : Outcome :=
  if negb (ok response) then
    fail [] ("DeepSeek R1 API error (" ++ http_status response ++ "): "
             ++ errorText response)%string
  else
    match body response with
    | None => fail [] "No response body received from DeepSeek R1 API"
    | Some (reads, Some readError) => fail (yielded (read_all reads)) readError
    | Some (reads, None) =>
        let st := read_all reads in
        {| chunks := yielded st;
           thrown := None;
           tracked :=
             Tracking.updateLLMCompletion
               {| Tracking.responseData := Some (fullText st);
                  Tracking.completion_usage := usage st;
                  Tracking.completion_finishReason := Some (finishReason st);
                  Tracking.completion_error := None |}
               Tracking.trackLLMRequest |}
    end.

End Adapter.

End DeepSeekR1Provider.

(** ** utils/tokenizer.ts *)

Module TokenizerManager.

Inductive EncodingName := cl100k_base | p50k_base.

(** A tiktoken encoder: the tokens of a text, or [None] when [encode]
    throws. *)
Definition TikTokenEncoder : Type := string -> option (list nat).

Section Tiktoken.

(** [get_encoding] of the tiktoken package: [None] when it throws.  The
    [encoders] map only caches its results. *)
Variable get_encoding : EncodingName -> option TikTokenEncoder.

Definition encodingName (model : string) : EncodingName :=
  if Js.startsWith model "gpt-4" || Js.startsWith model "gpt-3.5" then cl100k_base
  else if Js.startsWith model "text-davinci" || Js.startsWith model "text-curie"
       then p50k_base
  else if Js.startsWith model "gemini" then cl100k_base
  else cl100k_base.

Definition getEncoder (model : string) : option TikTokenEncoder :=
  get_encoding (encodingName model).

(** [Math.ceil(n / 4)] for a length [n]. *)
Definition ceil_quarter (n : nat) : Z := (Z.of_nat n + 3) / 4.

Definition countTokens (text : string) (model : string) : Z :=
  match getEncoder model with
  | Some encoder =>
      match encoder text with
      | Some tokens => Z.of_nat (List.length tokens)
      | None => ceil_quarter (String.length text)
      end
  | None => ceil_quarter (String.length text)
  end.

Record ChatMessage := {
  chat_role : string;
  chat_content : string;
  chat_name : option string
}.

(** The loop of [countMessageTokens]; [None] when an [encode] throws. *)
Fixpoint count_loop (encoder : TikTokenEncoder) (messages : list ChatMessage)
  (totalTokens : Z) : option Z :=
  match messages with
  | [] => Some totalTokens
  | message :: rest =>
      let totalTokens := (totalTokens + 3)%Z in
      let named :=
        match chat_name message with
        | Some name =>
            if Js.truthy_string name then
              match encoder name with
              | Some tokens => Some (totalTokens + Z.of_nat (List.length tokens))%Z
              | None => None
              end
            else Some totalTokens
        | None => Some totalTokens
        end in
      match named with
      | None => None
      | Some totalTokens =>
          match encoder (chat_role message), encoder (chat_content message) with
          | Some r, Some c =>
              count_loop encoder rest
                (totalTokens + Z.of_nat (List.length r) + Z.of_nat (List.length c))%Z
          | _, _ => None
          end
      end
  end.

Definition message_chars (msg : ChatMessage) : nat :=
  String.length (chat_content msg) + String.length (chat_role msg)
  + match chat_name msg with
    | Some name => String.length name
    | None => 0
    end.

Definition estimateMessageTokens (messages : list ChatMessage) : Z :=
  let totalChars := fold_left (fun sum msg => sum + message_chars msg)%nat messages 0%nat in
  (ceil_quarter totalChars + Z.of_nat (List.length messages) * 4)%Z.

Definition countMessageTokens (messages : list ChatMessage) (model : string) : Z :=
  match getEncoder model with
  | Some encoder =>
      match count_loop encoder messages 0 with
      | Some totalTokens => (totalTokens + 3)%Z
      | None => estimateMessageTokens messages
      end
  | None => estimateMessageTokens messages
  end.

Inductive Method := tiktoken | fallback.

Record TokenBreakdown := {
  total : Z;
  method : Method;
  encoding : option EncodingName
}.

(** [getTokenBreakdown]; the encoding it reports is
    [model.startsWith('gpt-4') ? 'cl100k_base' : 'p50k_base']. *)
Definition getTokenBreakdown (text : string) (model : string) : TokenBreakdown :=
  match getEncoder model with
  | Some encoder =>
      match encoder text with
      | Some tokens =>
          {| total := Z.of_nat (List.length tokens);
             method := tiktoken;
             encoding :=
               Some (if Js.startsWith model "gpt-4" then cl100k_base
                     else p50k_base) |}
      | None =>
          {| total := ceil_quarter (String.length text);
             method := fallback;
             encoding := None |}
      end
  | None =>
      {| total := ceil_quarter (String.length text);
         method := fallback;
         encoding := None |}
  end.

(** [decode] of the encoder of an encoding: [None] when it throws. *)
Variable get_decoding : EncodingName -> list nat -> option string.

(** [tokens.slice(0, end)]: a negative [end] counts from the end. *)
Definition slice_to {A : Type} (n : Z) (l : list A) : list A :=
  if (n <? 0)%Z then firstn (Z.to_nat (Z.of_nat (List.length l) + n)) l
  else firstn (Z.to_nat n) l.

(** The [catch] branch of [truncateToTokenLimit]; [substring] takes a
    negative end to be 0. *)
Definition truncate_chars (text : string) (maxTokens : Z) : string :=
  let maxChars := (maxTokens * 4)%Z in
  if (Z.of_nat (String.length text) <=? maxChars)%Z then text
  else String.substring 0 (Z.to_nat maxChars) text.

(** [truncateToTokenLimit], for a whole number of tokens. *)
Definition truncateToTokenLimit (text : string) (maxTokens : Z) (model : string)
  : string :=
  match getEncoder model with
  | Some encoder =>
      match encoder text with
      | Some tokens =>
          if (Z.of_nat (List.length tokens) <=? maxTokens)%Z then text
          else
            match get_decoding (encodingName model) (slice_to maxTokens tokens) with
            | Some truncated => truncated
            | None => truncate_chars text maxTokens
            end
      | None => truncate_chars text maxTokens
      end
  | None => truncate_chars text maxTokens
  end.

End Tiktoken.

End TokenizerManager.

(** ** db/schema.ts *)

Module Schema.

Inductive Role := user | assistant | system | tool.

Definition role_name (r : Role) : string :=
  match r with
  | user => "user"
  | assistant => "assistant"
  | system => "system"
  | tool => "tool"
  end.

Inductive Status := active | archived | deleted.

(** Session ids are the caller's strings; the ids of the other rows come
    from [crypto.randomUUID()], modelled by a counter of the database:
    no two rows ever get the same one. *)
Record Session := {
  session_id : string;
  session_name : option string;
  session_createdAt : Z;
  session_updatedAt : Z;
  lastMessageAt : option Z;
  session_status : Status;
  session_metadata : option string
}.

Record ConversationMessage := {
  message_id : nat;
  message_sessionId : string;
  messageIndex : Z;
  message_timestamp : Z;
  role : Role;
  content : string;
  toolName : option string;
  parentMessageId : option string;
  message_metadata : option string
}.

Record ConversationFile := {
  file_id : nat;
  file_sessionId : string;
  filePath : string;
  fileContent : option string;
  contentHash : option string;
  addedAt : Z;
  lastAccessedAt : Z;
  accessCount : Z;
  isRelevant : option bool
}.

Record ConversationBudget := {
  budget_id : nat;
  budget_sessionId : string;
  maxTokens : option Z;
  maxCostUsd : option float;
  maxDurationMs : option Z;
  usedTokens : Z;
  usedCostUsd : float;
  usedDurationMs : Z;
  budget_createdAt : Z;
  budget_updatedAt : Z
}.

(** The database: each table in row order.  [foreignKeys] tells whether
    the connection enforces the [references] clauses. *)
Record Db := {
  sessions : list Session;
  conversationMessages : list ConversationMessage;
  conversationFiles : list ConversationFile;
  conversationBudgets : list ConversationBudget;
  nextId : nat;
  foreignKeys : bool
}.

Definition session_exists (db : Db) (sessionId : string) : bool :=
  existsb (fun s => String.eqb (session_id s) sessionId) (sessions db).

(** The [references sessions.id] clause of the three child tables. *)
Definition references_ok (db : Db) (sessionId : string) : bool :=
  negb (foreignKeys db) || session_exists db sessionId.

(** [ORDER BY]: a stable insertion sort; [before x y] tells that [x] may
    stand before [y].  Rows with equal keys keep their row order (SQLite
    leaves their order open). *)
Fixpoint insert_sorted {A : Type} (before : A -> A -> bool) (x : A)
  (l : list A) : list A :=
  match l with
  | [] => [x]
  | y :: l' => if before x y then x :: l else y :: insert_sorted before x l'
  end.

Fixpoint orderBy {A : Type} (before : A -> A -> bool) (l : list A) : list A :=
  match l with
  | [] => []
  | x :: l' => insert_sorted before x (orderBy before l')
  end.

Definition asc {A : Type} (key : A -> Z) (x y : A) : bool := (key x <=? key y)%Z.
Definition desc {A : Type} (key : A -> Z) (x y : A) : bool := (key y <=? key x)%Z.

(** [uniqueIndex('conversation_messages_session_message_idx_unique')]. *)
Definition message_index_taken (db : Db) (sessionId : string) (index : Z)
  : bool :=
  existsb (fun m => String.eqb (message_sessionId m) sessionId
                    && (messageIndex m =? index)%Z)
          (conversationMessages db).

(** [uniqueIndex('conversation_files_session_hash_unique')]; SQLite holds
    NULL hashes to be distinct. *)
Definition file_hash_taken (db : Db) (sessionId : string) (hash : option string)
  : bool :=
  match hash with
  | None => false
  | Some h =>
      existsb (fun f => String.eqb (file_sessionId f) sessionId
                        && match contentHash f with
                           | Some h' => String.eqb h' h
                           | None => false
                           end)
              (conversationFiles db)
  end.

(** [uniqueIndex('conversation_budgets_session_id_unique')]. *)
Definition budget_session_taken (db : Db) (sessionId : string) : bool :=
  existsb (fun b => String.eqb (budget_sessionId b) sessionId)
          (conversationBudgets db).

(** The values of one row of [insert(conversationFiles)]. *)
Record NewFile := {
  new_sessionId : string;
  new_filePath : string;
  new_fileContent : string;
  new_contentHash : string;
  new_isRelevant : bool
}.

(** The statements that can be refused, with the values they carry;
    [id] is the identifier drawn for the row.  A statement is refused for
    a [references] clause, for a unique index or the primary key, for a
    number among its arguments that is [NaN] or infinite (libsql binds
    finite numbers only), or for an integer among the columns read back
    that is beyond the safe integers (libsql reads integers into numbers
    and throws a [RangeError] on such a one). *)
Inductive Statement :=
| insert_into_sessions (id : string) (name : option string) (now : Z)
| insert_into_conversation_messages (id : nat) (sessionId : string)
    (index : Z) (r : Role) (text : string) (tool parent meta : option string)
    (now : Z)
| insert_into_conversation_files (firstId : nat) (rows : list NewFile) (now : Z)
| insert_into_conversation_budgets (id : nat) (sessionId : string)
    (limitTokens : option Z) (limitCostUsd : option float)
    (limitDurationMs : option Z) (now : Z)
| update_conversation_budgets (id : nat) (limitTokens : option Z)
    (limitCostUsd : option float) (limitDurationMs : option Z) (now : Z)
| select_from_conversation_budgets (sessionId : string).

(** An integer column as libsql reads it: an integer of 64 bits is
    refused when it is beyond the safe integers; a number too large for
    64 bits was stored as a REAL and is read as it is. *)
Definition reads_as_number (n : Z) : bool :=
  Js.safe_integer n || (2 ^ 63 <=? Z.abs n)%Z.

Definition limit_reads (limit : option Z) : bool :=
  match limit with
  | Some n => reads_as_number n
  | None => true
  end.

(** A budget row that libsql can read. *)
Definition readable (b : ConversationBudget) : bool :=
  limit_reads (maxTokens b) && limit_reads (maxDurationMs b)
  && reads_as_number (usedTokens b) && reads_as_number (usedDurationMs b).

(** The limits of a budget, as arguments libsql can bind. *)
Definition limits_bind (limitTokens : option Z) (limitCostUsd : option float)
  (limitDurationMs : option Z) : bool :=
  match limitTokens with
  | Some n => Js.finite_integer n
  | None => true
  end
  && match limitCostUsd with
     | Some x => PrimFloat.is_finite x
     | None => true
     end
  && match limitDurationMs with
     | Some n => Js.finite_integer n
     | None => true
     end.

(** One row of [insert(conversationFiles).values(..)]: [addedAt] and
    [lastAccessedAt] default to the current time, [accessCount] to 0.
    [refused] is the message of the error thrown when the statement the
    row belongs to is refused. *)
Definition insert_file (refused : string) (values : NewFile)
  (now : Z) (db : Db) : string + Db :=
  if negb (references_ok db (new_sessionId values))
  then inl refused
  else if file_hash_taken db (new_sessionId values) (Some (new_contentHash values))
  then inl refused
  else
    let row :=
      {| file_id := nextId db;
         file_sessionId := new_sessionId values;
         filePath := new_filePath values;
         fileContent := Some (new_fileContent values);
         contentHash := Some (new_contentHash values);
         addedAt := now;
         lastAccessedAt := now;
         accessCount := 0;
         isRelevant := Some (new_isRelevant values) |} in
    inr {| sessions := sessions db;
           conversationMessages := conversationMessages db;
           conversationFiles := conversationFiles db ++ [row];
           conversationBudgets := conversationBudgets db;
           nextId := S (nextId db);
           foreignKeys := foreignKeys db |}.

(** A multi-row insert: row after row, the statement failing as a whole. *)
Fixpoint insert_files (refused : string) (rows : list NewFile)
  (now : Z) (db : Db) : string + Db :=
  match rows with
  | [] => inr db
  | values :: rest =>
      match insert_file refused values now db with
      | inl e => inl e
      | inr db' => insert_files refused rest now db'
      end
  end.

Section Driver.

(** The message of the error that is thrown when libsql refuses a
    statement: drizzle's [Failed query: ...] text, which gives the
    statement and its arguments; what libsql says of the refusal is the
    cause of the error and no part of its message. *)
Variable failed_query : Statement -> string.

(** [insert(conversationMessages).values(..).returning()]: the row gets a
    fresh id and the current time; the statement fails on a constraint. *)
Definition insert_message (sessionId : string) (index : Z) (r : Role)
  (text : string) (tool parent meta : option string) (now : Z) (db : Db)
  : string + (ConversationMessage * Db) :=
  if negb (references_ok db sessionId)
  then inl (failed_query
              (insert_into_conversation_messages (nextId db) sessionId index r
                 text tool parent meta now))
  else if message_index_taken db sessionId index
  then inl (failed_query
              (insert_into_conversation_messages (nextId db) sessionId index r
                 text tool parent meta now))
  else
    let row :=
      {| message_id := nextId db;
         message_sessionId := sessionId;
         messageIndex := index;
         message_timestamp := now;
         role := r;
         content := text;
         toolName := tool;
         parentMessageId := parent;
         message_metadata := meta |} in
    inr (row,
         {| sessions := sessions db;
            conversationMessages := conversationMessages db ++ [row];
            conversationFiles := conversationFiles db;
            conversationBudgets := conversationBudgets db;
            nextId := S (nextId db);
            foreignKeys := foreignKeys db |}).

(** [insert(conversationBudgets).values(..).returning()]: a limit that is
    [undefined] is stored as NULL, the used counters default to 0 and the
    two dates to the current time.  The arguments are bound, the row is
    inserted, and the row is read back. *)
Definition insert_budget (sessionId : string) (limitTokens : option Z)
  (limitCostUsd : option float) (limitDurationMs : option Z) (now : Z) (db : Db)
  : string + (ConversationBudget * Db) :=
  let statement :=
    insert_into_conversation_budgets (nextId db) sessionId limitTokens
      limitCostUsd limitDurationMs now in
  if negb (limits_bind limitTokens limitCostUsd limitDurationMs)
  then inl (failed_query statement)
  else if negb (references_ok db sessionId)
  then inl (failed_query statement)
  else if budget_session_taken db sessionId
  then inl (failed_query statement)
  else if negb (limit_reads limitTokens && limit_reads limitDurationMs)
  then inl (failed_query statement)
  else
    let row :=
      {| budget_id := nextId db;
         budget_sessionId := sessionId;
         maxTokens := limitTokens;
         maxCostUsd := limitCostUsd;
         maxDurationMs := limitDurationMs;
         usedTokens := 0;
         usedCostUsd := 0%float;
         usedDurationMs := 0;
         budget_createdAt := now;
         budget_updatedAt := now |} in
    inr (row,
         {| sessions := sessions db;
            conversationMessages := conversationMessages db;
            conversationFiles := conversationFiles db;
            conversationBudgets := conversationBudgets db ++ [row];
            nextId := S (nextId db);
            foreignKeys := foreignKeys db |}).

(** [insert(sessions).values({ id, name, status: 'active' }).returning()]:
    an [id] that is [undefined] is drawn by [crypto.randomUUID()], here
    [uuid]; the two dates default to the current time.  [id] is the
    primary key. *)
Definition insert_session (uuid : string) (id name : option string) (now : Z)
  (db : Db) : string + (Session * Db) :=
  let id := match id with
            | Some id => id
            | None => uuid
            end in
  if session_exists db id
  then inl (failed_query (insert_into_sessions id name now))
  else
    let row :=
      {| session_id := id;
         session_name := name;
         session_createdAt := now;
         session_updatedAt := now;
         lastMessageAt := None;
         session_status := active;
         session_metadata := None |} in
    inr (row,
         {| sessions := sessions db ++ [row];
            conversationMessages := conversationMessages db;
            conversationFiles := conversationFiles db;
            conversationBudgets := conversationBudgets db;
            nextId := S (nextId db);
            foreignKeys := foreignKeys db |}).

End Driver.

(** [a LEFT JOIN b ON on]: each row of [a] with each row of [b] that
    matches it, or with NULL when none does. *)
Definition leftJoin {A B : Type} (on : A -> B -> bool) (a : list A) (b : list B)
  : list (A * option B) :=
  flat_map
    (fun x =>
       match filter (on x) b with
       | [] => [(x, None)]
       | matching => map (fun y => (x, Some y)) matching
       end) a.

(** [count(column)] over the rows of a group: the rows where the column
    is not NULL. *)
Definition count {A B : Type} (column : A -> option B) (rows : list A) : Z :=
  Z.of_nat (List.length (filter (fun row => match column row with
                                            | Some _ => true
                                            | None => false
                                            end) rows)).

(** [ORDER BY desc(column)] on a column that may be NULL: SQLite holds
    NULL to be smaller than every value, so it comes last. *)
Definition desc_nullable {A : Type} (key : A -> option Z) (x y : A) : bool :=
  match key x, key y with
  | _, None => true
  | None, Some _ => false
  | Some a, Some b => (b <=? a)%Z
  end.

End Schema.

(** ** db/conversation-memory.ts *)

Module ConversationMemoryManager.
Import Schema.

(** The literals [0.7] and [0.3]: the binary64 values nearest to them. *)
Definition MESSAGE_TOKEN_RATIO : float := 0x1.6666666666666p-1%float.
Definition FILE_TOKEN_RATIO : float := 0x1.3333333333333p-2%float.

Record FileInput := {
  in_filePath : string;
  in_content : string
}.

Record FileData := {
  data_filePath : string;
  data_content : string;
  data_contentHash : string
}.

Record FileUpdate := {
  update_id : nat;
  update_accessCount : Z
}.

(** A file row with the [content] field [getConversationContext] adds. *)
Record ContextFile := {
  file_row : ConversationFile;
  file_content : option string
}.

Record ConversationContext := {
  context_sessionId : string;
  context_messages : list ConversationMessage;
  context_files : list ContextFile;
  context_budget : option ConversationBudget;
  totalTokens : float;
  totalCost : float
}.

Record BudgetCheck := {
  withinLimits : bool;
  tokenLimitExceeded : bool;
  costLimitExceeded : bool;
  durationLimitExceeded : bool
}.

Section Manager.

(** The message of the error thrown for a statement that libsql refuses
    (see [Schema]). *)
Variable failed_query : Statement -> string.

(** [createHash('sha256').update(content).digest('hex')]. *)
Variable sha256 : string -> string.

(** The tiktoken package (see [TokenizerManager]). *)
Variable get_encoding :
  TokenizerManager.EncodingName -> option TokenizerManager.TikTokenEncoder.

Definition in_session (sessionId : string) (m : ConversationMessage) : bool :=
  String.eqb (message_sessionId m) sessionId.

(** [update(sessions).set({ lastMessageAt, updatedAt }).where(id = ..)]. *)
Definition touch_session (sessionId : string) (now : Z) (s : Session) : Session :=
  if String.eqb (session_id s) sessionId then
    {| session_id := session_id s;
       session_name := session_name s;
       session_createdAt := session_createdAt s;
       session_updatedAt := now;
       lastMessageAt := Some now;
       session_status := session_status s;
       session_metadata := session_metadata s |}
  else s.

(** The body of the transaction of [addMessage]. *)
Definition addMessage_tx (sessionId : string) (r : Role) (text : string)
  (tool parent meta : option string) (now : Z) (tx : Db)
  : string + (ConversationMessage * Db) :=
  let lastMessage :=
    firstn 1 (orderBy (desc messageIndex)
                (filter (in_session sessionId) (conversationMessages tx))) in
  let messageIndex :=
    (match lastMessage with
     | last :: _ => messageIndex last
     | [] => -1
     end + 1)%Z in
  match insert_message failed_query sessionId messageIndex r text tool parent
          meta now tx with
  | inl e => inl e
  | inr (message, tx1) =>
      inr (message,
           {| sessions := map (touch_session sessionId now) (sessions tx1);
              conversationMessages := conversationMessages tx1;
              conversationFiles := conversationFiles tx1;
              conversationBudgets := conversationBudgets tx1;
              nextId := nextId tx1;
              foreignKeys := foreignKeys tx1 |})
  end.

(** [addMessage]: the row inserted, or the message of the error thrown;
    a failed transaction leaves the database as it was. *)
Definition addMessage (sessionId : string) (r : Role) (text : string)
  (tool parent meta : option string) (now : Z) (db : Db)
  : (string + ConversationMessage) * Db :=
  match addMessage_tx sessionId r text tool parent meta now db with
  | inr (message, db') => (inr message, db')
  | inl e => (inl ("Failed to add message: " ++ e)%string, db)
  end.

Definition hash_is (h : string) (f : ConversationFile) : bool :=
  match contentHash f with
  | Some h' => String.eqb h' h
  | None => false
  end.

(** [inArray(conversationFiles.contentHash, contentHashes)]. *)
Definition inArray (hash : option string) (contentHashes : list string) : bool :=
  match hash with
  | Some h => existsb (String.eqb h) contentHashes
  | None => false
  end.

(** [existingHashMap.get(h)]: of the rows put into the [Map] under one
    key, the last one stays. *)
Definition existingHashMap_get (existingFiles : list ConversationFile)
  (h : string) : option ConversationFile :=
  find (hash_is h) (rev existingFiles).

(** The loop filling [filesToInsert] and [filesToUpdate]. *)
Fixpoint plan_files (sessionId : string) (existingFiles : list ConversationFile)
  (fileData : list FileData) : list NewFile * list FileUpdate :=
  match fileData with
  | [] => ([], [])
  | file :: rest =>
      let '(filesToInsert, filesToUpdate) :=
        plan_files sessionId existingFiles rest in
      match existingHashMap_get existingFiles (data_contentHash file) with
      | None =>
          ({| new_sessionId := sessionId;
              new_filePath := data_filePath file;
              new_fileContent := data_content file;
              new_contentHash := data_contentHash file;
              new_isRelevant := true |} :: filesToInsert,
           filesToUpdate)
      | Some existing =>
          (filesToInsert,
           {| update_id := file_id existing;
              update_accessCount := (accessCount existing + 1)%Z |}
           :: filesToUpdate)
      end
  end.

(** [update(conversationFiles).set({ lastAccessedAt, accessCount })
     .where(id = update.id)]. *)
Definition apply_update (now : Z) (update : FileUpdate) (f : ConversationFile)
  : ConversationFile :=
  if (file_id f =? update_id update)%nat then
    {| file_id := file_id f;
       file_sessionId := file_sessionId f;
       filePath := filePath f;
       fileContent := fileContent f;
       contentHash := contentHash f;
       addedAt := addedAt f;
       lastAccessedAt := now;
       accessCount := update_accessCount update;
       isRelevant := isRelevant f |}
  else f.

Definition update_file (now : Z) (tx : Db) (update : FileUpdate) : Db :=
  {| sessions := sessions tx;
     conversationMessages := conversationMessages tx;
     conversationFiles := map (apply_update now update) (conversationFiles tx);
     conversationBudgets := conversationBudgets tx;
     nextId := nextId tx;
     foreignKeys := foreignKeys tx |}.

(** The body of the transaction of [addFiles]. *)
Definition addFiles_tx (sessionId : string) (files : list FileInput) (now : Z)
  (tx : Db) : string + Db :=
  let fileData :=
    map (fun file => {| data_filePath := in_filePath file;
                        data_content := in_content file;
                        data_contentHash := sha256 (in_content file) |}) files in
  let contentHashes := map data_contentHash fileData in
  let existingFiles :=
    if (0 <? List.length contentHashes)%nat then
      filter (fun f => String.eqb (file_sessionId f) sessionId
                       && inArray (contentHash f) contentHashes)
             (conversationFiles tx)
    else [] in
  let '(filesToInsert, filesToUpdate) :=
    plan_files sessionId existingFiles fileData in
  let inserted :=
    if (0 <? List.length filesToInsert)%nat
    then insert_files
           (failed_query
              (insert_into_conversation_files (nextId tx) filesToInsert now))
           filesToInsert now tx
    else inr tx in
  match inserted with
  | inl e => inl e
  | inr tx1 => inr (fold_left (update_file now) filesToUpdate tx1)
  end.

(** [addFiles]: a failed transaction leaves the database as it was. *)
Definition addFiles (sessionId : string) (files : list FileInput) (now : Z)
  (db : Db) : (string + unit) * Db :=
  match addFiles_tx sessionId files now db with
  | inr db' => (inr tt, db')
  | inl e => (inl ("Failed to add files: " ++ e)%string, db)
  end.

(** [file.content || file.fileContent || '']. *)
Definition content_of (file : ContextFile) : string :=
  match file_content file with
  | Some c =>
      if Js.truthy_string c then c
      else match fileContent (file_row file) with
           | Some c' => c'
           | None => ""
           end
  | None =>
      match fileContent (file_row file) with
      | Some c' => c'
      | None => ""
      end
  end.

(** The loop of [pruneMessages], from the newest message down;
    [result.unshift] puts each admitted message in front. *)
Fixpoint pruneMessages_loop (newestFirst : list ConversationMessage)
  (maxTokens : float) (model : string) (totalTokens : Z)
  (result : list ConversationMessage) : list ConversationMessage :=
  match newestFirst with
  | [] => result
  | message :: older =>
      let tokens := TokenizerManager.countTokens get_encoding (content message) model in
      if Js.gt (Js.of_int (totalTokens + tokens)) maxTokens then result
      else pruneMessages_loop older maxTokens model (totalTokens + tokens)%Z
             (message :: result)
  end.

Definition pruneMessages (messages : list ConversationMessage)
  (maxTokens : float) (model : string) : list ConversationMessage :=
  pruneMessages_loop (rev messages) maxTokens model 0 [].

(** The loop of [pruneFiles]; [result.push] appends. *)
Fixpoint pruneFiles_loop (files : list ContextFile) (maxTokens : float)
  (model : string) (totalTokens : Z) (result : list ContextFile)
  : list ContextFile :=
  match files with
  | [] => result
  | file :: rest =>
      let tokens := TokenizerManager.countTokens get_encoding (content_of file) model in
      if Js.gt (Js.of_int (totalTokens + tokens)) maxTokens then result
      else pruneFiles_loop rest maxTokens model (totalTokens + tokens)%Z
             (result ++ [file])
  end.

Definition pruneFiles (files : list ContextFile) (maxTokens : float)
  (model : string) : list ContextFile :=
  pruneFiles_loop files maxTokens model 0 [].

Definition budget_of (sessionId : string) (db : Db) : list ConversationBudget :=
  firstn 1 (filter (fun b => String.eqb (budget_sessionId b) sessionId)
              (conversationBudgets db)).

(** [budget[0]?.usedCostUsd || 0]. *)
Definition usedCost_or_0 (budget : list ConversationBudget) : float :=
  match budget with
  | b :: _ => if Js.truthy_number (usedCostUsd b) then usedCostUsd b else 0%float
  | [] => 0%float
  end.

(** [file => ({ ...file, content: file.fileContent || undefined })]. *)
Definition with_content (file : ConversationFile) : ContextFile :=
  {| file_row := file;
     file_content :=
       match fileContent file with
       | Some c => if Js.truthy_string c then Some c else None
       | None => None
       end |}.

Definition relevant_in (sessionId : string) (f : ConversationFile) : bool :=
  String.eqb (file_sessionId f) sessionId
  && match isRelevant f with
     | Some true => true
     | _ => false
     end.

(** [getConversationContext]; [maxTokens] is the optional argument. *)
Definition getConversationContext (sessionId : string)
  (maxTokens : option float) (includeFiles : bool) (model : string) (db : Db)
  : ConversationContext :=
  let budget := budget_of sessionId db in
  let messages :=
    orderBy (asc messageIndex)
      (filter (in_session sessionId) (conversationMessages db)) in
  let files :=
    if includeFiles then
      map with_content
        (orderBy (desc lastAccessedAt)
           (filter (relevant_in sessionId) (conversationFiles db)))
    else [] in
  let messageTokens :=
    TokenizerManager.countMessageTokens get_encoding
      (map (fun m => {| TokenizerManager.chat_role := role_name (role m);
                        TokenizerManager.chat_content := content m;
                        TokenizerManager.chat_name := None |}) messages)
      model in
  let fileTokens :=
    fold_left
      (fun sum file =>
         (sum + TokenizerManager.countTokens get_encoding (content_of file) model)%Z)
      files 0%Z in
  let totalTokens := (messageTokens + fileTokens)%Z in
  match maxTokens with
  | Some limit =>
      if Js.truthy_number limit && Js.gt (Js.of_int totalTokens) limit then
        let prunedMessages :=
          pruneMessages messages
            (Js.floor (limit * MESSAGE_TOKEN_RATIO)%float) model in
        let prunedFiles :=
          pruneFiles files (Js.floor (limit * FILE_TOKEN_RATIO)%float) model in
        {| context_sessionId := sessionId;
           context_messages := prunedMessages;
           context_files := prunedFiles;
           context_budget := hd_error budget;
           totalTokens := limit;
           totalCost := usedCost_or_0 budget |}
      else
        {| context_sessionId := sessionId;
           context_messages := messages;
           context_files := files;
           context_budget := hd_error budget;
           totalTokens := Js.of_int totalTokens;
           totalCost := usedCost_or_0 budget |}
  | None =>
      {| context_sessionId := sessionId;
         context_messages := messages;
         context_files := files;
         context_budget := hd_error budget;
         totalTokens := Js.of_int totalTokens;
         totalCost := usedCost_or_0 budget |}
  end.

(** [checkBudgetLimits]. *)
Definition checkBudgetLimits (sessionId : string) (db : Db) : BudgetCheck :=
  match budget_of sessionId db with
  | [] =>
      {| withinLimits := true;
         tokenLimitExceeded := false;
         costLimitExceeded := false;
         durationLimitExceeded := false |}
  | b :: _ =>
      let tokenLimitExceeded :=
        match maxTokens b with
        | Some limit => (usedTokens b >=? limit)%Z
        | None => false
        end in
      let costLimitExceeded :=
        match maxCostUsd b with
        | Some limit => Js.ge (usedCostUsd b) limit
        | None => false
        end in
      let durationLimitExceeded :=
        match maxDurationMs b with
        | Some limit => (usedDurationMs b >=? limit)%Z
        | None => false
        end in
      {| withinLimits :=
           negb tokenLimitExceeded && negb costLimitExceeded
           && negb durationLimitExceeded;
         tokenLimitExceeded := tokenLimitExceeded;
         costLimitExceeded := costLimitExceeded;
         durationLimitExceeded := durationLimitExceeded |}
  end.

(** A column in [update(..).set({..})]: drizzle leaves out of the UPDATE
    the keys whose value is [undefined], so the column keeps its value. *)
Definition set_column {A : Type} (value old : option A) : option A :=
  match value with
  | Some v => Some v
  | None => old
  end.

(** [update(conversationBudgets).set({ maxTokens, maxCostUsd,
     maxDurationMs, updatedAt }).where(id = ..)] on one row. *)
Definition set_limits (limitTokens : option Z) (limitCostUsd : option float)
  (limitDurationMs : option Z) (now : Z) (id : nat) (b : ConversationBudget)
  : ConversationBudget :=
  if (budget_id b =? id)%nat then
    {| budget_id := budget_id b;
       budget_sessionId := budget_sessionId b;
       maxTokens := set_column limitTokens (maxTokens b);
       maxCostUsd := set_column limitCostUsd (maxCostUsd b);
       maxDurationMs := set_column limitDurationMs (maxDurationMs b);
       usedTokens := usedTokens b;
       usedCostUsd := usedCostUsd b;
       usedDurationMs := usedDurationMs b;
       budget_createdAt := budget_createdAt b;
       budget_updatedAt := now |}
  else b.

Definition with_budgets (rows : list ConversationBudget) (db : Db) : Db :=
  {| sessions := sessions db;
     conversationMessages := conversationMessages db;
     conversationFiles := conversationFiles db;
     conversationBudgets := rows;
     nextId := nextId db;
     foreignKeys := foreignKeys db |}.

(** The body of the transaction of [setBudget]; the limits are the
    optional arguments, numbers that hold integers for the token and the
    duration limit as their columns are.  The row selected is read, the
    limits are bound and the row that [returning()] gives is read: each
    can be refused.  [id] being the primary key, the row [returning()]
    gives is the one read. *)
Definition setBudget_tx (sessionId : string) (limitTokens : option Z)
  (limitCostUsd : option float) (limitDurationMs : option Z) (now : Z) (tx : Db)
  : string + (ConversationBudget * Db) :=
  match budget_of sessionId tx with
  | existing0 :: _ =>
      let id := budget_id existing0 in
      let statement :=
        update_conversation_budgets id limitTokens limitCostUsd
          limitDurationMs now in
      let updated :=
        set_limits limitTokens limitCostUsd limitDurationMs now id existing0 in
      if negb (readable existing0)
      then inl (failed_query (select_from_conversation_budgets sessionId))
      else if negb (limits_bind limitTokens limitCostUsd limitDurationMs)
      then inl (failed_query statement)
      else if negb (readable updated)
      then inl (failed_query statement)
      else
        inr (updated,
             with_budgets
               (map (set_limits limitTokens limitCostUsd limitDurationMs now id)
                  (conversationBudgets tx)) tx)
  | [] =>
      insert_budget failed_query sessionId limitTokens limitCostUsd
        limitDurationMs now tx
  end.

(** [setBudget]: the budget row, or the message of the error thrown. *)
Definition setBudget (sessionId : string) (limitTokens : option Z)
  (limitCostUsd : option float) (limitDurationMs : option Z) (now : Z) (db : Db)
  : (string + ConversationBudget) * Db :=
  match setBudget_tx sessionId limitTokens limitCostUsd limitDurationMs now db with
  | inr (budget, db') => (inr budget, db')
  | inl e => (inl ("Failed to set budget: " ++ e)%string, db)
  end.

(** [update(conversationBudgets).set({ usedTokens: existing[0].usedTokens
     + tokens, .. }).where(id = existing[0].id)] on one row.  The sums are
    sums of numbers: the one of two integers is the number nearest to
    it. *)
Definition add_usage (tokens : Z) (costUsd : float) (durationMs : Z) (now : Z)
  (existing0 b : ConversationBudget) : ConversationBudget :=
  if (budget_id b =? budget_id existing0)%nat then
    {| budget_id := budget_id b;
       budget_sessionId := budget_sessionId b;
       maxTokens := maxTokens b;
       maxCostUsd := maxCostUsd b;
       maxDurationMs := maxDurationMs b;
       usedTokens := Js.nearest_double (usedTokens existing0 + tokens);
       usedCostUsd := (usedCostUsd existing0 + costUsd)%float;
       usedDurationMs := Js.nearest_double (usedDurationMs existing0 + durationMs);
       budget_createdAt := budget_createdAt b;
       budget_updatedAt := now |}
  else b.

(** The three sums of [updateBudgetUsage], as arguments libsql can bind. *)
Definition usage_binds (tokens : Z) (costUsd : float) (durationMs : Z)
  (existing0 : ConversationBudget) : bool :=
  Js.finite_integer (Js.nearest_double (usedTokens existing0 + tokens))
  && PrimFloat.is_finite (usedCostUsd existing0 + costUsd)%float
  && Js.finite_integer (Js.nearest_double (usedDurationMs existing0 + durationMs)).

(** [updateBudgetUsage]: it returns nothing and throws nothing; an error
    of the transaction (a row that cannot be read, a sum that cannot be
    bound) is logged and the budget stays as it was.  The UPDATE has no
    [returning()]: what it stores is not read back. *)
Definition updateBudgetUsage (sessionId : string) (tokens : Z) (costUsd : float)
  (durationMs : Z) (now : Z) (db : Db) : Db :=
  match budget_of sessionId db with
  | existing0 :: _ =>
      if readable existing0 && usage_binds tokens costUsd durationMs existing0
      then
        with_budgets
          (map (add_usage tokens costUsd durationMs now existing0)
             (conversationBudgets db)) db
      else db
  | [] => db
  end.

(** [crypto.randomUUID()]: the identifier drawn from the state of the
    generator, here the counter of the database. *)
Variable randomUUID : nat -> string.

(** [getOrCreateSession]; both arguments are optional. *)
Definition getOrCreateSession (sessionId name : option string) (now : Z)
  (db : Db) : (string + Session) * Db :=
  let existing :=
    match sessionId with
    | Some id =>
        if Js.truthy_string id then
          firstn 1 (filter (fun s => String.eqb (session_id s) id) (sessions db))
        else []
    | None => []
    end in
  match existing with
  | session :: _ => (inr session, db)
  | [] =>
      match insert_session failed_query (randomUUID (nextId db)) sessionId name
              now db with
      | inr (newSession, db') => (inr newSession, db')
      | inl e => (inl ("Failed to get or create session: " ++ e)%string, db)
      end
  end.

(** [update(sessions).set({ status, updatedAt }).where(id = ..)] on one
    row. *)
Definition set_status (sessionId : string) (status : Status) (now : Z)
  (s : Session) : Session :=
  if String.eqb (session_id s) sessionId then
    {| session_id := session_id s;
       session_name := session_name s;
       session_createdAt := session_createdAt s;
       session_updatedAt := now;
       lastMessageAt := lastMessageAt s;
       session_status := status;
       session_metadata := session_metadata s |}
  else s.

Definition updateSessionStatus (sessionId : string) (status : Status) (now : Z)
  (db : Db) : Db :=
  {| sessions := map (set_status sessionId status now) (sessions db);
     conversationMessages := conversationMessages db;
     conversationFiles := conversationFiles db;
     conversationBudgets := conversationBudgets db;
     nextId := nextId db;
     foreignKeys := foreignKeys db |}.

Definition status_eqb (a b : Status) : bool :=
  match a, b with
  | active, active | archived, archived | deleted, deleted => true
  | _, _ => false
  end.

Record SessionSummary := {
  summary_id : string;
  summary_name : option string;
  messageCount : Z;
  fileCount : Z;
  summary_totalTokens : Z;
  summary_totalCost : float;
  lastActivity : Z;
  summary_status : Status
}.

Record SessionList := {
  list_sessions : list SessionSummary;
  totalCount : Z;
  hasMore : bool
}.

(** A row of [sessionData]. *)
Record SessionData := {
  data_id : string;
  data_name : option string;
  data_status : Status;
  data_lastMessageAt : option Z;
  data_messageCount : Z;
  data_fileCount : Z
}.

(** The rows of [sessions LEFT JOIN conversationMessages LEFT JOIN
    conversationFiles] that come from one session: [GROUP BY sessions.id]
    makes one group of them, [id] being the primary key. *)
Definition group_of (s : Session) (db : Db)
  : list (Session * option ConversationMessage * option ConversationFile) :=
  leftJoin (fun row f => String.eqb (session_id (fst row)) (file_sessionId f))
    (leftJoin (fun s m => String.eqb (session_id s) (message_sessionId m))
       [s] (conversationMessages db))
    (conversationFiles db).

(** The grouped query of [listSessions], before [limit] and [offset]. *)
Definition sessionData_all (status : Status) (db : Db) : list SessionData :=
  orderBy (desc_nullable data_lastMessageAt)
    (map (fun s =>
            {| data_id := session_id s;
               data_name := session_name s;
               data_status := session_status s;
               data_lastMessageAt := lastMessageAt s;
               data_messageCount :=
                 count (fun row => option_map message_id (snd (fst row)))
                   (group_of s db);
               data_fileCount :=
                 count (fun row => option_map file_id (snd row))
                   (group_of s db) |})
       (filter (fun s => status_eqb (session_status s) status) (sessions db))).

(** [budgetMap.get(id)]: of the rows put into the [Map] under one key,
    the last one stays. *)
Definition budgetMap_get (budgets : list ConversationBudget) (id : string)
  : option ConversationBudget :=
  find (fun b => String.eqb (budget_sessionId b) id) (rev budgets).

(** [listSessions]; [limit] and [offset] are counts of rows. *)
Definition listSessions (status : Status) (limit offset : nat) (now : Z)
  (db : Db) : SessionList :=
  let totalCount :=
    Z.of_nat (List.length
                (filter (fun s => status_eqb (session_status s) status)
                   (sessions db))) in
  let sessionData := firstn limit (skipn offset (sessionData_all status db)) in
  let sessionIds := map data_id sessionData in
  let budgets :=
    if (0 <? List.length sessionIds)%nat then
      filter (fun b => existsb (String.eqb (budget_sessionId b)) sessionIds)
        (conversationBudgets db)
    else [] in
  let result :=
    map (fun session =>
           {| summary_id := data_id session;
              summary_name :=
                match data_name session with
                | Some name => if Js.truthy_string name then Some name else None
                | None => None
                end;
              messageCount := data_messageCount session;
              fileCount := data_fileCount session;
              summary_totalTokens :=
                match budgetMap_get budgets (data_id session) with
                | Some b => usedTokens b
                | None => 0%Z
                end;
              summary_totalCost :=
                match budgetMap_get budgets (data_id session) with
                | Some b =>
                    if Js.truthy_number (usedCostUsd b) then usedCostUsd b
                    else 0%float
                | None => 0%float
                end;
              lastActivity :=
                match data_lastMessageAt session with
                | Some t => t
                | None => now
                end;
              summary_status := data_status session |})
        sessionData in
  {| list_sessions := result;
     totalCount := totalCount;
     hasMore := (Z.of_nat offset + Z.of_nat limit <? totalCount)%Z |}.

End Manager.

End ConversationMemoryManager.

(** ** The tool handlers that follow the adapter in providers/openai.ts *)

Module UltraTools.
Import Schema ConversationMemoryManager.

(** A message of the request to a provider. *)
Record PromptMessage := {
  prompt_role : Role;
  prompt_content : string
}.

Record GenerateRequest := {
  request_model : string;
  request_messages : list PromptMessage;
  request_stream : bool
}.

Record GenerateResult := {
  result_content : string;
  result_model : string
}.

(** A provider of the provider manager; [generateResponse] gives the
    message of the error when it throws. *)
Record AIProvider := {
  generateResponse : GenerateRequest -> string + GenerateResult;
  getDefaultModel : string
}.

(** The object stored as a message's metadata. *)
Record Metadata := {
  meta_provider : option string;
  meta_model : string;
  meta_continuedFromSession : option bool
}.

Record ContinuationArgs := {
  continuation_sessionId : string;
  continuation_prompt : string;
  continuation_provider : option string;
  continuation_model : option string;
  continuation_includeFiles : option bool
}.

Definition nl : string := String Js.newline EmptyString.

(** [model || aiProvider.getDefaultModel()]. *)
Definition model_or_default (model : option string) (aiProvider : AIProvider)
  : string :=
  match model with
  | Some m => if Js.truthy_string m then m else getDefaultModel aiProvider
  | None => getDefaultModel aiProvider
  end.

(** A file in the template of the file context; [null] prints as
    [null]. *)
Definition file_entry (f : ContextFile) : string :=
  ("**" ++ filePath (file_row f) ++ "**:" ++ nl
   ++ match fileContent (file_row f) with
      | Some c => c
      | None => "null"
      end)%string.

Definition file_context (files : list ContextFile) : string :=
  if (0 <? List.length files)%nat then
    (nl ++ nl ++ "Relevant files from conversation:" ++ nl
     ++ String.concat (nl ++ nl) (map file_entry files))%string
  else ""%string.

(** The history sent to the model: the messages whose role is not
    [tool]. *)
Definition history (messages : list ConversationMessage) : list PromptMessage :=
  map (fun msg => {| prompt_role := role msg; prompt_content := content msg |})
    (filter (fun msg => match role msg with
                        | tool => false
                        | _ => true
                        end) messages).

Section Handlers.

(** The message of the error thrown for a statement that libsql refuses
    (see [Schema]). *)
Variable failed_query : Statement -> string.

Variable get_encoding :
  TokenizerManager.EncodingName -> option TokenizerManager.TikTokenEncoder.

Variable randomUUID : nat -> string.

(** [providerManager.getProvider(provider)]: the message of the error
    when it throws. *)
Variable getProvider : option string -> string + AIProvider.

(** [JSON.stringify] of a metadata object, as the [json] column stores
    it. *)
Variable JSON_stringify : Metadata -> string.

(** A length in a template literal. *)
Variable lengthToString : nat -> string.

(** [handleContinuation]: the text returned, or the message of the error
    thrown; [t1] and [t2] are the times of the two inserts. *)
Definition handleContinuation (args : ContinuationArgs) (t1 t2 : Z) (db : Db)
  : (string + string) * Db :=
  let sessionId := continuation_sessionId args in
  let prompt := continuation_prompt args in
  let includeFiles :=
    match continuation_includeFiles args with
    | Some b => b
    | None => true
    end in
  let context :=
    getConversationContext get_encoding sessionId (Some 8000%float)
      includeFiles "gpt-4" db in
  if (List.length (context_messages context) =? 0)%nat then
    (inl ("No conversation found for session " ++ sessionId)%string, db)
  else
    let messages := history (context_messages context) in
    let fileContext := file_context (context_files context) in
    let messages :=
      messages ++ [ {| prompt_role := user;
                       prompt_content := (prompt ++ fileContext)%string |} ] in
    match getProvider (continuation_provider args) with
    | inl e => (inl e, db)
    | inr aiProvider =>
        match generateResponse aiProvider
                {| request_model :=
                     model_or_default (continuation_model args) aiProvider;
                   request_messages := messages;
                   request_stream := false |} with
        | inl e => (inl e, db)
        | inr result =>
            match addMessage failed_query sessionId user prompt
                    (Some "continuation"%string) None None t1 db with
            | (inl e, db1) => (inl e, db1)
            | (inr _, db1) =>
                match addMessage failed_query sessionId assistant
                        (result_content result)
                        (Some "continuation"%string) None
                        (Some (JSON_stringify
                                 {| meta_provider := continuation_provider args;
                                    meta_model := result_model result;
                                    meta_continuedFromSession := Some true |}))
                        t2 db1 with
                | (inl e, db2) => (inl e, db2)
                | (inr _, db2) =>
                    (inr ("## Continued Conversation" ++ nl ++ nl
                          ++ "Session: " ++ sessionId ++ nl
                          ++ "Context: "
                          ++ lengthToString (List.length (context_messages context))
                          ++ " messages, "
                          ++ lengthToString (List.length (context_files context))
                          ++ " files" ++ nl ++ nl
                          ++ result_content result)%string,
                     db2)
                end
            end
        end
    end.

End Handlers.

End UltraTools.

(** ** Readings of the specification

    Definitions that follow the wording of the specification, to be
    compared with the functions translated from the sources, and the
    vocabulary in which the properties of Part II are stated. *)

Module Claimed.
Import Types PricingCalculator PricingFetcher.

(** The cost of one side as the specification words it: tiered whenever
    the count exceeds the threshold and the entry carries an above-200k
    rate. *)
Definition side_cost (tokens base : float) (above : option float) : float :=
  match above with
  | Some aboveRate =>
      if Js.gt tokens TIERED_PRICING_THRESHOLD
      then (TIERED_PRICING_THRESHOLD * base
            + (tokens - TIERED_PRICING_THRESHOLD) * aboveRate)%float
      else (tokens * base)%float
  | None => (tokens * base)%float
  end.

(** The same with the rate required to be non-zero (and a number). *)
Definition side_tiered (tokens : float) (above : option float) : bool :=
  match above with
  | Some aboveRate =>
      Js.gt tokens TIERED_PRICING_THRESHOLD && Js.truthy_number aboveRate
  | None => false
  end.

Definition side_cost_nonzero (tokens base : float) (above : option float)
  : float :=
  match above with
  | Some aboveRate =>
      if Js.gt tokens TIERED_PRICING_THRESHOLD && Js.truthy_number aboveRate
      then (TIERED_PRICING_THRESHOLD * base
            + (tokens - TIERED_PRICING_THRESHOLD) * aboveRate)%float
      else (tokens * base)%float
  | None => (tokens * base)%float
  end.

(** The world after a fetch that succeeded and was saved. *)
Definition refreshed (ttl : Z) (freshData : PricingData) (w : World) : World :=
  {| now := now w;
     cacheFile :=
       Some {| metadata := {| timestamp := now w;
                              source := LITELLM_PRICING_URL;
                              ttl := ttl |};
               data := freshData |};
     remote := remote w;
     writeError := writeError w;
     requests := S (requests w) |}.

(** The world after a fetch that failed. *)
Definition attempted (w : World) : World :=
  {| now := now w;
     cacheFile := cacheFile w;
     remote := remote w;
     writeError := writeError w;
     requests := S (requests w) |}.

(** The fetch or the save of [getLatestPricing] fails, with the rendering
    of the error: the remote fails, or it serves a catalog that cannot be
    written to the cache file. *)
Definition refresh_fails (failure : string) (w : World) : Prop :=
  remote w = inl failure
  \/ ((exists freshData, remote w = inr freshData)
      /\ writeError w = Some failure).

(** The disk cache is usable without a fetch: not forced, present, and of
    age within the TTL. *)
Definition served_from_cache (ttl : Z) (forceRefresh : bool) (w : World)
  : Prop :=
  forceRefresh = false /\
  exists cached, cacheFile w = Some cached
                 /\ (now w - timestamp (metadata cached) <= ttl)%Z.

(** The indices of a session's messages, in row (insertion) order. *)
Definition session_indices (sessionId : string) (db : Schema.Db) : list Z :=
  map Schema.messageIndex
    (filter (ConversationMemoryManager.in_session sessionId)
       (Schema.conversationMessages db)).

(** The largest of a list of indices, if any. *)
Fixpoint largest (l : list Z) : option Z :=
  match l with
  | [] => None
  | x :: r =>
      match largest r with
      | None => Some x
      | Some m => Some (Z.max x m)
      end
  end.

(** One plus the largest existing index, or 0 when there is none. *)
Definition next_index (existing : list Z) : Z :=
  match largest existing with
  | Some m => m + 1
  | None => 0
  end.

(** The indices [0, 1, ..., n-1]. *)
Definition first_indices (n : nat) : list Z := map Z.of_nat (seq 0 n).

(** The arguments of one [addMessage] call. *)
Record AddMessageCall := {
  call_sessionId : string;
  call_role : Schema.Role;
  call_content : string;
  call_toolName : option string;
  call_parentMessageId : option string;
  call_metadata : option string;
  call_now : Z
}.

Definition on_session (sessionId : string) (c : AddMessageCall) : bool :=
  String.eqb (call_sessionId c) sessionId.

(** A sequence of [addMessage] calls, one transaction after the other:
    the rows they return (a call that throws returns none) and the
    database afterwards.  [failed_query] gives the message of the error
    thrown for a statement that is refused. *)
Fixpoint addMessages
  (failed_query : Schema.Statement -> string)
  (calls : list AddMessageCall) (db : Schema.Db)
  : list Schema.ConversationMessage * Schema.Db :=
  match calls with
  | [] => ([], db)
  | c :: rest =>
      match ConversationMemoryManager.addMessage failed_query
              (call_sessionId c) (call_role c) (call_content c)
              (call_toolName c) (call_parentMessageId c) (call_metadata c)
              (call_now c) db with
      | (inr message, db') =>
          let '(messages, db'') := addMessages failed_query rest db' in
          (message :: messages, db'')
      | (inl _, db') => addMessages failed_query rest db'
      end
  end.

(** The file rows of a session that carry a given content hash. *)
Definition rows_of (sessionId hash : string) (db : Schema.Db)
  : list Schema.ConversationFile :=
  filter (fun f => String.eqb (Schema.file_sessionId f) sessionId
                   && ConversationMemoryManager.hash_is hash f)
         (Schema.conversationFiles db).

(** [(sessionId, contentHash)] identifies at most one file row. *)
Definition hash_unique (db : Schema.Db) : Prop :=
  forall sessionId hash, (List.length (rows_of sessionId hash db) <= 1)%nat.

(** The budget row [checkBudgetLimits] reads for a session. *)
Definition budget_row (sessionId : string) (db : Schema.Db)
  : option Schema.ConversationBudget :=
  find (fun b => String.eqb (Schema.budget_sessionId b) sessionId)
       (Schema.conversationBudgets db).

(** The unpruned view of a session: its messages by index, its relevant
    files by last access, newest first. *)
Definition all_messages (sessionId : string) (db : Schema.Db)
  : list Schema.ConversationMessage :=
  Schema.orderBy (Schema.asc Schema.messageIndex)
    (filter (ConversationMemoryManager.in_session sessionId)
       (Schema.conversationMessages db)).

Definition all_files (sessionId : string) (db : Schema.Db)
  : list ConversationMemoryManager.ContextFile :=
  map ConversationMemoryManager.with_content
    (Schema.orderBy (Schema.desc Schema.lastAccessedAt)
       (filter (ConversationMemoryManager.relevant_in sessionId)
          (Schema.conversationFiles db))).


(** *** Server-sent events *)

(** The text of a body delivered in several reads. *)
Definition whole (reads : list string) : string :=
  fold_right String.append "" reads.

(** The lines of a body that a newline ends. *)
Definition complete_lines (text : string) : list string :=
  removelast (Js.split_newline text).

Definition is_payload (line : string) : bool := Js.startsWith line "data: ".

Definition payload (line : string) : string := Js.trim (Js.slice 6 line).

(** The terminator: a payload line that reads [[DONE]]. *)
Definition is_done (line : string) : bool :=
  is_payload line && String.eqb (payload line) "[DONE]".

(** The lines before the first terminator, and those after it. *)
Fixpoint until_done (lines : list string) : list string :=
  match lines with
  | [] => []
  | line :: rest => if is_done line then [] else line :: until_done rest
  end.

Fixpoint after_done (lines : list string) : list string :=
  match lines with
  | [] => []
  | line :: rest => if is_done line then rest else after_done rest
  end.


(** A line the adapter passes over: not a payload. *)
Definition inert (line : string) : bool := negb (is_payload line).

Definition all_inert (lines : list string) : Prop :=
  Forall (fun line => inert line = true) lines.

(** The adapter's variables with another [buffer]. *)
Definition with_buffer (text : string) (st : DeepSeekR1Provider.Stream)
  : DeepSeekR1Provider.Stream :=
  {| DeepSeekR1Provider.buffer := text;
     DeepSeekR1Provider.fullText := DeepSeekR1Provider.fullText st;
     DeepSeekR1Provider.usage := DeepSeekR1Provider.usage st;
     DeepSeekR1Provider.finishReason := DeepSeekR1Provider.finishReason st;
     DeepSeekR1Provider.yielded := DeepSeekR1Provider.yielded st |}.

(** A text without newline. *)
Definition no_newline (text : string) : Prop := Js.split_newline text = [text].

Section Sse.

Variable JSON_parse : string -> option Js.value.
Variable numberToString : float -> string.

(** The payloads that decode: parsed without error, not [null], and
    with a content delta, if any, that can be converted to text. *)
Fixpoint decoded (lines : list string) : list Js.value :=
  match lines with
  | [] => []
  | line :: rest =>
      if is_payload line then
        match JSON_parse (payload line) with
        | Some parsed =>
            if Js.nullish parsed
               || DeepSeekR1Provider.unconvertible_content parsed
            then decoded rest else parsed :: decoded rest
        | None => decoded rest
        end
      else decoded rest
  end.

(** The content deltas the decoded payloads carry, in order. *)
Definition deltas (events : list Js.value) : list Js.value :=
  filter Js.truthy (map DeepSeekR1Provider.delta_content events).

(** The concatenation of chunks. *)
Definition text_of (chunks : list Js.value) : string :=
  fold_right (fun chunk text => (Js.toString numberToString chunk ++ text)%string)
    "" chunks.

Definition usage_of (event : Js.value) : option Tracking.Usage :=
  if Js.truthy (Js.member event "usage") then
    Some {| Tracking.promptTokens :=
              Js.or_else (Js.member (Js.member event "usage") "prompt_tokens")
                (Js.Number 0%float);
            Tracking.completionTokens :=
              Js.or_else (Js.member (Js.member event "usage") "completion_tokens")
                (Js.Number 0%float);
            Tracking.totalTokens :=
              Js.or_else (Js.member (Js.member event "usage") "total_tokens")
                (Js.Number 0%float) |}
  else None.

(** The usage of the last event that carried one. *)
Fixpoint last_usage (events : list Js.value) : option Tracking.Usage :=
  match events with
  | [] => None
  | event :: rest =>
      match last_usage rest with
      | Some u => Some u
      | None => usage_of event
      end
  end.

(** The finish reason of the last event that carried one, [stop] when
    none did. *)
Definition last_finish (events : list Js.value) : Js.value :=
  last (filter Js.truthy (map DeepSeekR1Provider.finish_reason events))
       (Js.Str "stop").

(** What a drained stream of the given complete lines comes to: the
    deltas of the payloads before the terminator as chunks, and a
    [success] record of their concatenation. *)
Definition streamed (lines : list string) : DeepSeekR1Provider.Outcome :=
  let events := decoded (until_done lines) in
  {| DeepSeekR1Provider.chunks := deltas events;
     DeepSeekR1Provider.thrown := None;
     DeepSeekR1Provider.tracked :=
       {| Tracking.status := Tracking.success;
          Tracking.responseText := Some (text_of (deltas events));
          Tracking.usage := last_usage events;
          Tracking.finishReason := Some (last_finish events);
          Tracking.errorMessage := None |} |}.

(** The text is the concatenation of the chunks, none of them falsy and
    each of them one that can be converted to text. *)
Definition text_matches (st : DeepSeekR1Provider.Stream) : Prop :=
  DeepSeekR1Provider.fullText st = text_of (DeepSeekR1Provider.yielded st)
  /\ Forall (fun chunk => Js.truthy chunk = true /\ Js.converts chunk = true)
            (DeepSeekR1Provider.yielded st).

End Sse.

(** A 200 response whose body arrives in the given reads and ends
    cleanly. *)
Definition clean_response (reads : list string) : DeepSeekR1Provider.Response :=
  {| DeepSeekR1Provider.ok := true;
     DeepSeekR1Provider.http_status := "200";
     DeepSeekR1Provider.errorText := "";
     DeepSeekR1Provider.body := Some (reads, None) |}.

(** The double quote, and a JSON string literal without escapes. *)
Definition dquote : string := String (ascii_of_nat 34) EmptyString.

Definition quoted (s : string) : string := (dquote ++ s ++ dquote)%string.

(** The text [{"choices":[{"delta":{"content":"..."}}]}]. *)
Definition delta_json (text : string) : string :=
  ("{" ++ quoted "choices" ++ ":[{" ++ quoted "delta" ++ ":{"
   ++ quoted "content" ++ ":" ++ quoted text ++ "}}]}")%string.

(** The value that text denotes. *)
Definition delta_value (text : string) : Js.value :=
  Js.Object
    [("choices",
      Js.Array [Js.Object [("delta", Js.Object [("content", Js.Str text)])]])].

Definition LF : string := String Js.newline EmptyString.

(** The scenario's body with the prefix [data: ] the adapter looks for. *)
Definition hello_body : string :=
  ("data: " ++ delta_json "He" ++ LF
   ++ "data: " ++ delta_json "llo" ++ LF
   ++ "data: [DONE]" ++ LF)%string.

(** The scenario's lines as the specification prints them, the colon
    directly followed by the payload. *)
Definition hello_body_unspaced : string :=
  ("data:" ++ delta_json "He" ++ LF
   ++ "data:" ++ delta_json "llo" ++ LF
   ++ "data:[DONE]" ++ LF)%string.


(** *** Vocabulary of the further properties *)

(** The same world at another time. *)
Definition at_time (t : Z) (w : PricingFetcher.World) : PricingFetcher.World :=
  {| PricingFetcher.now := t;
     PricingFetcher.cacheFile := PricingFetcher.cacheFile w;
     PricingFetcher.remote := PricingFetcher.remote w;
     PricingFetcher.writeError := PricingFetcher.writeError w;
     PricingFetcher.requests := PricingFetcher.requests w |}.

(** Two names are the same when case is ignored. *)
Definition same_ignoring_case (a b : string) : Prop :=
  Js.toLowerCase a = Js.toLowerCase b.


(** *** Token counts *)

(** An encoder that never throws. *)
Definition total_encoder (encoder : TokenizerManager.TikTokenEncoder) : Prop :=
  forall text, exists tokens, encoder text = Some tokens.

(** The number of tokens an encoder gives a text (0 when it throws). *)
Definition tokens_of (encoder : TokenizerManager.TikTokenEncoder)
  (text : string) : Z :=
  match encoder text with
  | Some tokens => Z.of_nat (List.length tokens)
  | None => 0
  end.

(** What one message adds to the count: 3 for its frame, its role, its
    content, and its name when it has one. *)
Definition message_cost (encoder : TokenizerManager.TikTokenEncoder)
  (m : TokenizerManager.ChatMessage) : Z :=
  3 + match TokenizerManager.chat_name m with
      | Some name => if Js.truthy_string name then tokens_of encoder name else 0
      | None => 0
      end
  + tokens_of encoder (TokenizerManager.chat_role m)
  + tokens_of encoder (TokenizerManager.chat_content m).

Definition messages_cost (encoder : TokenizerManager.TikTokenEncoder)
  (messages : list TokenizerManager.ChatMessage) : Z :=
  fold_right (fun m sum => message_cost encoder m + sum)%Z 0%Z messages.


(** *** Pruning *)

Section Pruned.

Variable get_encoding :
  TokenizerManager.EncodingName -> option TokenizerManager.TikTokenEncoder.

(** The tokens the pruning loops count for a list of messages, and one of
    files. *)
Definition content_tokens (model : string)
  (messages : list Schema.ConversationMessage) : Z :=
  fold_right
    (fun m sum =>
       TokenizerManager.countTokens get_encoding (Schema.content m) model + sum)%Z
    0%Z messages.

Definition file_tokens (model : string)
  (files : list ConversationMemoryManager.ContextFile) : Z :=
  fold_right
    (fun f sum =>
       TokenizerManager.countTokens get_encoding
         (ConversationMemoryManager.content_of f) model + sum)%Z
    0%Z files.

(** [n] tokens are over the limit. *)
Definition over (n : Z) (maxTokens : float) : Prop :=
  Js.gt (Js.of_int n) maxTokens = true.

End Pruned.


(** *** Budgets *)

(** One call of [updateBudgetUsage]. *)
Record UsageReport := {
  report_tokens : Z;
  report_costUsd : float;
  report_durationMs : Z;
  report_now : Z
}.

(** The calls of [updateBudgetUsage] for a session, in order. *)
Definition reported (sessionId : string) (reports : list UsageReport)
  (db : Schema.Db) : Schema.Db :=
  fold_left
    (fun db u =>
       ConversationMemoryManager.updateBudgetUsage sessionId (report_tokens u)
         (report_costUsd u) (report_durationMs u) (report_now u) db)
    reports db.

Definition sum_tokens (reports : list UsageReport) : Z :=
  fold_right (fun u sum => report_tokens u + sum)%Z 0%Z reports.

Definition sum_durations (reports : list UsageReport) : Z :=
  fold_right (fun u sum => report_durationMs u + sum)%Z 0%Z reports.

(** The costs added one after the other, in binary64. *)
Definition sum_costs (start : float) (reports : list UsageReport) : float :=
  fold_left (fun cost u => (cost + report_costUsd u)%float) reports start.

(** The numbers of a sequence of reports are within what the columns
    hold exactly: the used tokens and the used duration, what each report
    adds to them and every sum on the way are safe integers (below
    [2^53] in magnitude), and every sum of costs on the way is finite. *)
Fixpoint safe_sums (tokens duration : Z) (cost : float)
  (reports : list UsageReport) : bool :=
  Js.safe_integer tokens && Js.safe_integer duration
  && match reports with
     | [] => true
     | u :: rest =>
         Js.safe_integer (report_tokens u)
         && Js.safe_integer (report_durationMs u)
         && PrimFloat.is_finite (cost + report_costUsd u)%float
         && safe_sums (tokens + report_tokens u)
              (duration + report_durationMs u)
              (cost + report_costUsd u)%float rest
     end.

(** The limits passed to [setBudget] are numbers the columns hold
    exactly: safe integers for the tokens and the duration, a finite
    number for the cost. *)
Definition safe_limits (limitTokens : option Z) (limitCostUsd : option float)
  (limitDurationMs : option Z) : bool :=
  match limitTokens with
  | Some n => Js.safe_integer n
  | None => true
  end
  && match limitCostUsd with
     | Some x => PrimFloat.is_finite x
     | None => true
     end
  && match limitDurationMs with
     | Some n => Js.safe_integer n
     | None => true
     end.

(** The invariant of [conversation_budgets_session_id_unique]. *)
Definition one_budget_each (db : Schema.Db) : Prop :=
  NoDup (map Schema.budget_sessionId (Schema.conversationBudgets db)).

(** A limit after [setBudget]: the one passed, or the one in force before
    when none is passed. *)
Definition limit_after {A : Type} (passed before after : option A) : Prop :=
  match passed with
  | Some v => after = Some v
  | None => after = before
  end.


(** *** Sessions *)

(** The numbers of message rows and of file rows of a session. *)
Definition messages_in (sessionId : string) (db : Schema.Db) : nat :=
  List.length
    (filter (fun m => String.eqb sessionId (Schema.message_sessionId m))
       (Schema.conversationMessages db)).

Definition files_in (sessionId : string) (db : Schema.Db) : nat :=
  List.length
    (filter (fun f => String.eqb sessionId (Schema.file_sessionId f))
       (Schema.conversationFiles db)).

(** The number of sessions in a status. *)
Definition sessions_in (status : Schema.Status) (db : Schema.Db) : nat :=
  List.length
    (filter (fun s => ConversationMemoryManager.status_eqb
                        (Schema.session_status s) status)
       (Schema.sessions db)).


(** *** The continuation tool *)

Section Continued.

Variable get_encoding :
  TokenizerManager.EncodingName -> option TokenizerManager.TikTokenEncoder.

(** Whether [handleContinuation] asks for the files. *)
Definition with_files (args : UltraTools.ContinuationArgs) : bool :=
  match UltraTools.continuation_includeFiles args with
  | Some b => b
  | None => true
  end.

(** The context [handleContinuation] reads, and the one without a
    limit. *)
Definition continuation_context (args : UltraTools.ContinuationArgs)
  (db : Schema.Db) : ConversationMemoryManager.ConversationContext :=
  ConversationMemoryManager.getConversationContext get_encoding
    (UltraTools.continuation_sessionId args) (Some 8000%float)
    (with_files args) "gpt-4" db.

Definition whole_context (args : UltraTools.ContinuationArgs)
  (db : Schema.Db) : ConversationMemoryManager.ConversationContext :=
  ConversationMemoryManager.getConversationContext get_encoding
    (UltraTools.continuation_sessionId args) None (with_files args) "gpt-4" db.

(** The request [handleContinuation] sends to a provider. *)
Definition continuation_request (args : UltraTools.ContinuationArgs)
  (aiProvider : UltraTools.AIProvider) (db : Schema.Db)
  : UltraTools.GenerateRequest :=
  {| UltraTools.request_model :=
       UltraTools.model_or_default (UltraTools.continuation_model args) aiProvider;
     UltraTools.request_messages :=
       UltraTools.history
         (ConversationMemoryManager.context_messages (continuation_context args db))
       ++ [ {| UltraTools.prompt_role := Schema.user;
               UltraTools.prompt_content :=
                 (UltraTools.continuation_prompt args
                  ++ UltraTools.file_context
                       (ConversationMemoryManager.context_files
                          (continuation_context args db)))%string |} ];
     UltraTools.request_stream := false |}.

End Continued.

End Claimed.


(** ** Concrete inputs *)

Module Examples.
Import Types PricingFetcher.

(** A stand-in for the text drizzle gives an error of libsql: the
    statement it names, without its columns and arguments. *)
Definition driver_message (statement : Schema.Statement) : string :=
  match statement with
  | Schema.insert_into_sessions _ _ _ => "Failed query: insert into sessions"
  | Schema.insert_into_conversation_messages _ _ _ _ _ _ _ _ _ =>
      "Failed query: insert into conversation_messages"
  | Schema.insert_into_conversation_files _ _ _ =>
      "Failed query: insert into conversation_files"
  | Schema.insert_into_conversation_budgets _ _ _ _ _ _ =>
      "Failed query: insert into conversation_budgets"
  | Schema.update_conversation_budgets _ _ _ _ _ =>
      "Failed query: update conversation_budgets"
  | Schema.select_from_conversation_budgets _ =>
      "Failed query: select from conversation_budgets"
  end.

Definition stale_cache : CacheFile :=
  {| metadata := {| timestamp := 0; source := LITELLM_PRICING_URL;
                    ttl := DEFAULT_TTL |};
     data := [] |}.

(** A disk cache two hours old; the remote refuses the connection. *)
Definition offline_world : World :=
  {| now := 2 * 60 * 60 * 1000;
     cacheFile := Some stale_cache;
     remote := inl "TypeError: fetch failed";
     writeError := None;
     requests := 0 |}.

Definition plain_entry : ModelPricing :=
  {| max_tokens := None;
     max_input_tokens := None;
     max_output_tokens := None;
     input_cost_per_token := Some 1%float;
     output_cost_per_token := Some 2%float;
     input_cost_per_token_above_200k_tokens := None;
     output_cost_per_token_above_200k_tokens := None |}.

(** A catalog whose only key contains the name [gpt-4o] with a provider
    prefix around it. *)
Definition prefixed_catalog : PricingData := [("openai/gpt-4o", plain_entry)].

(** The same cache, ten minutes old. *)
Definition recent_world : World :=
  {| now := 600000;
     cacheFile := Some stale_cache;
     remote := inl "TypeError: fetch failed";
     writeError := None;
     requests := 0 |}.

(** No cache yet; the remote serves a catalog. *)
Definition first_world : World :=
  {| now := 600000;
     cacheFile := None;
     remote := inr prefixed_catalog;
     writeError := None;
     requests := 0 |}.

(** No cache; the remote serves a catalog, and the cache file cannot be
    written. *)
Definition unwritable_world : World :=
  {| now := 600000;
     cacheFile := None;
     remote := inr prefixed_catalog;
     writeError := Some "Error: EACCES: permission denied";
     requests := 0 |}.

(** The same with a disk cache two hours old. *)
Definition unwritable_stale_world : World :=
  {| now := 2 * 60 * 60 * 1000;
     cacheFile := Some stale_cache;
     remote := inr prefixed_catalog;
     writeError := Some "Error: EACCES: permission denied";
     requests := 0 |}.

(** A disk cache exactly one hour old, the default TTL. *)
Definition hour_old_world : World :=
  {| now := 60 * 60 * 1000;
     cacheFile := Some stale_cache;
     remote := inl "TypeError: fetch failed";
     writeError := None;
     requests := 0 |}.

(** No cache, and the remote refuses the connection. *)
Definition cut_off_world : World :=
  {| now := 600000;
     cacheFile := None;
     remote := inl "TypeError: fetch failed";
     writeError := None;
     requests := 0 |}.

(** A world whose disk cache, one second old, holds the given catalog. *)
Definition cached_world (catalog : PricingData) : World :=
  {| now := 1000;
     cacheFile :=
       Some {| metadata := {| timestamp := 0; source := LITELLM_PRICING_URL;
                              ttl := DEFAULT_TTL |};
               data := catalog |};
     remote := inl "TypeError: fetch failed";
     writeError := None;
     requests := 0 |}.

Definition new_service : PricingService.Service :=
  {| PricingService.pricingDataCache := None;
     PricingService.lastFetchTime := 0 |}.

(** A service whose memory holds no pricing data, over a one-second-old
    disk cache of a catalog keyed in capitals. *)
Definition capitals_catalog : PricingData := [("GPT-4O", plain_entry)].

(** A catalog document of two entries, one of them an image model. *)
Definition raw_document : list (string * Js.value) :=
  [("dall-e-3",
    Js.Object [("input_cost_per_token", Js.Number 1%float);
               ("output_cost_per_token", Js.Number 2%float)]);
   ("gpt-4o",
    Js.Object [("input_cost_per_token", Js.Number 1%float);
               ("output_cost_per_token", Js.Number 2%float)])].

(** Stand-ins for [parseInt] and for the schema. *)
Definition parse_int_zero (_ : string) : float := 0%float.

Definition accept_plain (_ : Js.value) : option ModelPricing := Some plain_entry.

(** A request for [o3-mini] at temperature 0.5. *)
Definition o3_mini_request : OpenAIProvider.AIRequest :=
  {| OpenAIProvider.model := Some "o3-mini";
     OpenAIProvider.prompt := "hello";
     OpenAIProvider.systemPrompt := None;
     OpenAIProvider.temperature := Some 0.5%float;
     OpenAIProvider.maxOutputTokens := None;
     OpenAIProvider.reasoningEffort := None;
     OpenAIProvider.toolName := None |}.

(** The same request for [o3]. *)
Definition o3_request : OpenAIProvider.AIRequest :=
  {| OpenAIProvider.model := Some "o3";
     OpenAIProvider.prompt := "hello";
     OpenAIProvider.systemPrompt := None;
     OpenAIProvider.temperature := Some 0.5%float;
     OpenAIProvider.maxOutputTokens := None;
     OpenAIProvider.reasoningEffort := None;
     OpenAIProvider.toolName := None |}.

(** The same request for [gpt-4o]. *)
Definition gpt4o_request : OpenAIProvider.AIRequest :=
  {| OpenAIProvider.model := Some "gpt-4o";
     OpenAIProvider.prompt := "hello";
     OpenAIProvider.systemPrompt := None;
     OpenAIProvider.temperature := Some 0.5%float;
     OpenAIProvider.maxOutputTokens := None;
     OpenAIProvider.reasoningEffort := None;
     OpenAIProvider.toolName := None |}.

Definition empty_db : Schema.Db :=
  {| Schema.sessions := [];
     Schema.conversationMessages := [];
     Schema.conversationFiles := [];
     Schema.conversationBudgets := [];
     Schema.nextId := 0;
     Schema.foreignKeys := false |}.

(** A budget of 100 tokens, all of them used. *)
Definition spent_budget : Schema.ConversationBudget :=
  {| Schema.budget_id := 0;
     Schema.budget_sessionId := "s";
     Schema.maxTokens := Some 100%Z;
     Schema.maxCostUsd := None;
     Schema.maxDurationMs := None;
     Schema.usedTokens := 100;
     Schema.usedCostUsd := 0%float;
     Schema.usedDurationMs := 0;
     Schema.budget_createdAt := 0;
     Schema.budget_updatedAt := 0 |}.

Definition budget_db : Schema.Db :=
  {| Schema.sessions := [];
     Schema.conversationMessages := [];
     Schema.conversationFiles := [];
     Schema.conversationBudgets := [spent_budget];
     Schema.nextId := 1;
     Schema.foreignKeys := false |}.

Definition hello_message : Schema.ConversationMessage :=
  {| Schema.message_id := 0;
     Schema.message_sessionId := "s";
     Schema.messageIndex := 0;
     Schema.message_timestamp := 0;
     Schema.role := Schema.user;
     Schema.content := "hello";
     Schema.toolName := None;
     Schema.parentMessageId := None;
     Schema.message_metadata := None |}.

Definition hello_file : Schema.ConversationFile :=
  {| Schema.file_id := 1;
     Schema.file_sessionId := "s";
     Schema.filePath := "/x.ts";
     Schema.fileContent := Some "HELLO";
     Schema.contentHash := Some "h";
     Schema.addedAt := 0;
     Schema.lastAccessedAt := 0;
     Schema.accessCount := 0;
     Schema.isRelevant := Some true |}.

(** A session holding one message and one file. *)
Definition hello_db : Schema.Db :=
  {| Schema.sessions := [];
     Schema.conversationMessages := [hello_message];
     Schema.conversationFiles := [hello_file];
     Schema.conversationBudgets := [];
     Schema.nextId := 2;
     Schema.foreignKeys := false |}.

(** A tiktoken stand-in: one token for each character. *)
Definition char_encoder : TokenizerManager.TikTokenEncoder :=
  fun text => Some (map Js.nat_of_char (list_ascii_of_string text)).

Definition char_encoding (_ : TokenizerManager.EncodingName)
  : option TokenizerManager.TikTokenEncoder := Some char_encoder.

Definition say (sessionId text : string) (now : Z) : Claimed.AddMessageCall :=
  {| Claimed.call_sessionId := sessionId;
     Claimed.call_role := Schema.user;
     Claimed.call_content := text;
     Claimed.call_toolName := None;
     Claimed.call_parentMessageId := None;
     Claimed.call_metadata := None;
     Claimed.call_now := now |}.

(** Three messages for the session [s], one for another in between. *)
Definition abc_calls : list Claimed.AddMessageCall :=
  [say "s" "a" 1; say "t" "x" 2; say "s" "b" 3; say "s" "c" 4].

(** A stand-in for SHA-256 that tells all contents apart. *)
Definition verbatim_digest (content : string) : string := content.

Definition x_ts : ConversationMemoryManager.FileInput :=
  {| ConversationMemoryManager.in_filePath := "/x.ts";
     ConversationMemoryManager.in_content := "HELLO" |}.

(** A stand-in for [JSON.parse] that knows the two payloads of the
    streaming scenario. *)
Definition parse_deltas (text : string) : option Js.value :=
  if String.eqb text (Claimed.delta_json "He") then Some (Claimed.delta_value "He")
  else if String.eqb text (Claimed.delta_json "llo") then Some (Claimed.delta_value "llo")
  else None.

(** A stand-in for [Number.prototype.toString]. *)
Definition number_text (_ : float) : string := "0".

(** The scenario's body, one line to a read. *)
Definition hello_reads : list string :=
  [("data: " ++ Claimed.delta_json "He" ++ Claimed.LF)%string;
   ("data: " ++ Claimed.delta_json "llo" ++ Claimed.LF)%string;
   ("data: [DONE]" ++ Claimed.LF)%string].

(** A body whose terminator ends one read and whose next read carries a
    further payload. *)
Definition late_reads : list string :=
  [("data: [DONE]" ++ Claimed.LF)%string;
   ("data: " ++ Claimed.delta_json "He" ++ Claimed.LF)%string].

(** A request for [o3-mini] with a system prompt that is empty. *)
Definition empty_system_request : OpenAIProvider.AIRequest :=
  {| OpenAIProvider.model := Some "";
     OpenAIProvider.prompt := "hello";
     OpenAIProvider.systemPrompt := Some "";
     OpenAIProvider.temperature := None;
     OpenAIProvider.maxOutputTokens := None;
     OpenAIProvider.reasoningEffort := Some OpenAIProvider.high;
     OpenAIProvider.toolName := None |}.

(** A payload line that no newline ends. *)
Definition unfinished_line : string := ("data: " ++ Claimed.delta_json "llo")%string.

Definition user_says (text : string) : TokenizerManager.ChatMessage :=
  {| TokenizerManager.chat_role := "user";
     TokenizerManager.chat_content := text;
     TokenizerManager.chat_name := None |}.

(** The row of [x_ts] under [verbatim_digest], read three times so far,
    and a database holding it. *)
Definition x_ts_row : Schema.ConversationFile :=
  {| Schema.file_id := 0;
     Schema.file_sessionId := "s";
     Schema.filePath := "/x.ts";
     Schema.fileContent := Some "HELLO";
     Schema.contentHash := Some "HELLO";
     Schema.addedAt := 1;
     Schema.lastAccessedAt := 2;
     Schema.accessCount := 3;
     Schema.isRelevant := Some true |}.

Definition x_ts_db : Schema.Db :=
  {| Schema.sessions := [];
     Schema.conversationMessages := [];
     Schema.conversationFiles := [x_ts_row];
     Schema.conversationBudgets := [];
     Schema.nextId := 1;
     Schema.foreignKeys := false |}.

(** The same content under another path. *)
Definition y_ts : ConversationMemoryManager.FileInput :=
  {| ConversationMemoryManager.in_filePath := "/y.ts";
     ConversationMemoryManager.in_content := "HELLO" |}.

(** Two reports of usage: 30 tokens, then 80. *)
Definition two_reports : list Claimed.UsageReport :=
  [ {| Claimed.report_tokens := 30;
       Claimed.report_costUsd := 0%float;
       Claimed.report_durationMs := 5;
       Claimed.report_now := 1 |};
    {| Claimed.report_tokens := 80;
       Claimed.report_costUsd := 0%float;
       Claimed.report_durationMs := 7;
       Claimed.report_now := 2 |} ].

(** The empty database on a connection that enforces foreign keys. *)
Definition strict_db : Schema.Db :=
  {| Schema.sessions := [];
     Schema.conversationMessages := [];
     Schema.conversationFiles := [];
     Schema.conversationBudgets := [];
     Schema.nextId := 0;
     Schema.foreignKeys := true |}.

(** A generator of identifiers that are never [s]. *)
Definition numbered_uuid (n : nat) : string :=
  String (ascii_of_nat (48 + n mod 10)) "-uuid".

Definition busy_session : Schema.Session :=
  {| Schema.session_id := "s";
     Schema.session_name := None;
     Schema.session_createdAt := 0;
     Schema.session_updatedAt := 5;
     Schema.lastMessageAt := Some 5%Z;
     Schema.session_status := Schema.active;
     Schema.session_metadata := None |}.

Definition busy_message (id : nat) : Schema.ConversationMessage :=
  {| Schema.message_id := id;
     Schema.message_sessionId := "s";
     Schema.messageIndex := Z.of_nat id;
     Schema.message_timestamp := 5;
     Schema.role := Schema.user;
     Schema.content := "hello";
     Schema.toolName := None;
     Schema.parentMessageId := None;
     Schema.message_metadata := None |}.

Definition busy_file (id : nat) (hash : string) : Schema.ConversationFile :=
  {| Schema.file_id := id;
     Schema.file_sessionId := "s";
     Schema.filePath := hash;
     Schema.fileContent := Some hash;
     Schema.contentHash := Some hash;
     Schema.addedAt := 5;
     Schema.lastAccessedAt := 5;
     Schema.accessCount := 0;
     Schema.isRelevant := Some true |}.

(** One session with two messages and three files. *)
Definition busy_db : Schema.Db :=
  {| Schema.sessions := [busy_session];
     Schema.conversationMessages := [busy_message 0; busy_message 1];
     Schema.conversationFiles :=
       [busy_file 2 "a"; busy_file 3 "b"; busy_file 4 "c"];
     Schema.conversationBudgets := [];
     Schema.nextId := 5;
     Schema.foreignKeys := true |}.

(** A message of 8001 characters, alone in its session. *)
Definition long_text : string :=
  string_of_list_ascii (repeat "a"%char (Z.to_nat 8001)).

Definition long_message : Schema.ConversationMessage :=
  {| Schema.message_id := 0;
     Schema.message_sessionId := "s";
     Schema.messageIndex := 0;
     Schema.message_timestamp := 0;
     Schema.role := Schema.user;
     Schema.content := long_text;
     Schema.toolName := None;
     Schema.parentMessageId := None;
     Schema.message_metadata := None |}.

Definition long_db : Schema.Db :=
  {| Schema.sessions := [];
     Schema.conversationMessages := [long_message];
     Schema.conversationFiles := [];
     Schema.conversationBudgets := [];
     Schema.nextId := 1;
     Schema.foreignKeys := false |}.

(** A call of the continuation tool for the session [s]. *)
Definition continue_s : UltraTools.ContinuationArgs :=
  {| UltraTools.continuation_sessionId := "s";
     UltraTools.continuation_prompt := "go on";
     UltraTools.continuation_provider := None;
     UltraTools.continuation_model := None;
     UltraTools.continuation_includeFiles := None |}.

(** A provider that always answers [ok]. *)
Definition ok_provider : UltraTools.AIProvider :=
  {| UltraTools.generateResponse :=
       fun request =>
         inr {| UltraTools.result_content := "ok";
                UltraTools.result_model := UltraTools.request_model request |};
     UltraTools.getDefaultModel := "gpt-5" |}.

Definition ok_manager (_ : option string) : string + UltraTools.AIProvider :=
  inr ok_provider.

(** Stand-ins for [JSON.stringify] and for the printing of a length. *)
Definition no_metadata (_ : UltraTools.Metadata) : string := "{}".

Definition tally (n : nat) : string := string_of_list_ascii (repeat "|"%char n).

End Examples.

(* ================================================================== *)
(** * Part II: properties *)
(* ================================================================== *)

(** ** Tiered cost calculation *)

Section CalculateCost.
Import Types PricingCalculator.

(** C1 (amended). [calculateCost] returns
    [totalCost = inputCost + outputCost]; a side is tiered iff its count
    exceeds 200000 and the entry carries an above-200k rate that is
    non-zero, the cost then being
    [200000 * base + (count - 200000) * above], and [count * base]
    otherwise; at exactly 200000 tokens only the base rate is used;
    [tieredPricingApplied] is the disjunction of the two sides. *)
Theorem calculateCost_tiers (pricing : SimplifiedPricing) (i o : float) :
  let r := calculateCost pricing i o in
  totalCost r = (inputCost r + outputCost r)%float
  /\ inputCost r
     = Claimed.side_cost_nonzero i (inputCostPerToken pricing)
         (inputCostPerTokenAbove200k pricing)
  /\ outputCost r
     = Claimed.side_cost_nonzero o (outputCostPerToken pricing)
         (outputCostPerTokenAbove200k pricing)
  /\ tieredPricingApplied r
     = Claimed.side_tiered i (inputCostPerTokenAbove200k pricing)
       || Claimed.side_tiered o (outputCostPerTokenAbove200k pricing)
  /\ inputCost (calculateCost pricing TIERED_PRICING_THRESHOLD o)
     = (TIERED_PRICING_THRESHOLD * inputCostPerToken pricing)%float
  /\ outputCost (calculateCost pricing i TIERED_PRICING_THRESHOLD)
     = (TIERED_PRICING_THRESHOLD * outputCostPerToken pricing)%float.
Proof.
  assert (HT : Js.gt TIERED_PRICING_THRESHOLD TIERED_PRICING_THRESHOLD = false)
    by reflexivity.
  unfold calculateCost, Claimed.side_cost_nonzero, Claimed.side_tiered,
    Js.truthy_opt_number.
  rewrite HT.
  destruct (inputCostPerTokenAbove200k pricing) as [ai|],
           (outputCostPerTokenAbove200k pricing) as [ao|];
    try destruct (Js.truthy_number ai);
    try destruct (Js.truthy_number ao);
    destruct (Js.gt i TIERED_PRICING_THRESHOLD),
             (Js.gt o TIERED_PRICING_THRESHOLD);
    cbn [andb orb inputCost outputCost totalCost tieredPricingApplied Js.toNumber];
    repeat split; reflexivity.
Qed.

(** C1, as stated, fails on an entry whose above-200k input rate is zero:
    the entry carries the rate and 200001 exceeds the threshold, yet the
    flat branch is taken. *)
Lemma calculateCost_zero_rate_is_flat :
  let pricing :=
    {| sp_model := "m";
       inputCostPerToken := 1%float;
       outputCostPerToken := 1%float;
       inputCostPerTokenAbove200k := Some 0%float;
       outputCostPerTokenAbove200k := None;
       maxInputTokens := None;
       maxOutputTokens := None |} in
  let r := calculateCost pricing 200001%float 0%float in
  Js.gt 200001%float TIERED_PRICING_THRESHOLD = true
  /\ inputCostPerTokenAbove200k pricing = Some 0%float
  /\ inputCost r = 200001%float
  /\ tieredPricingApplied r = false
  /\ Claimed.side_cost 200001%float (inputCostPerToken pricing)
       (inputCostPerTokenAbove200k pricing) = 200000%float
  /\ inputCost r
     <> Claimed.side_cost 200001%float (inputCostPerToken pricing)
          (inputCostPerTokenAbove200k pricing).
Proof.
  repeat split; try reflexivity.
  intro H. vm_compute in H. discriminate H.
Qed.

End CalculateCost.

(** ** The pricing fetcher *)

Section GetLatestPricing.
Import Types PricingFetcher Claimed Examples.




End GetLatestPricing.

(** ** The OpenAI adapter's temperature *)

Section OpenAITemperature.
Import OpenAIProvider Examples.

(** C5 (amended).  In [generateText] and in [streamText] alike, the
    temperature sent upstream is exactly 1 when the selected model is
    exactly [gpt-5] or [o3]; for every other model it is the request's
    temperature, 0.7 when the request has none. *)
Theorem openai_temperature (request : AIRequest) (preferredModel : option string) :
  let model := selectedModel request preferredModel in
  let sent_generate := opt_temperature (generateText_options request preferredModel) in
  let sent_stream := opt_temperature (streamText_options request preferredModel) in
  (model = "gpt-5" \/ model = "o3" ->
   sent_generate = 1%float /\ sent_stream = 1%float)
  /\ (model <> "gpt-5" -> model <> "o3" ->
      forall t, temperature request = Some t ->
                sent_generate = t /\ sent_stream = t)
  /\ (model <> "gpt-5" -> model <> "o3" ->
      temperature request = None ->
      sent_generate = default_temperature /\ sent_stream = default_temperature).
Proof.
  cbn zeta. unfold generateText_options, streamText_options. cbn [opt_temperature].
  unfold enforcedTemperature.
  set (model := selectedModel request preferredModel).
  split; [|split].
  - intros [Hmodel | Hmodel]; rewrite Hmodel; split; reflexivity.
  - intros Hgpt5 Ho3 t Ht.
    apply String.eqb_neq in Hgpt5, Ho3.
    rewrite Hgpt5, Ho3, Ht. split; reflexivity.
  - intros Hgpt5 Ho3 Ht.
    apply String.eqb_neq in Hgpt5, Ho3.
    rewrite Hgpt5, Ho3, Ht. split; reflexivity.
Qed.

(** C5 (amended) at a request for [o3] and at one for [gpt-4o], both
    asking for temperature 0.5. *)
Lemma openai_temperature_witness :
  (opt_temperature (generateText_options o3_request None) = 1%float
   /\ opt_temperature (streamText_options o3_request None) = 1%float)
  /\ (opt_temperature (generateText_options gpt4o_request None) = 0.5%float
      /\ opt_temperature (streamText_options gpt4o_request None) = 0.5%float).
Proof.
  split.
  - destruct (openai_temperature o3_request None) as [H _].
    apply H. right. reflexivity.
  - destruct (openai_temperature gpt4o_request None) as [_ [H _]].
    apply H; [discriminate | discriminate | reflexivity].
Defined.

(** C5, as stated, fails: [o3-mini] begins with the prefix [o3], and the
    request's temperature 0.5 is sent unchanged. *)
Lemma openai_temperature_prefix_not_enforced :
  Js.startsWith (selectedModel o3_mini_request None) "o3" = true
  /\ opt_temperature (generateText_options o3_mini_request None) = 0.5%float
  /\ opt_temperature (streamText_options o3_mini_request None) = 0.5%float
  /\ opt_temperature (generateText_options o3_mini_request None) <> 1%float.
Proof.
  repeat split; try reflexivity.
  intro H. vm_compute in H. discriminate H.
Qed.

End OpenAITemperature.

(** ** The pricing service *)

Section ModelPricing.
Import Types PricingFetcher PricingService Examples.

(** C6, evaluated at a catalog key that contains the normalized name with
    text around it: the exact lookup misses, the key includes the name,
    and [getModelPricing] finds nothing, the second pass comparing the
    lower-cased key and name for equality. *)
Lemma getModelPricing_surrounded_key_missed :
  PricingCalculator.normalizeModelName "gpt-4o" = "gpt-4o"
  /\ Js.lookup prefixed_catalog "gpt-4o" = None
  /\ Js.includes (Js.toLowerCase "openai/gpt-4o") (Js.toLowerCase "gpt-4o") = true
  /\ returned (getModelPricing "gpt-4o" new_service (cached_world prefixed_catalog))
     = None.
Proof. repeat split; reflexivity. Qed.

(** The zero-cost object returned for a model without pricing. *)
Lemma calculateCost_unknown_model (model : string) (i o : float)
  (this : Service) (w : World) :
  returned (getModelPricing model this w) = None ->
  returned (calculateCost model i o this w)
  = Some {| inputCost := 0%float;
            outputCost := 0%float;
            totalCost := 0%float;
            inputTokens := i;
            outputTokens := o;
            cc_model := model;
            tieredPricingApplied := false |}.
Proof.
  unfold calculateCost, returned.
  destruct (getModelPricing model this w) as [[[found this'] w'] out].
  simpl. intros ->. reflexivity.
Qed.

(** C7 (amended).  For every model unknown to the pricing catalog,
    [PricingService.calculateCost] returns a cost object, not nil: all
    three costs are zero, the token counts and the model name are the
    arguments, and [tieredPricingApplied] is false. *)
Theorem calculateCost_unknown_model_zero (model : string) (i o : float)
  (this : Service) (w : World) :
  returned (getModelPricing model this w) = None ->
  exists c,
    returned (calculateCost model i o this w) = Some c
    /\ inputCost c = 0%float /\ outputCost c = 0%float /\ totalCost c = 0%float
    /\ inputTokens c = i /\ outputTokens c = o /\ cc_model c = model
    /\ tieredPricingApplied c = false.
Proof.
  intros H. rewrite (calculateCost_unknown_model model i o this w H).
  eexists. split; [reflexivity|]. repeat split.
Qed.

(** C7 (amended) at an unknown model and an empty catalog. *)
Lemma calculateCost_unknown_model_zero_witness :
  exists c,
    returned (calculateCost "no-such-model" 10%float 5%float
                new_service (cached_world []))
    = Some c
    /\ inputCost c = 0%float /\ outputCost c = 0%float /\ totalCost c = 0%float
    /\ inputTokens c = 10%float /\ outputTokens c = 5%float
    /\ cc_model c = "no-such-model"
    /\ tieredPricingApplied c = false.
Proof.
  apply (calculateCost_unknown_model_zero "no-such-model" 10%float 5%float
           new_service (cached_world [])).
  reflexivity.
Defined.

(** C7, as stated, fails: the model is unknown and the result is not
    nil. *)
Lemma calculateCost_unknown_model_not_nil :
  returned (getModelPricing "no-such-model" new_service (cached_world [])) = None
  /\ returned (calculateCost "no-such-model" 10%float 5%float
                 new_service (cached_world []))
     <> None.
Proof.
  split; [reflexivity|].
  rewrite calculateCost_unknown_model by reflexivity. discriminate.
Qed.

End ModelPricing.

(** ** Budget limits *)

Section BudgetLimits.
Import Schema ConversationMemoryManager Claimed Examples.

Lemma budget_of_find (sessionId : string) (db : Db) :
  budget_of sessionId db
  = match budget_row sessionId db with
    | Some b => [b]
    | None => []
    end.
Proof.
  unfold budget_of, budget_row.
  induction (conversationBudgets db) as [|b l IH]; simpl; [reflexivity|].
  destruct (String.eqb (budget_sessionId b) sessionId); [reflexivity|exact IH].
Qed.



End BudgetLimits.

(** ** The conversation context at a limit of zero *)

Section ContextAtZero.
Import Schema ConversationMemoryManager Claimed Examples.

Variable get_encoding :
  TokenizerManager.EncodingName -> option TokenizerManager.TikTokenEncoder.


End ContextAtZero.

Section ContextAtZeroExample.
Import Schema ConversationMemoryManager Claimed Examples.


End ContextAtZeroExample.

(** ** Message indices *)

Section MessageIndices.
Import Schema ConversationMemoryManager Claimed Examples.

(** The message of the error thrown for a statement that libsql refuses. *)
Variable failed_query : Schema.Statement -> string.

Lemma hd_insert_sorted {A : Type} (before : A -> A -> bool) (x : A) (l : list A) :
  hd_error (insert_sorted before x l)
  = match l with
    | [] => Some x
    | y :: _ => if before x y then Some x else Some y
    end.
Proof.
  destruct l as [|y l]; simpl; [reflexivity|].
  destruct (before x y); reflexivity.
Qed.

(** The first row of [ORDER BY key DESC] carries the largest key. *)
Lemma largest_orderBy_desc {A : Type} (key : A -> Z) (l : list A) :
  option_map key (hd_error (orderBy (desc key) l)) = largest (map key l).
Proof.
  induction l as [|x l IH]; simpl; [reflexivity|].
  rewrite hd_insert_sorted, <- IH.
  destruct (orderBy (desc key) l) as [|y s]; simpl; [reflexivity|].
  unfold desc. destruct (Z.leb_spec (key y) (key x)); simpl; f_equal; lia.
Qed.

Lemma largest_bound (l : list Z) (m x : Z) :
  largest l = Some m -> In x l -> (x <= m)%Z.
Proof.
  revert m. induction l as [|y l IH]; intros m Hm Hin; [contradiction|].
  simpl in Hm. destruct (largest l) as [m'|] eqn:Hl.
  - injection Hm as <-. destruct Hin as [->|Hin]; [lia|].
    specialize (IH m' eq_refl Hin). lia.
  - injection Hm as <-. destruct Hin as [->|Hin]; [lia|].
    destruct l; [contradiction|]. simpl in Hl.
    destruct (largest l); discriminate Hl.
Qed.

Lemma largest_snoc (l : list Z) (x : Z) :
  largest (l ++ [x])
  = Some match largest l with
         | Some m => Z.max m x
         | None => x
         end.
Proof.
  induction l as [|y l IH]; simpl; [reflexivity|].
  rewrite IH. destruct (largest l); f_equal; lia.
Qed.

Lemma first_indices_S (n : nat) :
  first_indices (S n) = first_indices n ++ [Z.of_nat n].
Proof.
  unfold first_indices. rewrite seq_S, map_app. reflexivity.
Qed.

Lemma next_index_first_indices (n : nat) :
  next_index (first_indices n) = Z.of_nat n.
Proof.
  unfold next_index. destruct n as [|n]; [reflexivity|].
  rewrite first_indices_S, largest_snoc.
  induction n as [|n IH]; [reflexivity|].
  rewrite first_indices_S, largest_snoc.
  destruct (largest (first_indices n)); lia.
Qed.

(** The index [addMessage] computes from its [SELECT]. *)
Lemma selected_index (sessionId : string) (db : Db) :
  (match firstn 1 (orderBy (desc messageIndex)
                     (filter (in_session sessionId) (conversationMessages db))) with
   | last :: _ => messageIndex last
   | [] => -1
   end + 1)%Z
  = next_index (session_indices sessionId db).
Proof.
  unfold next_index, session_indices.
  rewrite <- largest_orderBy_desc.
  destruct (orderBy (desc messageIndex)
              (filter (in_session sessionId) (conversationMessages db)));
    reflexivity.
Qed.

(** The unique index never rejects the index computed. *)
Lemma next_index_free (sessionId : string) (db : Db) :
  message_index_taken db sessionId (next_index (session_indices sessionId db))
  = false.
Proof.
  unfold message_index_taken.
  destruct (existsb _ _) eqn:E; [|reflexivity].
  apply existsb_exists in E. destruct E as [m [Hin Hm]].
  apply andb_true_iff in Hm. destruct Hm as [Hs Hi].
  apply Z.eqb_eq in Hi.
  assert (Hmem : In (messageIndex m) (session_indices sessionId db)).
  { unfold session_indices. apply in_map. apply filter_In.
    split; [exact Hin | exact Hs]. }
  unfold next_index in Hi.
  destruct (largest (session_indices sessionId db)) as [top|] eqn:Hl.
  - pose proof (largest_bound _ _ _ Hl Hmem). lia.
  - destruct (session_indices sessionId db); [contradiction|].
    simpl in Hl. destruct (largest l); discriminate Hl.
Qed.

Lemma session_exists_touch (sessionId touched : string) (now : Z)
  (l : list Session) :
  existsb (fun s => String.eqb (session_id s) sessionId)
          (map (touch_session touched now) l)
  = existsb (fun s => String.eqb (session_id s) sessionId) l.
Proof.
  induction l as [|s l IH]; simpl; [reflexivity|].
  rewrite IH. f_equal. unfold touch_session.
  destruct (String.eqb (session_id s) touched); reflexivity.
Qed.

(** What one [addMessage] call does. *)
Lemma addMessage_step (c : AddMessageCall) (db : Db) :
  let r := addMessage failed_query (call_sessionId c) (call_role c) (call_content c)
             (call_toolName c) (call_parentMessageId c) (call_metadata c)
             (call_now c) db in
  (forall sessionId, references_ok (snd r) sessionId = references_ok db sessionId)
  /\ if references_ok db (call_sessionId c) then
       exists m,
         fst r = inr m
         /\ messageIndex m = next_index (session_indices (call_sessionId c) db)
         /\ message_sessionId m = call_sessionId c
         /\ conversationMessages (snd r) = conversationMessages db ++ [m]
     else
       (exists e, fst r = inl e) /\ snd r = db.
Proof.
  cbn zeta. unfold addMessage, addMessage_tx, insert_message.
  rewrite selected_index, next_index_free.
  destruct (references_ok db (call_sessionId c)) eqn:Hfk; simpl.
  - split.
    + intros sessionId. unfold references_ok, session_exists. simpl.
      rewrite session_exists_touch. reflexivity.
    + eexists. repeat split.
  - split; [reflexivity|]. split; [eexists|]; reflexivity.
Qed.

Lemma session_indices_snoc (sessionId : string) (db db' : Db)
  (m : ConversationMessage) :
  conversationMessages db' = conversationMessages db ++ [m] ->
  session_indices sessionId db'
  = session_indices sessionId db
    ++ (if in_session sessionId m then [messageIndex m] else []).
Proof.
  intros H. unfold session_indices. rewrite H, filter_app, map_app. simpl.
  destruct (in_session sessionId m); reflexivity.
Qed.

Lemma in_session_eq (sessionId : string) (m : ConversationMessage) :
  in_session sessionId m = true <-> message_sessionId m = sessionId.
Proof. unfold in_session. apply String.eqb_eq. Qed.

(** A session whose indices are [0..k-1] keeps that shape under any
    sequence of calls, each call on it taking the next index. *)
Lemma addMessages_dense (sessionId : string) (calls : list AddMessageCall) :
  forall (db : Db) (k : nat),
    session_indices sessionId db = first_indices k ->
    let r := addMessages failed_query calls db in
    let inserted := filter (in_session sessionId) (fst r) in
    map messageIndex inserted = map Z.of_nat (seq k (List.length inserted))
    /\ session_indices sessionId (snd r)
       = first_indices (k + List.length inserted)
    /\ (references_ok db sessionId = true ->
        List.length inserted
        = List.length (filter (on_session sessionId) calls)).
Proof.
  induction calls as [|c calls IH]; intros db k Hk; cbn zeta.
  - simpl. rewrite Nat.add_0_r. repeat split; [exact Hk].
  - pose proof (addMessage_step c db) as Hstep. cbn zeta in Hstep.
    simpl addMessages.
    destruct (addMessage failed_query (call_sessionId c) (call_role c) (call_content c)
                (call_toolName c) (call_parentMessageId c) (call_metadata c)
                (call_now c) db) as [res db1].
    simpl in Hstep. destruct Hstep as [Hrefs Hstep].
    destruct (references_ok db (call_sessionId c)) eqn:Hfk.
    + destruct Hstep as [m [-> [Hidx [Hsid Hrows]]]].
      pose proof (session_indices_snoc sessionId db db1 m Hrows) as Hsnoc.
      assert (Hon : in_session sessionId m = on_session sessionId c).
      { unfold in_session, on_session. rewrite Hsid. reflexivity. }
      rewrite Hon in Hsnoc.
      destruct (on_session sessionId c) eqn:E.
      * assert (Hsame : call_sessionId c = sessionId)
          by (apply String.eqb_eq; exact E).
        rewrite Hsame, Hk, next_index_first_indices in Hidx.
        rewrite Hidx, Hk, <- first_indices_S in Hsnoc.
        specialize (IH db1 (S k) Hsnoc). cbn zeta in IH.
        destruct (addMessages failed_query calls db1) as [msgs db2].
        cbn [fst snd] in *. cbn [filter]. rewrite Hon, E.
        destruct IH as [I1 [I2 I3]].
        cbn [List.length map seq]. repeat split.
        -- rewrite Hidx, I1. reflexivity.
        -- rewrite I2. f_equal. lia.
        -- intros Href. f_equal. apply I3. rewrite Hrefs. exact Href.
      * rewrite app_nil_r, Hk in Hsnoc.
        specialize (IH db1 k Hsnoc). cbn zeta in IH.
        destruct (addMessages failed_query calls db1) as [msgs db2].
        cbn [fst snd] in *. cbn [filter]. rewrite Hon, E.
        destruct IH as [I1 [I2 I3]]. repeat split; try assumption.
        intros Href. apply I3. rewrite Hrefs. exact Href.
    + destruct Hstep as [[e ->] ->].
      specialize (IH db k Hk). cbn zeta in IH.
      destruct (addMessages failed_query calls db) as [msgs db2].
      cbn [fst snd] in *. destruct IH as [I1 [I2 I3]].
      repeat split; try assumption.
      intros Href. cbn [filter].
      destruct (on_session sessionId c) eqn:E; [|apply I3; exact Href].
      assert (Hsame : call_sessionId c = sessionId)
        by (apply String.eqb_eq; exact E).
      rewrite Hsame in Hfk. congruence.
Qed.

Lemma first_indices_sorted (n : nat) :
  StronglySorted Z.lt (first_indices n).
Proof.
  induction n as [|n IH]; [constructor|].
  rewrite first_indices_S.
  assert (Hlt : Forall (fun x => (x < Z.of_nat n)%Z) (first_indices n)).
  { apply Forall_forall. intros x Hx. unfold first_indices in Hx.
    apply in_map_iff in Hx. destruct Hx as [i [<- Hi]].
    apply in_seq in Hi. lia. }
  revert Hlt. generalize (Z.of_nat n).
  induction IH as [|x l Hl IHl Hx]; intros top Htop; simpl.
  - repeat constructor.
  - inversion Htop as [|? ? Hxtop Hltop]; subst.
    constructor; [apply IHl; exact Hltop|].
    apply Forall_app. split; [exact Hx|]. repeat constructor. exact Hxtop.
Qed.

Lemma first_indices_NoDup (n : nat) : NoDup (first_indices n).
Proof.
  unfold first_indices. apply Injective_map_NoDup; [|apply seq_NoDup].
  intros x y H. apply Nat2Z.inj. exact H.
Qed.

(** C3.  Each [addMessage] gives its message one plus the largest index
    of its session, or 0 when the session has none; hence, from a session
    without messages, after any sequence of calls (calls on other
    sessions may come in between) the indices of the session are exactly
    [0, 1, ..., n-1], [n] being the number of messages inserted, they
    increase strictly in insertion order, and none occurs twice. *)
Theorem addMessage_indices_dense (sessionId : string)
  (calls : list AddMessageCall) (db : Db) :
  session_indices sessionId db = [] ->
  let r := addMessages failed_query calls db in
  let inserted := filter (in_session sessionId) (fst r) in
  let n := List.length inserted in
  (forall (c : AddMessageCall) (db0 db1 : Db) (m : ConversationMessage),
      addMessage failed_query (call_sessionId c) (call_role c) (call_content c)
        (call_toolName c) (call_parentMessageId c) (call_metadata c)
        (call_now c) db0 = (inr m, db1) ->
      messageIndex m = next_index (session_indices (call_sessionId c) db0))
  /\ map messageIndex inserted = first_indices n
  /\ session_indices sessionId (snd r) = first_indices n
  /\ StronglySorted Z.lt (session_indices sessionId (snd r))
  /\ NoDup (session_indices sessionId (snd r))
  /\ (references_ok db sessionId = true ->
      n = List.length (filter (on_session sessionId) calls)).
Proof.
  intros Hempty. cbn zeta.
  destruct (addMessages_dense sessionId calls db 0 Hempty) as [H1 [H2 H3]].
  split.
  { intros c db0 db1 m Hcall.
    pose proof (addMessage_step c db0) as Hstep. cbn zeta in Hstep.
    rewrite Hcall in Hstep. cbn [fst snd] in Hstep.
    destruct Hstep as [_ Hstep].
    destruct (references_ok db0 (call_sessionId c)).
    - destruct Hstep as [m' [Hm [Hidx _]]]. injection Hm as ->. exact Hidx.
    - destruct Hstep as [[e He] _]. discriminate He. }
  rewrite H2. cbn [Nat.add].
  repeat split.
  - exact H1.
  - apply first_indices_sorted.
  - apply first_indices_NoDup.
  - exact H3.
Qed.

End MessageIndices.

Section MessageIndicesExample.
Import Schema ConversationMemoryManager Claimed Examples.

(** C3 on the empty database: three messages for [s], one for another
    session in between. *)
Lemma addMessage_indices_dense_witness :
  session_indices "s" (snd (addMessages driver_message abc_calls empty_db))
  = [0; 1; 2]%Z
  /\ map messageIndex
       (filter (in_session "s")
          (fst (addMessages driver_message abc_calls empty_db)))
     = [0; 1; 2]%Z.
Proof.
  destruct (addMessage_indices_dense driver_message "s" abc_calls empty_db
              eq_refl)
    as [_ [H1 [H2 _]]].
  split; [exact H2 | exact H1].
Defined.

End MessageIndicesExample.

(** ** File deduplication *)

Section FileDeduplication.
Import Schema ConversationMemoryManager Claimed Examples.

(** The message of the error thrown for a statement that libsql refuses. *)
Variable failed_query : Schema.Statement -> string.

Variable sha256 : string -> string.

Lemma filter_map_preserved {A : Type} (p : A -> bool) (g : A -> A) (l : list A) :
  (forall x, p (g x) = p x) ->
  filter p (map g l) = map g (filter p l).
Proof.
  intros Hp. induction l as [|x l IH]; simpl; [reflexivity|].
  rewrite Hp, IH. destruct (p x); reflexivity.
Qed.

Lemma existsb_false_filter {A : Type} (p : A -> bool) (l : list A) :
  existsb p l = false -> filter p l = [].
Proof.
  induction l as [|x l IH]; simpl; [reflexivity|].
  destruct (p x); simpl; [discriminate | exact IH].
Qed.

Lemma rows_of_update (sessionId hash : string) (now : Z) (db : Db)
  (u : FileUpdate) :
  rows_of sessionId hash (update_file now db u)
  = map (apply_update now u) (rows_of sessionId hash db).
Proof.
  unfold rows_of, update_file. cbn [conversationFiles].
  apply filter_map_preserved.
  intros f. unfold apply_update, hash_is.
  destruct (file_id f =? update_id u)%nat; reflexivity.
Qed.

Lemma hash_unique_update (now : Z) (db : Db) (u : FileUpdate) :
  hash_unique db -> hash_unique (update_file now db u).
Proof.
  intros H sessionId hash. rewrite rows_of_update, length_map. apply H.
Qed.

Lemma hash_unique_updates (now : Z) (us : list FileUpdate) :
  forall db, hash_unique db -> hash_unique (fold_left (update_file now) us db).
Proof.
  induction us as [|u us IH]; intros db H; simpl; [exact H|].
  apply IH, hash_unique_update, H.
Qed.

Lemma taken_rows_of (sessionId hash : string) (db : Db) :
  file_hash_taken db sessionId (Some hash) = false ->
  rows_of sessionId hash db = [].
Proof.
  intros H. unfold rows_of. apply existsb_false_filter. exact H.
Qed.

Lemma hash_unique_insert (refused : string) (values : NewFile)
  (now : Z) (db db' : Db) :
  hash_unique db -> insert_file refused values now db = inr db' ->
  hash_unique db'.
Proof.
  intros H Hins sessionId hash. unfold insert_file in Hins.
  destruct (negb (references_ok db (new_sessionId values))); [discriminate|].
  destruct (file_hash_taken db (new_sessionId values)
              (Some (new_contentHash values))) eqn:Htaken; [discriminate|].
  injection Hins as <-. unfold rows_of. cbn [conversationFiles].
  rewrite filter_app, length_app. cbn [filter file_sessionId hash_is contentHash].
  destruct (String.eqb (new_sessionId values) sessionId
            && String.eqb (new_contentHash values) hash) eqn:E.
  - apply andb_true_iff in E. destruct E as [E1 E2].
    apply String.eqb_eq in E1, E2. subst sessionId hash.
    apply taken_rows_of in Htaken. unfold rows_of in Htaken.
    rewrite Htaken. simpl. lia.
  - specialize (H sessionId hash). unfold rows_of in H. simpl. lia.
Qed.

Lemma hash_unique_insert_files (refused : string)
  (rows : list NewFile) (now : Z) :
  forall db db',
    hash_unique db -> insert_files refused rows now db = inr db' ->
    hash_unique db'.
Proof.
  induction rows as [|values rows IH]; intros db db' H Hins; simpl in Hins.
  - injection Hins as <-. exact H.
  - destruct (insert_file refused values now db) as [e|db1] eqn:E;
      [discriminate|].
    apply (IH db1 db'); [|exact Hins].
    apply (hash_unique_insert refused values now db db1 H E).
Qed.

(** [addFiles] keeps [(sessionId, contentHash)] unique, whatever the
    files and whether it succeeds or throws. *)
Lemma hash_unique_addFiles (sessionId : string) (files : list FileInput)
  (now : Z) (db : Db) :
  hash_unique db -> hash_unique (snd (addFiles failed_query sha256 sessionId files now db)).
Proof.
  intros H. unfold addFiles, addFiles_tx.
  destruct (plan_files _ _ _) as [filesToInsert filesToUpdate].
  destruct (0 <? List.length filesToInsert)%nat.
  - destruct (insert_files _ filesToInsert now db) as [e|db1] eqn:E;
      cbn [snd]; [exact H|].
    apply hash_unique_updates.
    apply (hash_unique_insert_files _ filesToInsert now db db1 H E).
  - cbn [snd]. apply hash_unique_updates, H.
Qed.

(** The rows [addFiles] selects for a single file are the rows of its
    hash. *)
Lemma existing_of_single (sessionId hash : string) (db : Db) :
  filter (fun f => String.eqb (file_sessionId f) sessionId
                   && inArray (contentHash f) [hash])
         (conversationFiles db)
  = rows_of sessionId hash db.
Proof.
  unfold rows_of. apply filter_ext. intros f.
  unfold inArray, hash_is. destruct (contentHash f); simpl;
    [rewrite orb_false_r|]; reflexivity.
Qed.

Lemma rows_of_hash_is (sessionId hash : string) (db : Db) (r : ConversationFile) :
  In r (rows_of sessionId hash db) -> hash_is hash r = true.
Proof.
  unfold rows_of. intros H. apply filter_In in H. destruct H as [_ H].
  apply andb_true_iff in H. apply H.
Qed.

(** A single file whose hash has a row: the row is updated. *)
Lemma addFiles_existing (sessionId : string) (f : FileInput) (now : Z)
  (db : Db) (r : ConversationFile) :
  rows_of sessionId (sha256 (in_content f)) db = [r] ->
  addFiles failed_query sha256 sessionId [f] now db
  = (inr tt,
     update_file now db
       {| update_id := file_id r;
          update_accessCount := (accessCount r + 1)%Z |}).
Proof.
  intros Hrows. unfold addFiles, addFiles_tx.
  cbn [map List.length Nat.ltb Nat.leb data_contentHash].
  rewrite existing_of_single, Hrows.
  cbn [plan_files existingHashMap_get rev app find data_contentHash].
  rewrite (rows_of_hash_is sessionId _ db r)
    by (rewrite Hrows; left; reflexivity).
  reflexivity.
Qed.

(** A single file whose hash has no row: one row is inserted. *)
Lemma addFiles_new (sessionId : string) (f : FileInput) (now : Z) (db : Db) :
  rows_of sessionId (sha256 (in_content f)) db = [] ->
  addFiles failed_query sha256 sessionId [f] now db
  = match insert_file
            (failed_query
               (insert_into_conversation_files (nextId db)
                  [ {| new_sessionId := sessionId;
                       new_filePath := in_filePath f;
                       new_fileContent := in_content f;
                       new_contentHash := sha256 (in_content f);
                       new_isRelevant := true |} ] now))
            {| new_sessionId := sessionId;
               new_filePath := in_filePath f;
               new_fileContent := in_content f;
               new_contentHash := sha256 (in_content f);
               new_isRelevant := true |} now db with
    | inr db' => (inr tt, db')
    | inl e => (inl ("Failed to add files: " ++ e)%string, db)
    end.
Proof.
  intros Hrows. unfold addFiles, addFiles_tx.
  cbn [map List.length Nat.ltb Nat.leb data_contentHash].
  rewrite existing_of_single, Hrows.
  cbn [plan_files existingHashMap_get rev app find data_contentHash
       data_filePath data_content List.length Nat.ltb Nat.leb insert_files].
  destruct (insert_file _ _ now db); reflexivity.
Qed.

Lemma rows_of_updated (sessionId hash : string) (now : Z) (db : Db)
  (r : ConversationFile) :
  rows_of sessionId hash db = [r] ->
  rows_of sessionId hash
    (update_file now db
       {| update_id := file_id r;
          update_accessCount := (accessCount r + 1)%Z |})
  = [ {| file_id := file_id r;
         file_sessionId := file_sessionId r;
         filePath := filePath r;
         fileContent := fileContent r;
         contentHash := contentHash r;
         addedAt := addedAt r;
         lastAccessedAt := now;
         accessCount := (accessCount r + 1)%Z;
         isRelevant := isRelevant r |} ].
Proof.
  intros Hrows. rewrite rows_of_update, Hrows. cbn [map].
  unfold apply_update. cbn [update_id update_accessCount].
  rewrite Nat.eqb_refl. reflexivity.
Qed.

(** After a successful [addFiles] of one file, its hash has exactly one
    row, last accessed at the time of the call. *)
Lemma addFiles_single_row (sessionId : string) (f : FileInput) (now : Z)
  (db db1 : Db) :
  hash_unique db ->
  addFiles failed_query sha256 sessionId [f] now db = (inr tt, db1) ->
  exists row, rows_of sessionId (sha256 (in_content f)) db1 = [row]
              /\ lastAccessedAt row = now.
Proof.
  intros Huniq Hcall.
  pose proof (Huniq sessionId (sha256 (in_content f))) as Hlen.
  destruct (rows_of sessionId (sha256 (in_content f)) db) as [|r [|r' l]] eqn:Hrows.
  - rewrite (addFiles_new sessionId f now db Hrows) in Hcall.
    unfold insert_file in Hcall. cbn [new_sessionId new_contentHash] in Hcall.
    destruct (negb (references_ok db sessionId)); [discriminate|].
    destruct (file_hash_taken db sessionId (Some (sha256 (in_content f))));
      [discriminate|].
    injection Hcall as <-.
    eexists. split.
    + unfold rows_of in *. cbn [conversationFiles].
      rewrite filter_app, Hrows.
      cbn [filter file_sessionId hash_is contentHash app].
      rewrite !String.eqb_refl. reflexivity.
    + reflexivity.
  - rewrite (addFiles_existing sessionId f now db r Hrows) in Hcall.
    injection Hcall as <-.
    rewrite (rows_of_updated sessionId _ now db r Hrows).
    eexists. split; reflexivity.
  - simpl in Hlen. lia.
Qed.

(** C9.  [addFiles(S, [f])] twice in succession: the second call leaves
    exactly one row for the hash of [f] in [S] and the number of file rows
    as it was, adds exactly 1 to the row's [accessCount], and sets its
    [lastAccessedAt] to the second call's time, no earlier than the
    first's; and [addFiles] keeps [(sessionId, contentHash)] the key of a
    single row, whatever the files. *)
Theorem addFiles_twice (sessionId : string) (f : FileInput) (t1 t2 : Z)
  (db db1 : Db) :
  hash_unique db ->
  (t1 <= t2)%Z ->
  addFiles failed_query sha256 sessionId [f] t1 db = (inr tt, db1) ->
  (exists db2 row1 row2,
      addFiles failed_query sha256 sessionId [f] t2 db1 = (inr tt, db2)
      /\ rows_of sessionId (sha256 (in_content f)) db1 = [row1]
      /\ rows_of sessionId (sha256 (in_content f)) db2 = [row2]
      /\ List.length (conversationFiles db2) = List.length (conversationFiles db1)
      /\ file_id row2 = file_id row1
      /\ accessCount row2 = (accessCount row1 + 1)%Z
      /\ lastAccessedAt row1 = t1
      /\ lastAccessedAt row2 = t2
      /\ (lastAccessedAt row1 <= lastAccessedAt row2)%Z)
  /\ (forall S' files now,
         hash_unique (snd (addFiles failed_query sha256 S' files now db))).
Proof.
  intros Huniq Ht Hfirst. split.
  - destruct (addFiles_single_row sessionId f t1 db db1 Huniq Hfirst)
      as [row1 [Hrow1 Hat1]].
    eexists. exists row1. eexists.
    split; [apply (addFiles_existing sessionId f t2 db1 row1 Hrow1)|].
    split; [exact Hrow1|].
    split; [apply (rows_of_updated sessionId _ t2 db1 row1 Hrow1)|].
    cbn [update_file conversationFiles file_id accessCount lastAccessedAt].
    rewrite length_map, Hat1. repeat split; try reflexivity. exact Ht.
  - intros S' files now. apply hash_unique_addFiles, Huniq.
Qed.

End FileDeduplication.

Section FileDeduplicationExample.
Import Schema ConversationMemoryManager Claimed Examples.

(** C9 on the empty database: [/x.ts] with content [HELLO], added at
    time 10 and again at time 20. *)
Lemma addFiles_twice_witness :
  exists db2 row1 row2,
    addFiles driver_message verbatim_digest "s" [x_ts] 20
      (snd (addFiles driver_message verbatim_digest "s" [x_ts] 10 empty_db)) = (inr tt, db2)
    /\ rows_of "s" "HELLO" (snd (addFiles driver_message verbatim_digest "s" [x_ts] 10 empty_db))
       = [row1]
    /\ rows_of "s" "HELLO" db2 = [row2]
    /\ List.length (conversationFiles db2) = 1%nat
    /\ accessCount row1 = 0%Z
    /\ accessCount row2 = 1%Z
    /\ lastAccessedAt row2 = 20%Z.
Proof.
  assert (Huniq : hash_unique empty_db).
  { intros sessionId hash. simpl. lia. }
  destruct (addFiles_twice driver_message verbatim_digest "s" x_ts 10 20 empty_db
              (snd (addFiles driver_message verbatim_digest "s" [x_ts] 10 empty_db))
              Huniq ltac:(lia) eq_refl)
    as [[db2 [row1 [row2 [H2 [Hr1 [Hr2 [Hlen [_ [Hacc [_ [Hat _]]]]]]]]]]] _].
  exists db2, row1, row2.
  assert (Hacc1 : accessCount row1 = 0%Z).
  { vm_compute in Hr1. injection Hr1 as <-. reflexivity. }
  split; [exact H2|].
  split; [exact Hr1|].
  split; [exact Hr2|].
  split; [rewrite Hlen; reflexivity|].
  split; [exact Hacc1|].
  split; [rewrite Hacc, Hacc1; reflexivity|].
  exact Hat.
Defined.

End FileDeduplicationExample.

(** ** The streaming adapter *)

Section SplitLines.

Lemma append_assoc (a b c : string) : ((a ++ b) ++ c = a ++ (b ++ c))%string.
Proof.
  induction a as [|x a IH]; simpl; [reflexivity|]. rewrite IH. reflexivity.
Qed.

Lemma append_empty_r (a : string) : (a ++ "")%string = a.
Proof.
  induction a as [|x a IH]; simpl; [reflexivity|]. rewrite IH. reflexivity.
Qed.

Lemma split_newline_cons (s : string) :
  exists first others, Js.split_newline s = first :: others.
Proof.
  destruct s as [|c s]; simpl; [eexists; eexists; reflexivity|].
  destruct (Ascii.eqb c Js.newline); [eexists; eexists; reflexivity|].
  destruct (Js.split_newline s); eexists; eexists; reflexivity.
Qed.

(** Splitting a text in two pieces: the lines of the first piece but the
    last, then the lines of that last fragment followed by the second
    piece. *)
Lemma split_newline_app (a b : string) :
  Js.split_newline (a ++ b)
  = removelast (Js.split_newline a)
    ++ Js.split_newline (last (Js.split_newline a) "" ++ b).
Proof.
  induction a as [|c a IH]; [reflexivity|].
  cbn [append Js.split_newline].
  destruct (split_newline_cons a) as [h [t Ha]].
  rewrite IH, Ha.
  destruct (Ascii.eqb c Js.newline) eqn:Ec.
  - destruct t; reflexivity.
  - destruct t as [|h' t].
    + cbn [removelast last app append Js.split_newline]. rewrite Ec.
      reflexivity.
    + reflexivity.
Qed.

(** The fragment after the last newline holds no newline. *)
Lemma split_newline_last (s : string) :
  Js.split_newline (last (Js.split_newline s) "")
  = [last (Js.split_newline s) ""].
Proof.
  induction s as [|c s IH]; [reflexivity|].
  cbn [Js.split_newline].
  destruct (split_newline_cons s) as [h [t Hs]]. rewrite Hs in *.
  destruct (Ascii.eqb c Js.newline) eqn:Ec.
  - destruct t; exact IH.
  - destruct t as [|h' t]; [|exact IH].
    cbn [last] in *. cbn [Js.split_newline]. rewrite Ec, IH. reflexivity.
Qed.

Lemma complete_lines_app (a b : string) :
  Claimed.complete_lines (a ++ b)
  = Claimed.complete_lines a
    ++ Claimed.complete_lines (last (Js.split_newline a) "" ++ b).
Proof.
  unfold Claimed.complete_lines. rewrite split_newline_app.
  destruct (split_newline_cons (last (Js.split_newline a) "" ++ b))
    as [h [t H]].
  rewrite H. apply removelast_app. discriminate.
Qed.

Lemma last_app_nonempty {A : Type} (l l' : list A) (d : A) :
  l' <> [] -> last (l ++ l') d = last l' d.
Proof.
  intros Hl'. induction l as [|x l IH]; [reflexivity|].
  cbn [app last]. destruct (l ++ l') eqn:E; [|exact IH].
  apply app_eq_nil in E. destruct E as [_ E]. contradiction.
Qed.

Lemma last_split_app (a b : string) :
  last (Js.split_newline (a ++ b)) ""
  = last (Js.split_newline (last (Js.split_newline a) "" ++ b)) "".
Proof.
  rewrite split_newline_app.
  destruct (split_newline_cons (last (Js.split_newline a) "" ++ b))
    as [h [t H]].
  rewrite H. apply last_app_nonempty. discriminate.
Qed.

End SplitLines.

Section Streaming.
Import DeepSeekR1Provider Claimed.

Variable JSON_parse : string -> option Js.value.
Variable numberToString : float -> string.


Lemma with_buffer_same (st : Stream) : with_buffer (buffer st) st = st.
Proof. destruct st; reflexivity. Qed.

Lemma with_buffer_twice (a b : string) (st : Stream) :
  with_buffer a (with_buffer b st) = with_buffer a st.
Proof. reflexivity. Qed.

Lemma on_payload_with_buffer (data text : string) (st : Stream) :
  (on_payload JSON_parse numberToString) data (with_buffer text st) = with_buffer text ((on_payload JSON_parse numberToString) data st).
Proof.
  unfold DeepSeekR1Provider.on_payload.
  destruct (JSON_parse data) as [parsed|]; [|reflexivity].
  destruct (Js.nullish parsed); [reflexivity|].
  destruct (unconvertible_content parsed); [reflexivity|].
  destruct (Js.truthy (delta_content parsed)),
           (Js.truthy (Js.member parsed "usage")),
           (Js.truthy (finish_reason parsed)); reflexivity.
Qed.

Lemma for_lines_with_buffer (lines : list string) (text : string) :
  forall st,
    (for_lines JSON_parse numberToString) lines (with_buffer text st) = with_buffer text ((for_lines JSON_parse numberToString) lines st).
Proof.
  induction lines as [|line rest IH]; intros st; [reflexivity|].
  cbn [DeepSeekR1Provider.for_lines].
  destruct (Js.startsWith line "data: "); [|apply IH].
  destruct (String.eqb (Js.trim (Js.slice 6 line)) "[DONE]"); [reflexivity|].
  rewrite on_payload_with_buffer. apply IH.
Qed.

Lemma inert_not_done (line : string) : inert line = true -> is_done line = false.
Proof.
  unfold inert, is_done. destruct (is_payload line); [discriminate|reflexivity].
Qed.

Lemma for_lines_inert (lines : list string) (st : Stream) :
  all_inert lines -> (for_lines JSON_parse numberToString) lines st = st.
Proof.
  intros H. induction H as [|line rest Hline _ IH]; [reflexivity|].
  cbn [DeepSeekR1Provider.for_lines].
  unfold inert, is_payload in Hline.
  destruct (Js.startsWith line "data: "); [discriminate|exact IH].
Qed.

(** The [break]: the lines of a batch after its first terminator are not
    looked at. *)
Lemma for_lines_until_done (lines : list string) :
  forall st, (for_lines JSON_parse numberToString) lines st = (for_lines JSON_parse numberToString) (until_done lines) st.
Proof.
  induction lines as [|line rest IH]; intros st; [reflexivity|].
  cbn [until_done]. unfold is_done, is_payload, payload.
  cbn [DeepSeekR1Provider.for_lines].
  destruct (Js.startsWith line "data: ") eqn:Ep; cbn [andb].
  - destruct (String.eqb (Js.trim (Js.slice 6 line)) "[DONE]") eqn:Ed;
      [reflexivity|].
    cbn [DeepSeekR1Provider.for_lines]. rewrite Ep, Ed. apply IH.
  - cbn [DeepSeekR1Provider.for_lines]. rewrite Ep. apply IH.
Qed.

Lemma until_done_app (a b : list string) :
  until_done (a ++ b)
  = if existsb is_done a then until_done a else a ++ until_done b.
Proof.
  induction a as [|line a IH]; [reflexivity|].
  cbn [app until_done existsb].
  destruct (is_done line); [reflexivity|]. cbn [orb]. rewrite IH.
  destruct (existsb is_done a); reflexivity.
Qed.

Lemma after_done_app (a b : list string) :
  after_done (a ++ b)
  = if existsb is_done a then after_done a ++ b else after_done b.
Proof.
  induction a as [|line a IH]; [reflexivity|].
  cbn [app after_done existsb].
  destruct (is_done line); [reflexivity|]. cbn [orb]. exact IH.
Qed.

Lemma for_lines_app (a b : list string) :
  forall st,
    existsb is_done a = false ->
    (for_lines JSON_parse numberToString) (a ++ b) st = (for_lines JSON_parse numberToString) b ((for_lines JSON_parse numberToString) a st).
Proof.
  induction a as [|line a IH]; intros st Ha; [reflexivity|].
  cbn [existsb] in Ha. apply orb_false_iff in Ha. destruct Ha as [Hline Ha].
  unfold is_done, is_payload, payload in Hline.
  cbn [app DeepSeekR1Provider.for_lines].
  destruct (Js.startsWith line "data: "); cbn [andb] in Hline.
  - rewrite Hline. apply IH, Ha.
  - apply IH, Ha.
Qed.

(** Once only inert lines are to come, the reads change the buffer
    alone. *)
Lemma read_all_inert (reads : list string) :
  forall st,
    Js.split_newline (buffer st) = [buffer st] ->
    all_inert (complete_lines (buffer st ++ whole reads)) ->
    fold_left (on_read JSON_parse numberToString) reads st
    = with_buffer (last (Js.split_newline (buffer st ++ whole reads)) "") st.
Proof.
  induction reads as [|r reads IH]; intros st Hbuf Hinert.
  - cbn [fold_left whole fold_right]. rewrite append_empty_r, Hbuf.
    cbn [last]. symmetry. apply with_buffer_same.
  - cbn [fold_left whole fold_right] in *.
    rewrite <- append_assoc in *.
    rewrite complete_lines_app in Hinert.
    apply Forall_app in Hinert. destruct Hinert as [H1 H2].
    rewrite last_split_app.
    unfold DeepSeekR1Provider.on_read at 2.
    fold (complete_lines (buffer st ++ r)).
    fold (with_buffer (last (Js.split_newline (buffer st ++ r)) "") st).
    rewrite for_lines_inert by exact H1.
    rewrite IH.
    + reflexivity.
    + apply split_newline_last.
    + exact H2.
Qed.

(** The reads of a body come to the lines before its first terminator,
    when only inert lines follow it. *)
Lemma read_all_lines (reads : list string) :
  forall st,
    Js.split_newline (buffer st) = [buffer st] ->
    all_inert (after_done (complete_lines (buffer st ++ whole reads))) ->
    fold_left (on_read JSON_parse numberToString) reads st
    = with_buffer (last (Js.split_newline (buffer st ++ whole reads)) "")
        ((for_lines JSON_parse numberToString) (until_done (complete_lines (buffer st ++ whole reads))) st).
Proof.
  induction reads as [|r reads IH]; intros st Hbuf Hinert.
  - cbn [fold_left whole fold_right]. rewrite append_empty_r.
    unfold complete_lines. rewrite Hbuf. cbn [last removelast until_done].
    symmetry. apply with_buffer_same.
  - cbn [fold_left whole fold_right] in *.
    rewrite <- append_assoc in *.
    rewrite complete_lines_app in *.
    rewrite after_done_app in Hinert. rewrite until_done_app.
    rewrite last_split_app.
    unfold DeepSeekR1Provider.on_read at 2.
    fold (complete_lines (buffer st ++ r)).
    fold (with_buffer (last (Js.split_newline (buffer st ++ r)) "") st).
    set (b1 := last (Js.split_newline (buffer st ++ r)) "") in *.
    set (batch := complete_lines (buffer st ++ r)) in *.
    rewrite for_lines_with_buffer.
    destruct (existsb is_done batch) eqn:Edone.
    + apply Forall_app in Hinert. destruct Hinert as [_ H2].
      rewrite read_all_inert.
      * rewrite <- for_lines_until_done. reflexivity.
      * apply split_newline_last.
      * exact H2.
    + rewrite IH.
      * change (buffer (with_buffer b1
                          (for_lines JSON_parse numberToString batch st)))
          with b1.
        rewrite for_lines_with_buffer.
        rewrite (for_lines_app batch _ st Edone). reflexivity.
      * apply split_newline_last.
      * exact Hinert.
Qed.

Lemma last_default {A : Type} (l : list A) (d d' : A) :
  l <> [] -> last l d = last l d'.
Proof.
  induction l as [|x l IH]; intros H; [contradiction|].
  destruct l as [|y l]; [reflexivity|].
  cbn [last] in *. apply IH. discriminate.
Qed.

Lemma last_cons {A : Type} (x d : A) (l : list A) :
  last (x :: l) d = last l x.
Proof.
  destruct l as [|y l]; [reflexivity|].
  change (last (x :: y :: l) d) with (last (y :: l) d).
  apply last_default. discriminate.
Qed.

Lemma text_of_app (a b : list Js.value) :
  text_of numberToString (a ++ b)
  = (text_of numberToString a ++ text_of numberToString b)%string.
Proof.
  induction a as [|x a IH]; [reflexivity|].
  cbn [app Claimed.text_of fold_right]. fold (text_of numberToString (a ++ b)).
  fold (text_of numberToString a). rewrite IH, append_assoc. reflexivity.
Qed.

(** What one decoded payload does to the adapter's variables. *)
Lemma on_payload_decoded (data : string) (parsed : Js.value) (st : Stream) :
  JSON_parse data = Some parsed ->
  Js.nullish parsed = false ->
  unconvertible_content parsed = false ->
  on_payload JSON_parse numberToString data st
  = {| buffer := buffer st;
       fullText := (fullText st ++ text_of numberToString (deltas [parsed]))%string;
       usage := match usage_of parsed with
                | Some u => Some u
                | None => usage st
                end;
       finishReason :=
         last (filter Js.truthy [finish_reason parsed]) (finishReason st);
       yielded := yielded st ++ deltas [parsed] |}.
Proof.
  intros Hparse Hnull Hconverts. unfold on_payload.
  rewrite Hparse, Hnull, Hconverts.
  unfold deltas, usage_of. cbn [map filter].
  destruct st as [b t u f y]. cbn [buffer fullText usage finishReason yielded].
  destruct (Js.truthy (delta_content parsed)),
           (Js.truthy (Js.member parsed "usage")),
           (Js.truthy (finish_reason parsed));
    cbn [buffer fullText usage finishReason yielded last Claimed.text_of
         fold_right];
    rewrite ?append_empty_r, ?app_nil_r; reflexivity.
Qed.

(** The lines of a batch without terminator: the deltas of its decoded
    payloads are yielded in order and appended to the text; the last
    usage and the last finish reason stay. *)
Lemma for_lines_fields (lines : list string) :
  forall st,
    existsb is_done lines = false ->
    for_lines JSON_parse numberToString lines st
    = {| buffer := buffer st;
         fullText :=
           (fullText st
            ++ text_of numberToString (deltas (decoded JSON_parse lines)))%string;
         usage := match last_usage (decoded JSON_parse lines) with
                  | Some u => Some u
                  | None => usage st
                  end;
         finishReason :=
           last (filter Js.truthy (map finish_reason (decoded JSON_parse lines)))
                (finishReason st);
         yielded := yielded st ++ deltas (decoded JSON_parse lines) |}.
Proof.
  induction lines as [|line rest IH]; intros st Hdone.
  - cbn. rewrite append_empty_r, app_nil_r. destruct st; reflexivity.
  - cbn [existsb] in Hdone. apply orb_false_iff in Hdone.
    destruct Hdone as [Hline Hrest].
    unfold is_done, is_payload, payload in Hline.
    cbn [DeepSeekR1Provider.for_lines Claimed.decoded].
    unfold is_payload, payload.
    destruct (Js.startsWith line "data: "); cbn [andb] in Hline;
      [|apply IH, Hrest].
    rewrite Hline.
    destruct (JSON_parse (Js.trim (Js.slice 6 line))) as [parsed|] eqn:Hparse.
    + destruct (Js.nullish parsed) eqn:Hnull; cbn [orb];
        [unfold on_payload; rewrite Hparse, Hnull; apply IH, Hrest|].
      destruct (unconvertible_content parsed) eqn:Hconverts.
      * unfold on_payload. rewrite Hparse, Hnull, Hconverts. apply IH, Hrest.
      * rewrite (IH _ Hrest).
        rewrite (on_payload_decoded _ parsed st Hparse Hnull Hconverts).
        cbn [buffer fullText usage finishReason yielded].
        unfold deltas. cbn [map filter Claimed.last_usage].
        destruct (Js.truthy (delta_content parsed)),
                 (Js.truthy (finish_reason parsed)),
                 (last_usage (decoded JSON_parse rest)),
                 (usage_of parsed);
          cbn [Claimed.text_of fold_right app];
          rewrite ?append_empty_r, ?app_nil_r, ?last_cons, ?append_assoc,
                  <- ?app_assoc;
          reflexivity.
    + unfold on_payload. rewrite Hparse. apply IH, Hrest.
Qed.

Lemma until_done_clear (lines : list string) :
  existsb is_done (until_done lines) = false.
Proof.
  induction lines as [|line rest IH]; [reflexivity|].
  cbn [until_done]. destruct (is_done line) eqn:E; [reflexivity|].
  cbn [existsb]. rewrite E, IH. reflexivity.
Qed.

(** A drained stream whose reads come to the lines before the first
    terminator. *)
Lemma streamText_of_lines (reads : list string) (lines : list string) (rest : string) :
  read_all JSON_parse numberToString reads
  = with_buffer rest (for_lines JSON_parse numberToString (until_done lines) start) ->
  streamText JSON_parse numberToString (clean_response reads)
  = streamed JSON_parse numberToString lines.
Proof.
  intros Hread. unfold streamText, clean_response. cbn [ok body negb].
  rewrite Hread, (for_lines_fields _ start (until_done_clear lines)).
  unfold streamed, Tracking.updateLLMCompletion, last_finish.
  cbn. destruct (last_usage (decoded JSON_parse (until_done lines)));
    reflexivity.
Qed.


End Streaming.

Section StreamingExamples.
Import DeepSeekR1Provider Claimed Examples.



(** The [break] at [[DONE]] leaves the loop over the lines of one read,
    not the loop over the reads: a payload that arrives in a later read
    is still processed, while the same text in one read is not. *)
Remark streamText_payload_in_later_read :
  chunks (streamText parse_deltas number_text (clean_response late_reads))
  = [Js.Str "He"]
  /\ chunks (streamText parse_deltas number_text
               (clean_response [whole late_reads]))
     = [].
Proof. split; vm_compute; reflexivity. Qed.

End StreamingExamples.

(* ================================================================== *)
(** * Part III: further properties of the code *)
(* ================================================================== *)

(** ** Model-name normalization *)

Section Normalization.
Import Types PricingCalculator Claimed.

Lemma lookup_In {A : Type} (o : list (string * A)) (k : string) (v : A) :
  Js.lookup o k = Some v -> In (k, v) o.
Proof.
  induction o as [|[k' x] o IH]; simpl; [discriminate|].
  destruct (String.eqb k' k) eqn:E.
  - intros H. injection H as <-. apply String.eqb_eq in E. subst. left. reflexivity.
  - intros H. right. apply IH, H.
Qed.

Lemma first_included_In (lowered : string) (entries : list (string * string))
  (r : string) :
  first_included lowered entries = Some r ->
  exists p, In (p, r) entries /\ Js.includes lowered (Js.toLowerCase p) = true.
Proof.
  induction entries as [|[p x] entries IH]; simpl; [discriminate|].
  destruct (Js.includes lowered (Js.toLowerCase p)) eqn:E.
  - intros H. injection H as <-. exists p. split; [left; reflexivity|exact E].
  - intros H. destruct (IH H) as [p' [Hin Hp']].
    exists p'. split; [right; exact Hin|exact Hp'].
Qed.

Lemma lower_char_idempotent (c : ascii) :
  Js.lower_char (Js.lower_char c) = Js.lower_char c.
Proof.
  destruct c as [[|] [|] [|] [|] [|] [|] [|] [|]]; vm_compute; reflexivity.
Qed.

Lemma toLowerCase_idempotent (s : string) :
  Js.toLowerCase (Js.toLowerCase s) = Js.toLowerCase s.
Proof.
  induction s as [|c s IH]; [reflexivity|].
  cbn [Js.toLowerCase]. rewrite lower_char_idempotent, IH. reflexivity.
Qed.

(** Of the names of [Object.prototype], a lower-cased text can only be
    [constructor] or [__proto__]. *)
Lemma on_prototype_lowered (s : string) :
  Js.on_prototype (Js.toLowerCase s) = true ->
  Js.toLowerCase s = "constructor" \/ Js.toLowerCase s = "__proto__".
Proof.
  intros H. unfold Js.on_prototype in H. apply existsb_exists in H.
  destruct H as [k [Hin Hk]]. apply String.eqb_eq in Hk.
  pose proof (toLowerCase_idempotent s) as Hidem. rewrite Hk in Hidem.
  rewrite Hk. unfold Js.prototype_names in Hin. cbn [In] in Hin.
  repeat (destruct Hin as [<- | Hin];
          [first [left; reflexivity | right; reflexivity
                 | vm_compute in Hidem; discriminate Hidem]|]).
  contradiction Hin.
Qed.

(** The result: a replacement of the table, or the name as it came, or
    the member of [Object.prototype] under the lower-cased name. *)
Lemma normalizeModelName_cases (model : string) :
  match normalizeModelName model with
  | model_name n => In n (map snd normalizations) \/ n = model
  | prototype_member key =>
      Js.toLowerCase model = key /\ Js.on_prototype key = true
  end.
Proof.
  unfold normalizeModelName, Js.read.
  assert (Hscan :
    In (match first_included (Js.toLowerCase model) normalizations with
        | Some replacement => replacement
        | None => model
        end) (map snd normalizations)
    \/ match first_included (Js.toLowerCase model) normalizations with
       | Some replacement => replacement
       | None => model
       end = model).
  { destruct (first_included (Js.toLowerCase model) normalizations) as [r|] eqn:E;
      [|right; reflexivity].
    left. destruct (first_included_In _ _ _ E) as [p [Hin _]].
    apply (in_map snd) in Hin. exact Hin. }
  destruct (Js.lookup normalizations (Js.toLowerCase model)) as [v|] eqn:E.
  - destruct (Js.truthy_string v); [|exact Hscan].
    left. apply lookup_In in E. apply (in_map snd) in E. exact E.
  - destruct (Js.on_prototype (Js.toLowerCase model)) eqn:Hproto;
      [split; [reflexivity | exact Hproto] | exact Hscan].
Qed.

Lemma replacements_fixed :
  Forall (fun v => normalizeModelName v = model_name v) (map snd normalizations).
Proof.
  unfold normalizations. cbn [map snd].
  repeat (apply Forall_cons; [vm_compute; reflexivity|]).
  apply Forall_nil.
Qed.

(** X1.  [normalizeModelName] is idempotent wherever it returns a name: a
    normalized name normalizes to itself.  It returns no name exactly for
    the names that are, case aside, [constructor] or [__proto__]: the
    lookup in the table then finds a member of [Object.prototype], which
    is returned as it is and is no string to normalize again. *)
Theorem normalizeModelName_idempotent (model : string) :
  match normalizeModelName model with
  | model_name n => normalizeModelName n = model_name n
  | prototype_member key =>
      Js.toLowerCase model = key /\ (key = "constructor" \/ key = "__proto__")
  end
  /\ (Js.toLowerCase model = "constructor" \/ Js.toLowerCase model = "__proto__" ->
      normalizeModelName model = prototype_member (Js.toLowerCase model)).
Proof.
  split.
  - pose proof (normalizeModelName_cases model) as Hcases.
    destruct (normalizeModelName model) as [n | key] eqn:Hresult.
    + destruct Hcases as [Hin | ->].
      * pose proof replacements_fixed as Hfixed.
        rewrite Forall_forall in Hfixed. apply Hfixed, Hin.
      * exact Hresult.
    + destruct Hcases as [Hkey Hproto]. split; [exact Hkey|].
      rewrite <- Hkey in Hproto |- *. apply on_prototype_lowered, Hproto.
  - unfold normalizeModelName. intros [-> | ->]; reflexivity.
Qed.

Lemma startsWith_app_l (s p q : string) :
  Js.startsWith s (p ++ q) = true -> Js.startsWith s p = true.
Proof.
  revert s. induction p as [|c p IH]; intros s H; [destruct s; reflexivity|].
  destruct s as [|d s]; [discriminate|]. simpl in *.
  apply andb_true_iff in H. destruct H as [Hc Hs].
  rewrite Hc. apply IH, Hs.
Qed.

(** A text that includes a pattern includes its beginnings. *)
Lemma includes_app_l (s p q : string) :
  Js.includes s (p ++ q) = true -> Js.includes s p = true.
Proof.
  induction s as [|d s IH]; intros H.
  - cbn [Js.includes] in *. rewrite orb_false_r in *.
    apply (startsWith_app_l _ _ q), H.
  - cbn [Js.includes] in *. apply orb_true_iff in H. apply orb_true_iff.
    destruct H as [H|H]; [left; apply (startsWith_app_l _ _ q), H|].
    right. apply IH, H.
Qed.

(** X2.  The pattern [gpt-4o-mini] of the scan is dead: a name that
    includes [gpt-4o-mini] without being it (ignoring case), such as a
    deployment name around it, is normalized to [gpt-5], [o3] or
    [gpt-4o], never to [gpt-4o-mini]. *)
Theorem normalizeModelName_mini_shadowed (model : string) :
  Js.includes (Js.toLowerCase model) "gpt-4o-mini" = true ->
  Js.toLowerCase model <> "gpt-4o-mini" ->
  normalizeModelName model = "gpt-5"
  \/ normalizeModelName model = "o3"
  \/ normalizeModelName model = "gpt-4o".
Proof.
  intros Hinc Hne.
  assert (H4o : Js.includes (Js.toLowerCase model) "gpt-4o" = true)
    by (apply (includes_app_l _ "gpt-4o" "-mini"), Hinc).
  assert (Hscan :
    first_included (Js.toLowerCase model) normalizations = Some "gpt-5"
    \/ first_included (Js.toLowerCase model) normalizations = Some "o3"
    \/ first_included (Js.toLowerCase model) normalizations = Some "gpt-4o").
  { unfold normalizations. cbn [first_included].
    change (Js.toLowerCase "gpt-5") with "gpt-5".
    change (Js.toLowerCase "o3") with "o3".
    change (Js.toLowerCase "gpt-4o") with "gpt-4o".
    destruct (Js.includes (Js.toLowerCase model) "gpt-5"); [left; reflexivity|].
    destruct (Js.includes (Js.toLowerCase model) "o3");
      [right; left; reflexivity|].
    rewrite H4o. right; right; reflexivity. }
  unfold normalizeModelName, Js.read.
  destruct (Js.lookup normalizations (Js.toLowerCase model)) as [v|] eqn:E.
  - exfalso. apply lookup_In in E. unfold normalizations in E.
    cbn [In] in E.
    repeat (destruct E as [E|E];
            [injection E as Hk _; rewrite <- Hk in Hinc, Hne;
             first [discriminate Hinc | apply Hne; reflexivity]|]).
    exact E.
  - destruct (Js.on_prototype (Js.toLowerCase model)) eqn:Hproto.
    + exfalso. apply on_prototype_lowered in Hproto.
      destruct Hproto as [Hk | Hk]; rewrite Hk in Hinc; discriminate Hinc.
    + destruct Hscan as [-> | [-> | ->]]; tauto.
Qed.

(** X2 at [my-gpt-4o-mini-deployment]. *)
Lemma normalizeModelName_mini_shadowed_witness :
  normalizeModelName "my-gpt-4o-mini-deployment" = "gpt-5"
  \/ normalizeModelName "my-gpt-4o-mini-deployment" = "o3"
  \/ normalizeModelName "my-gpt-4o-mini-deployment" = "gpt-4o".
Proof.
  apply normalizeModelName_mini_shadowed; [reflexivity|].
  vm_compute. discriminate.
Defined.

End Normalization.

(** ** The pricing service and its two caches *)

Section PricingLookups.
Import Types PricingFetcher PricingService Claimed.

Lemma find_same_lowercase_Some (entries : PricingData) (n : string)
  (entry : ModelPricing) :
  find_same_lowercase entries n = Some entry ->
  exists key, In (key, entry) entries /\ same_ignoring_case key n.
Proof.
  induction entries as [|[key value] entries IH]; simpl; [discriminate|].
  destruct (String.eqb (Js.toLowerCase key) (Js.toLowerCase n)) eqn:E.
  - intros H. injection H as <-. exists key.
    split; [left; reflexivity|]. apply String.eqb_eq, E.
  - intros H. destruct (IH H) as [key' [Hin Hsame]].
    exists key'. split; [right; exact Hin|exact Hsame].
Qed.

Lemma find_same_lowercase_None (entries : PricingData) (n : string) :
  find_same_lowercase entries n = None ->
  forall key entry, In (key, entry) entries -> ~ same_ignoring_case key n.
Proof.
  induction entries as [|[key value] entries IH]; simpl; [contradiction|].
  destruct (String.eqb (Js.toLowerCase key) (Js.toLowerCase n)) eqn:E;
    [discriminate|].
  intros H key' entry [Hin|Hin].
  - injection Hin as <- _. apply String.eqb_neq, E.
  - apply (IH H key' entry Hin).
Qed.

Lemma member_text_own (key : string) : Js.on_prototype (Js.member_text key) = false.
Proof.
  unfold Js.member_text.
  destruct (String.eqb key "__proto__"); [reflexivity|].
  destruct (String.eqb key "constructor"); reflexivity.
Qed.

(** X3.  When the pricing data can be had, [getModelPricing] returns the
    entry under the normalized name when the catalog has one.  When it
    has none and the name is one of [Object.prototype] ([valueOf],
    [toString] and the like), what it returns is the member found there,
    on which every field is undefined: the model is held to have pricing
    although no key of the catalog matches.  For every other name it
    finds an entry exactly when some key of the catalog is the name, case
    ignored, and returns an entry under such a key.  And when
    [normalizeModelName] gave no string, it returns null unless the
    catalog has a key that is the text of the member. *)
Theorem getModelPricing_found (model : string) (this : Service) (w : World)
  (catalog : PricingData) :
  returned (getPricingData false this w) = inr catalog ->
  let found := returned (getModelPricing model this w) in
  match PricingCalculator.normalizeModelName model with
  | PricingCalculator.model_name n =>
      (forall entry, Js.lookup catalog n = Some entry -> found = Some entry)
      /\ (Js.lookup catalog n = None -> Js.on_prototype n = true ->
          found = Some no_fields)
      /\ (Js.lookup catalog n = None -> Js.on_prototype n = false ->
          (forall entry, found = Some entry ->
             exists key, In (key, entry) catalog /\ same_ignoring_case key n)
          /\ (found = None <->
              forall key entry,
                In (key, entry) catalog -> ~ same_ignoring_case key n))
  | PricingCalculator.prototype_member key =>
      (forall entry,
         Js.lookup catalog (Js.member_text key) = Some entry ->
         found = Some entry)
      /\ (Js.lookup catalog (Js.member_text key) = None -> found = None)
  end.
Proof.
  unfold getModelPricing, returned.
  destruct (getPricingData false this w) as [[[res this'] w'] out].
  cbn [fst]. intros ->. cbn zeta.
  destruct (PricingCalculator.normalizeModelName model) as [n | key].
  - unfold exact_match, Js.read.
    destruct (Js.lookup catalog n) as [exact|] eqn:Hexact.
    + cbn [fst]. split; [intros entry H; exact H|].
      split; intros H; discriminate H.
    + split; [discriminate|].
      destruct (Js.on_prototype n); cbn [fst].
      * split; [reflexivity | discriminate].
      * split; [discriminate|]. intros _ _.
        destruct (find_same_lowercase catalog n) as [value|] eqn:Hfind; cbn [fst].
        -- split.
           ++ intros entry H. injection H as <-.
              apply (find_same_lowercase_Some _ _ _ Hfind).
           ++ split; [discriminate|].
              intros H. exfalso.
              destruct (find_same_lowercase_Some _ _ _ Hfind) as [key [Hin Hsame]].
              apply (H key value Hin Hsame).
        -- split; [discriminate|].
           split; [|reflexivity].
           intros _. apply (find_same_lowercase_None _ _ Hfind).
  - unfold exact_match, Js.read. rewrite member_text_own.
    destruct (Js.lookup catalog (Js.member_text key)) as [exact|]; cbn [fst].
    + split; [intros entry H; exact H | discriminate].
    + split; [discriminate|]. intros _.
      destruct catalog; reflexivity.
Qed.

End PricingLookups.

Section PricingLookupsExample.
Import Types PricingFetcher PricingService Claimed Examples.

(** X3 at a catalog that spells the key in capitals. *)
Lemma getModelPricing_found_witness :
  exists key,
    In (key, plain_entry) capitals_catalog
    /\ same_ignoring_case key "gpt-4o".
Proof.
  pose proof (getModelPricing_found "gpt-4o" new_service
                (cached_world capitals_catalog) capitals_catalog eq_refl) as H.
  cbn zeta in H.
  change (PricingCalculator.normalizeModelName "gpt-4o")
    with (PricingCalculator.model_name "gpt-4o") in H.
  destruct H as (_ & _ & H).
  destruct (H eq_refl eq_refl) as [Hfound _].
  apply Hfound. reflexivity.
Defined.

End PricingLookupsExample.

Section PricingCaches.
Import Types PricingFetcher PricingService Claimed.

(** X4.  Saving and loading back: after a forced refresh that succeeds,
    an unforced call is served from the disk cache, with the data fetched
    and without a request, as long as the cache is no older than the TTL,
    and [getCacheInfo] tells it unexpired; once it is older, the next call
    sends a request. *)
Theorem getLatestPricing_refresh_then_cached (ttl : Z) (w : World)
  (freshData : PricingData) (elapsed : Z) :
  remote w = inr freshData ->
  writeError w = None ->
  let later := at_time (now w + elapsed) (refreshed ttl freshData w) in
  getLatestPricing ttl true w = (inr freshData, refreshed ttl freshData w, [])
  /\ ((elapsed <= ttl)%Z ->
      getLatestPricing ttl false later = (inr freshData, later, [])
      /\ info_expired (getCacheInfo ttl later) = Some false)
  /\ ((ttl < elapsed)%Z ->
      requests (snd (fst (getLatestPricing ttl false later)))
      = S (requests later)
      /\ info_expired (getCacheInfo ttl later) = Some true).
Proof.
  intros Hremote Hwrite. cbn zeta. split; [|split].
  - unfold getLatestPricing, fetch_and_save, fetchFromRemote, saveToCache,
      refreshed.
    cbn [negb]. rewrite Hremote. cbn [remote writeError]. rewrite Hwrite.
    cbn [now]. rewrite ?Hremote, ?Hwrite. reflexivity.
  - intros Hle.
    unfold getLatestPricing, getCacheInfo, loadFromCache, isCacheExpired,
      at_time, refreshed.
    cbn [negb cacheFile now metadata timestamp data info_expired].
    replace (now w + elapsed - now w >? ttl)%Z with false
      by (symmetry; rewrite Z.gtb_ltb; apply Z.ltb_ge; lia).
    split; reflexivity.
  - intros Hgt.
    unfold getLatestPricing, getCacheInfo, loadFromCache, isCacheExpired,
      at_time, refreshed.
    cbn [negb cacheFile now metadata timestamp data info_expired].
    replace (now w + elapsed - now w >? ttl)%Z with true
      by (symmetry; rewrite Z.gtb_ltb; apply Z.ltb_lt; lia).
    split; [|reflexivity].
    unfold fetch_and_save, fetchFromRemote, saveToCache.
    cbn [negb remote writeError now cacheFile requests].
    rewrite Hremote, Hwrite. reflexivity.
Qed.

(** X5.  The memory cache: once [getPricingData] has returned data, an
    unforced call made less than five minutes after the last fetch
    returns the same data and touches neither the disk nor the network,
    whatever has become of them. *)
Theorem getPricingData_memoized (forceRefresh : bool) (this this' : Service)
  (w w' later : World) (catalog : PricingData) (out : list Console) :
  getPricingData forceRefresh this w = (inr catalog, this', w', out) ->
  (now later - lastFetchTime this' < MEMORY_CACHE_TTL)%Z ->
  getPricingData false this' later = (inr catalog, this', later, []).
Proof.
  intros Hfirst Hrecent.
  assert (Hcache : pricingDataCache this' = Some catalog).
  { unfold getPricingData in Hfirst.
    destruct (pricingDataCache this) as [cached|] eqn:Hc.
    - destruct (negb forceRefresh
                && (now w - lastFetchTime this <? MEMORY_CACHE_TTL)%Z).
      + injection Hfirst as <- <- _ _. exact Hc.
      + destruct (getLatestPricing DEFAULT_TTL forceRefresh w)
          as [[[e|fetched] w1] out1]; [discriminate|].
        injection Hfirst as <- <- _ _. reflexivity.
    - destruct (getLatestPricing DEFAULT_TTL forceRefresh w)
        as [[[e|fetched] w1] out1]; [discriminate|].
      injection Hfirst as <- <- _ _. reflexivity. }
  unfold getPricingData. rewrite Hcache. cbn [negb andb].
  apply Z.ltb_lt in Hrecent. rewrite Hrecent. reflexivity.
Qed.

(** X6.  With no pricing source at all (nothing in memory, no disk
    cache, the remote failing), nothing is thrown: [getModelPricing]
    returns null and logs an error, [calculateCost] returns the zero-cost
    object, and every such call sends a new request, the failure not
    being remembered. *)
Theorem pricing_unavailable (model : string) (i o : float) (this : Service)
  (w : World) (fetchError : string) :
  pricingDataCache this = None ->
  cacheFile w = None ->
  remote w = inl fetchError ->
  (exists message,
      getModelPricing model this w
      = (None, this, attempted w, [Error message]))
  /\ (exists message,
        calculateCost model i o this w
        = (Some {| inputCost := 0%float;
                   outputCost := 0%float;
                   totalCost := 0%float;
                   inputTokens := i;
                   outputTokens := o;
                   cc_model := model;
                   tieredPricingApplied := false |},
           this, attempted w, [Error message]))
  /\ returned (hasModelPricing model this w) = false.
Proof.
  intros Hmem Hdisk Hremote.
  assert (Hpricing : exists message,
    getModelPricing model this w = (None, this, attempted w, [Error message])).
  { unfold getModelPricing, getPricingData, getLatestPricing, fetch_and_save,
      fetchFromRemote, loadFromCache, attempted.
    rewrite Hmem, Hdisk. cbn [negb]. rewrite Hremote.
    destruct (negb false); cbn [cacheFile]; rewrite ?Hdisk, ?Hremote;
      eexists; reflexivity. }
  destruct Hpricing as [message Hpricing].
  split; [exists message; exact Hpricing|]. split.
  - exists message. unfold calculateCost. rewrite Hpricing. reflexivity.
  - unfold hasModelPricing. rewrite Hpricing. reflexivity.
Qed.

(** X7.  [clearCache] of the service empties both layers: the cache
    file is reported missing, and the next unforced lookup sends a
    request. *)
Theorem clearCache_forgets (this : Service) (w : World) :
  let cleared := PricingService.clearCache this w in
  info_exists (getCacheInfo DEFAULT_TTL (snd cleared)) = false
  /\ pricingDataCache (fst cleared) = None
  /\ requests (snd (fst (getPricingData false (fst cleared) (snd cleared))))
     = S (requests w).
Proof.
  cbn zeta. unfold PricingService.clearCache, PricingFetcher.clearCache.
  cbn [fst snd]. split; [reflexivity|]. split; [reflexivity|].
  unfold getPricingData, getLatestPricing, fetch_and_save, fetchFromRemote,
    saveToCache, loadFromCache.
  cbn [pricingDataCache negb cacheFile remote writeError now requests].
  destruct (remote w) as [e|fresh]; cbn [fst snd requests]; [reflexivity|].
  destruct (writeError w); reflexivity.
Qed.

End PricingCaches.

(** ** Ingesting the remote catalog *)

Section IngestRules.
Import Types PricingFetcher Claimed.

Variable parseInt : string -> float.
Variable ModelPricingSchema_parse : Js.value -> option ModelPricing.

Lemma set_prop_In {A : Type} (o : list (string * A)) (key k : string) (v x : A) :
  In (k, x) (set_prop o key v) -> (k = key /\ x = v) \/ In (k, x) o.
Proof.
  induction o as [|[k' y] o IH]; simpl.
  - intros [H|[]]. injection H as <- <-. left. split; reflexivity.
  - destruct (String.eqb k' key) eqn:E.
    + intros [H|H].
      * injection H as <- <-. apply String.eqb_eq in E. left. split; [exact E|reflexivity].
      * right. right. exact H.
    + intros [H|H]; [right; left; exact H|].
      destruct (IH H) as [Hl|Hr]; [left; exact Hl|right; right; exact Hr].
Qed.

Lemma set_prop_keys {A : Type} (o : list (string * A)) (key : string) (v : A) :
  In key (map fst o) -> map fst (set_prop o key v) = map fst o.
Proof.
  induction o as [|[k' y] o IH]; simpl; [contradiction|].
  destruct (String.eqb k' key) eqn:E; [reflexivity|].
  intros [H|H]; [apply String.eqb_neq in E; contradiction|].
  simpl. rewrite (IH H). reflexivity.
Qed.

Lemma set_prop_new_key {A : Type} (o : list (string * A)) (key : string) (v : A) :
  ~ In key (map fst o) -> map fst (set_prop o key v) = map fst o ++ [key].
Proof.
  induction o as [|[k' y] o IH]; simpl; [reflexivity|].
  intros H. destruct (String.eqb k' key) eqn:E.
  - apply String.eqb_eq in E. exfalso. apply H. left. exact E.
  - simpl. rewrite IH; [reflexivity|]. intros Hin. apply H. right. exact Hin.
Qed.

Lemma set_prop_NoDup {A : Type} (o : list (string * A)) (key : string) (v : A) :
  NoDup (map fst o) -> NoDup (map fst (set_prop o key v)).
Proof.
  intros H. destruct (in_dec string_dec key (map fst o)) as [Hin|Hnot].
  - rewrite set_prop_keys by exact Hin. exact H.
  - rewrite set_prop_new_key by exact Hnot.
    apply NoDup_app; [exact H | repeat constructor; intros [] |].
    intros x Hx [Hk|[]]. subst. contradiction.
Qed.

Lemma lookup_set_prop_other {A : Type} (o : list (string * A)) (key k : string)
  (v : A) :
  key <> k -> Js.lookup (set_prop o key v) k = Js.lookup o k.
Proof.
  intros Hne. induction o as [|[k' y] o IH]; simpl.
  - apply String.eqb_neq in Hne. rewrite Hne. reflexivity.
  - destruct (String.eqb k' key) eqn:E; simpl.
    + apply String.eqb_eq in E. subst k'.
      apply String.eqb_neq in Hne. rewrite Hne. reflexivity.
    + rewrite IH. reflexivity.
Qed.

(** The cost fields of [processedData] are those of the entry. *)
Lemma processedData_cost (props : list (string * Js.value)) (field : string) :
  "max_tokens" <> field -> "max_input_tokens" <> field ->
  "max_output_tokens" <> field ->
  Js.member (processedData parseInt props) field
  = Js.member (Js.Object props) field.
Proof.
  intros H1 H2 H3. unfold processedData. cbn [Js.member].
  rewrite !lookup_set_prop_other by assumption. reflexivity.
Qed.

Lemma ingest_In (rawData : list (string * Js.value)) :
  forall (filteredData : PricingData) (name : string) (entry : ModelPricing),
    In (name, entry)
       (ingest parseInt ModelPricingSchema_parse rawData filteredData) ->
    In (name, entry) filteredData
    \/ exists modelData,
         In (name, modelData) rawData
         /\ ingest_entry parseInt ModelPricingSchema_parse name modelData
            = Some entry.
Proof.
  induction rawData as [|[modelName modelData] rest IH];
    intros filteredData name entry H; [left; exact H|].
  cbn [ingest] in H.
  destruct (ingest_entry parseInt ModelPricingSchema_parse modelName modelData)
    as [validated|] eqn:E.
  - destruct (IH _ _ _ H) as [Hacc | [md [Hin Hmd]]].
    + destruct (set_prop_In _ _ _ _ _ Hacc) as [[-> ->] | Hold].
      * right. exists modelData. split; [left; reflexivity|exact E].
      * left. exact Hold.
    + right. exists md. split; [right; exact Hin|exact Hmd].
  - destruct (IH _ _ _ H) as [Hacc | [md [Hin Hmd]]].
    + left. exact Hacc.
    + right. exists md. split; [right; exact Hin|exact Hmd].
Qed.

Lemma ingest_NoDup (rawData : list (string * Js.value)) :
  forall filteredData : PricingData,
    NoDup (map fst filteredData) ->
    NoDup (map fst
             (ingest parseInt ModelPricingSchema_parse rawData filteredData)).
Proof.
  induction rawData as [|[modelName modelData] rest IH];
    intros filteredData H; [exact H|].
  cbn [ingest].
  destruct (ingest_entry parseInt ModelPricingSchema_parse modelName modelData).
  - apply IH, set_prop_NoDup, H.
  - apply IH, H.
Qed.

(** X8.  The ingest rules of [fetchFromRemote]: every entry of the
    catalog it builds comes from an entry of the document that is an
    object, bears both [input_cost_per_token] and
    [output_cost_per_token], passed the schema, and whose name includes
    none of [dall-e], [whisper], [tts], [embedding], [moderation], [flux],
    [stable-diffusion], [sample_spec]; and no name occurs twice in the
    catalog. *)
Theorem ingest_rules (rawData : list (string * Js.value)) :
  let catalog := ingest parseInt ModelPricingSchema_parse rawData [] in
  NoDup (map fst catalog)
  /\ forall name entry,
       In (name, entry) catalog ->
       skipped_name name = false
       /\ exists props,
            In (name, Js.Object props) rawData
            /\ Js.member (Js.Object props) "input_cost_per_token" <> Js.Undefined
            /\ Js.member (Js.Object props) "output_cost_per_token" <> Js.Undefined
            /\ ModelPricingSchema_parse (processedData parseInt props)
               = Some entry.
Proof.
  cbn zeta. split; [apply ingest_NoDup; constructor|].
  intros name entry H.
  destruct (ingest_In rawData [] name entry H) as [[] | [modelData [Hin Hentry]]].
  unfold ingest_entry in Hentry.
  destruct (skipped_name name); [discriminate|]. split; [reflexivity|].
  destruct modelData as [| | | | |items|props]; try discriminate.
  exists props. split; [exact Hin|].
  rewrite !processedData_cost in Hentry by discriminate.
  destruct (Js.member (Js.Object props) "input_cost_per_token") eqn:Ei;
    destruct (Js.member (Js.Object props) "output_cost_per_token") eqn:Eo;
    cbn [is_undefined negb andb] in Hentry;
    try discriminate Hentry;
    (split; [discriminate|]); (split; [discriminate|]); exact Hentry.
Qed.

End IngestRules.

Section PricingCachesExamples.
Import Types PricingFetcher PricingService Claimed Examples.

(** X4 at a first fetch, half an hour and two hours later. *)
Lemma getLatestPricing_refresh_then_cached_witness :
  getLatestPricing DEFAULT_TTL false
    (at_time (now first_world + 1800000)
       (refreshed DEFAULT_TTL prefixed_catalog first_world))
  = (inr prefixed_catalog,
     at_time (now first_world + 1800000)
       (refreshed DEFAULT_TTL prefixed_catalog first_world), [])
  /\ info_expired
       (getCacheInfo DEFAULT_TTL
          (at_time (now first_world + 7200000)
             (refreshed DEFAULT_TTL prefixed_catalog first_world)))
     = Some true.
Proof.
  split.
  - destruct (getLatestPricing_refresh_then_cached DEFAULT_TTL first_world
                prefixed_catalog 1800000 eq_refl eq_refl) as [_ [H _]].
    apply H. vm_compute. discriminate.
  - destruct (getLatestPricing_refresh_then_cached DEFAULT_TTL first_world
                prefixed_catalog 7200000 eq_refl eq_refl) as [_ [_ H]].
    apply H. reflexivity.
Defined.

(** X5 after a lookup served from the disk cache, a minute later and
    with the cache file gone. *)
Lemma getPricingData_memoized_witness :
  getPricingData false
    {| pricingDataCache := Some prefixed_catalog; lastFetchTime := 1000 |}
    (at_time 61000 cut_off_world)
  = (inr prefixed_catalog,
     {| pricingDataCache := Some prefixed_catalog; lastFetchTime := 1000 |},
     at_time 61000 cut_off_world, []).
Proof.
  apply (getPricingData_memoized false new_service _
           (cached_world prefixed_catalog) (cached_world prefixed_catalog)
           (at_time 61000 cut_off_world) prefixed_catalog []).
  - reflexivity.
  - reflexivity.
Defined.

(** X6 at a service without data over a world without cache or
    network. *)
Lemma pricing_unavailable_witness :
  returned (hasModelPricing "gpt-4o" new_service cut_off_world) = false.
Proof.
  destruct (pricing_unavailable "gpt-4o" 1%float 1%float new_service
              cut_off_world "TypeError: fetch failed" eq_refl eq_refl eq_refl)
    as [_ [_ H]].
  exact H.
Defined.

(** X8 at a document of an image model and a chat model. *)
Lemma ingest_rules_witness :
  skipped_name "gpt-4o" = false
  /\ exists props,
       In ("gpt-4o", Js.Object props) raw_document
       /\ Js.member (Js.Object props) "input_cost_per_token" <> Js.Undefined
       /\ Js.member (Js.Object props) "output_cost_per_token" <> Js.Undefined
       /\ accept_plain (processedData parse_int_zero props) = Some plain_entry.
Proof.
  destruct (ingest_rules parse_int_zero accept_plain raw_document) as [_ H].
  apply H. left. reflexivity.
Defined.

End PricingCachesExamples.

(** ** The options of the OpenAI adapter *)

Section OpenAIOptions.
Import OpenAIProvider Examples.

Lemma truthy_string_nonempty (s : string) :
  Js.truthy_string s = true -> s <> "".
Proof. destruct s; [discriminate|]. intros _. discriminate. Qed.

(** X9.  [generateText] and [streamText] build the same options; the
    model sent is never the empty string (an empty [model] of the request
    or of the configuration gives way to the next choice, [gpt-5] at
    last): it is the request's model when that is not empty, else the
    configured model when that is not empty, else [gpt-5]; an empty
    system prompt is not sent and any other is sent as it is; and
    [reasoningEffort] is sent exactly for the models whose name starts
    with [o3] or [o1], the request's value or [medium]. *)
Theorem openai_options (request : AIRequest) (preferredModel : option string) :
  let sent := generateText_options request preferredModel in
  streamText_options request preferredModel = sent
  /\ opt_model sent <> ""
  /\ opt_system sent <> Some ""
  /\ (opt_reasoningEffort sent = None <->
      Js.startsWith (opt_model sent) "o3" = false
      /\ Js.startsWith (opt_model sent) "o1" = false)
  /\ (forall effort, opt_reasoningEffort sent = Some effort ->
        reasoningEffort request = Some effort
        \/ (reasoningEffort request = None /\ effort = medium))
  /\ (forall m, model request = Some m -> m <> "" -> opt_model sent = m)
  /\ (model request = None \/ model request = Some "" ->
      forall p, preferredModel = Some p -> p <> "" -> opt_model sent = p)
  /\ (model request = None \/ model request = Some "" ->
      preferredModel = None \/ preferredModel = Some "" ->
      opt_model sent = "gpt-5")
  /\ (forall s, systemPrompt request = Some s -> s <> "" ->
        opt_system sent = Some s).
Proof.
  cbn zeta. unfold generateText_options, streamText_options.
  cbn [opt_model opt_system opt_reasoningEffort].
  split; [reflexivity|].
  split; [|split; [|split; [|split; [|split; [|split; [|split]]]]]].
  - unfold selectedModel, getPreferredModel, getDefaultModel.
    destruct (model request) as [m|];
      [destruct (Js.truthy_string m) eqn:Em;
         [apply truthy_string_nonempty, Em|]|];
      (destruct preferredModel as [p|];
       [destruct (Js.truthy_string p) eqn:Ep;
          [apply truthy_string_nonempty, Ep|discriminate]
       |discriminate]).
  - unfold system_option. destruct (systemPrompt request) as [s|]; [|discriminate].
    destruct s; [discriminate|]. cbn. discriminate.
  - unfold reasoning_option.
    destruct (Js.startsWith (selectedModel request preferredModel) "o3"),
             (Js.startsWith (selectedModel request preferredModel) "o1");
      cbn [orb]; destruct (reasoningEffort request);
      split; try discriminate; try (intros [? ?]; discriminate);
      intros; split; reflexivity.
  - intros effort. unfold reasoning_option.
    destruct (Js.startsWith (selectedModel request preferredModel) "o3"
              || Js.startsWith (selectedModel request preferredModel) "o1");
      [|discriminate].
    destruct (reasoningEffort request) as [e|]; intros H; injection H as <-.
    + left. reflexivity.
    + right. split; reflexivity.
  - intros m Hrequest Hm. unfold selectedModel. rewrite Hrequest.
    destruct m; [contradiction Hm; reflexivity | reflexivity].
  - intros Hrequest p -> Hp. unfold selectedModel, getPreferredModel.
    destruct Hrequest as [Hrequest | Hrequest]; rewrite Hrequest;
      (destruct p; [contradiction Hp; reflexivity | reflexivity]).
  - intros Hrequest Hpreferred. unfold selectedModel, getPreferredModel.
    destruct Hrequest as [Hrequest | Hrequest]; rewrite Hrequest;
      destruct Hpreferred as [-> | ->]; reflexivity.
  - intros s0 Hsystem Hs. unfold system_option. rewrite Hsystem.
    destruct s0; [contradiction Hs; reflexivity | reflexivity].
Qed.

End OpenAIOptions.

(** ** The streaming adapter on any response *)

Section StreamingAlways.
Import DeepSeekR1Provider Claimed.

Variable JSON_parse : string -> option Js.value.
Variable numberToString : float -> string.

Lemma text_of_snoc (chunks : list Js.value) (chunk : Js.value) :
  text_of numberToString (chunks ++ [chunk])
  = (text_of numberToString chunks ++ Js.toString numberToString chunk)%string.
Proof.
  rewrite text_of_app. cbn [Claimed.text_of fold_right].
  rewrite append_empty_r. reflexivity.
Qed.

Lemma on_payload_text_matches (data : string) (st : Stream) :
  text_matches numberToString st ->
  text_matches numberToString (on_payload JSON_parse numberToString data st).
Proof.
  intros [Htext Htruthy]. unfold on_payload.
  destruct (JSON_parse data) as [parsed|]; [|split; assumption].
  destruct (Js.nullish parsed); [split; assumption|].
  destruct (unconvertible_content parsed) eqn:Hconverts; [split; assumption|].
  assert (H1 : text_matches numberToString
    (if Js.truthy (delta_content parsed) then
       {| buffer := buffer st;
          fullText := (fullText st
                       ++ Js.toString numberToString (delta_content parsed))%string;
          usage := usage st;
          finishReason := finishReason st;
          yielded := yielded st ++ [delta_content parsed] |}
     else st)).
  { destruct (Js.truthy (delta_content parsed)) eqn:E; [|split; assumption].
    split; cbn [fullText yielded].
    - rewrite text_of_snoc, Htext. reflexivity.
    - apply Forall_app. split; [exact Htruthy|]. repeat constructor; [exact E|].
      unfold unconvertible_content in Hconverts. rewrite E in Hconverts.
      destruct (Js.converts (delta_content parsed)); [reflexivity|].
      discriminate Hconverts. }
  destruct H1 as [H1 H2].
  destruct (Js.truthy (Js.member parsed "usage")),
           (Js.truthy (finish_reason parsed));
    split; cbn [fullText yielded]; assumption.
Qed.

Lemma for_lines_text_matches (lines : list string) :
  forall st,
    text_matches numberToString st ->
    text_matches numberToString (for_lines JSON_parse numberToString lines st).
Proof.
  induction lines as [|line rest IH]; intros st H; [exact H|].
  cbn [for_lines].
  destruct (Js.startsWith line "data: "); [|apply IH, H].
  destruct (String.eqb (Js.trim (Js.slice 6 line)) "[DONE]"); [exact H|].
  apply IH, on_payload_text_matches, H.
Qed.

Lemma read_all_text_matches (reads : list string) :
  forall st,
    text_matches numberToString st ->
    text_matches numberToString
      (fold_left (on_read JSON_parse numberToString) reads st).
Proof.
  induction reads as [|r reads IH]; intros st H; [exact H|].
  cbn [fold_left]. apply IH. unfold on_read.
  apply for_lines_text_matches. exact H.
Qed.

(** X10.  Whatever the response, the tracking record agrees with what
    the consumer sees: when nothing is thrown the record is [success] and
    its response text is the concatenation of the chunks yielded; when an
    error is thrown the record is [error] with that error's message and
    no response text; and no chunk yielded is ever empty, null or
    otherwise falsy. *)
Theorem streamText_record_agrees (response : Response) :
  let out := streamText JSON_parse numberToString response in
  Forall (fun chunk => Js.truthy chunk = true) (chunks out)
  /\ match thrown out with
     | None =>
         Tracking.status (tracked out) = Tracking.success
         /\ Tracking.responseText (tracked out)
            = Some (text_of numberToString (chunks out))
         /\ Tracking.errorMessage (tracked out) = None
     | Some message =>
         Tracking.status (tracked out) = Tracking.error
         /\ Tracking.errorMessage (tracked out) = Some message
         /\ Tracking.responseText (tracked out) = None
     end.
Proof.
  cbn zeta. unfold streamText.
  destruct (ok response); cbn [negb].
  - destruct (body response) as [[reads [readError|]]|].
    + destruct (read_all_text_matches reads start) as [_ Htruthy];
        [split; [reflexivity|constructor]|].
      split; [|repeat split].
      eapply Forall_impl; [|exact Htruthy]. intros chunk [H _]. exact H.
    + destruct (read_all_text_matches reads start) as [Htext Htruthy];
        [split; [reflexivity|constructor]|].
      split; [eapply Forall_impl; [|exact Htruthy]; intros chunk [H _]; exact H|].
      cbn. unfold read_all.
      rewrite Htext. repeat split.
    + split; [constructor|]. repeat split.
  - split; [constructor|]. repeat split.
Qed.

Lemma no_newline_app (a b : string) :
  no_newline a -> no_newline b -> no_newline (a ++ b).
Proof.
  unfold no_newline. intros Ha Hb.
  induction a as [|c a IH]; [exact Hb|].
  cbn [append Js.split_newline] in *.
  destruct (Ascii.eqb c Js.newline); [discriminate Ha|].
  destruct (split_newline_cons a) as [h [t Hs]]. rewrite Hs in *.
  injection Ha as Hh Ht. subst h t.
  rewrite (IH eq_refl). reflexivity.
Qed.

Lemma for_lines_buffer (lines : list string) (st : Stream) :
  buffer (for_lines JSON_parse numberToString lines st) = buffer st.
Proof.
  rewrite <- (with_buffer_same st) at 1.
  rewrite for_lines_with_buffer. reflexivity.
Qed.

Lemma read_all_no_newline (reads : list string) :
  forall st,
    no_newline (buffer st) ->
    no_newline (buffer (fold_left (on_read JSON_parse numberToString) reads st)).
Proof.
  induction reads as [|r reads IH]; intros st H; [exact H|].
  cbn [fold_left]. apply IH. unfold on_read.
  rewrite for_lines_buffer. cbn [buffer]. apply split_newline_last.
Qed.

(** X11.  A last line that no newline ends is never processed: a final
    read without newline leaves the chunks and the tracking record as
    they were, even when it holds a payload. *)
Theorem streamText_unfinished_line_dropped (reads : list string) (tail : string) :
  no_newline tail ->
  streamText JSON_parse numberToString (clean_response (reads ++ [tail]))
  = streamText JSON_parse numberToString (clean_response reads).
Proof.
  intros Htail. unfold streamText, clean_response. cbn [ok body negb].
  unfold read_all. rewrite fold_left_app. cbn [fold_left].
  set (st := fold_left (on_read JSON_parse numberToString) reads start).
  assert (Hst : no_newline (buffer st))
    by (apply read_all_no_newline; reflexivity).
  unfold on_read.
  rewrite (no_newline_app _ _ Hst Htail). cbn [removelast last for_lines].
  reflexivity.
Qed.

End StreamingAlways.

Section StreamingAlwaysExample.
Import DeepSeekR1Provider Claimed Examples.

(** X11 at a body whose second payload lacks its newline: only [He] is
    yielded. *)
Lemma streamText_unfinished_line_dropped_witness :
  chunks (streamText parse_deltas number_text
            (clean_response
               ([("data: " ++ delta_json "He" ++ LF)%string] ++ [unfinished_line])))
  = [Js.Str "He"].
Proof.
  rewrite (streamText_unfinished_line_dropped parse_deltas number_text
             [("data: " ++ delta_json "He" ++ LF)%string] unfinished_line)
    by (vm_compute; reflexivity).
  vm_compute. reflexivity.
Defined.

End StreamingAlwaysExample.

(** ** Token counting *)

Section TokenCounts.
Import TokenizerManager Claimed.

Variable get_encoding : EncodingName -> option TikTokenEncoder.

Lemma count_loop_total (encoder : TikTokenEncoder) (messages : list ChatMessage) :
  total_encoder encoder ->
  forall totalTokens,
    count_loop encoder messages totalTokens
    = Some (totalTokens + messages_cost encoder messages)%Z.
Proof.
  intros Htotal. induction messages as [|m rest IH]; intros totalTokens.
  - cbn. f_equal. lia.
  - cbn [count_loop messages_cost fold_right].
    fold (messages_cost encoder rest).
    unfold message_cost, tokens_of.
    destruct (Htotal (chat_role m)) as [r Hr].
    destruct (Htotal (chat_content m)) as [c Hc].
    rewrite Hr, Hc.
    destruct (chat_name m) as [name|].
    + destruct (Js.truthy_string name).
      * destruct (Htotal name) as [n Hn]. rewrite Hn, IH. f_equal. lia.
      * rewrite IH. f_equal. lia.
    + rewrite IH. f_equal. lia.
Qed.

Lemma messages_cost_app (encoder : TikTokenEncoder) (a b : list ChatMessage) :
  messages_cost encoder (a ++ b)
  = (messages_cost encoder a + messages_cost encoder b)%Z.
Proof.
  induction a as [|m a IH]; [reflexivity|].
  cbn [app messages_cost fold_right]. fold (messages_cost encoder (a ++ b)).
  fold (messages_cost encoder a). rewrite IH. lia.
Qed.

Lemma messages_cost_floor (encoder : TikTokenEncoder) (a : list ChatMessage) :
  (3 * Z.of_nat (List.length a) <= messages_cost encoder a)%Z.
Proof.
  induction a as [|m a IH]; [cbn; lia|].
  cbn [messages_cost fold_right List.length]. fold (messages_cost encoder a).
  unfold message_cost, tokens_of.
  destruct (chat_name m) as [name|];
    [destruct (Js.truthy_string name); [destruct (encoder name)|]|];
    destruct (encoder (chat_role m)), (encoder (chat_content m)); lia.
Qed.

(** X12.  With a tiktoken encoder that does not throw,
    [countMessageTokens] is 3 for the reply's priming plus, for each
    message, 3 and the tokens of its role, content and name; so counts
    add up over a conversation cut in two but for that one priming, and a
    conversation of [n] messages counts at least [3 * (n + 1)] tokens.  An
    empty conversation counts 3 tokens, but 0 when tiktoken is
    unavailable. *)
Theorem countMessageTokens_adds (model : string) (encoder : TikTokenEncoder)
  (a b : list ChatMessage) :
  get_encoding (encodingName model) = Some encoder ->
  total_encoder encoder ->
  countMessageTokens get_encoding a model = (messages_cost encoder a + 3)%Z
  /\ countMessageTokens get_encoding (a ++ b) model
     = (countMessageTokens get_encoding a model
        + countMessageTokens get_encoding b model - 3)%Z
  /\ (3 * (Z.of_nat (List.length a) + 1)
      <= countMessageTokens get_encoding a model)%Z
  /\ countMessageTokens get_encoding [] model = 3%Z
  /\ countMessageTokens (fun _ => None) [] model = 0%Z.
Proof.
  intros Henc Htotal.
  assert (Hcount : forall l,
    countMessageTokens get_encoding l model = (messages_cost encoder l + 3)%Z).
  { intros l. unfold countMessageTokens, getEncoder. rewrite Henc.
    rewrite (count_loop_total encoder l Htotal). f_equal. }
  split; [apply Hcount|]. split; [|split; [|split]].
  - rewrite !Hcount, messages_cost_app. lia.
  - rewrite Hcount. pose proof (messages_cost_floor encoder a). lia.
  - rewrite Hcount. reflexivity.
  - reflexivity.
Qed.

Lemma startsWith_first (s p q : string) (c d : ascii) :
  Ascii.eqb c d = false ->
  Js.startsWith s (String c p) = true ->
  Js.startsWith s (String d q) = false.
Proof.
  intros Hcd H. destruct s as [|x s]; [discriminate|].
  cbn [Js.startsWith] in *.
  apply andb_true_iff in H. destruct H as [Hx _].
  apply Ascii.eqb_eq in Hx. subst x. rewrite Ascii.eqb_sym, Hcd. reflexivity.
Qed.

(** X13.  [getTokenBreakdown] always reports the total [countTokens]
    gives; but the encoding it names is the one actually used only for
    the models that start with [gpt-4], [text-davinci] or [text-curie]:
    for every other model (the [gpt-3.5] and [gemini] families among
    them) it names [p50k_base] while [cl100k_base] is used. *)
Theorem getTokenBreakdown_label (text model : string) :
  let b := getTokenBreakdown get_encoding text model in
  total b = countTokens get_encoding text model
  /\ (method b = tiktoken ->
      (encoding b = Some (encodingName model) <->
       Js.startsWith model "gpt-4" || Js.startsWith model "text-davinci"
       || Js.startsWith model "text-curie" = true)
      /\ (Js.startsWith model "gpt-4" || Js.startsWith model "text-davinci"
          || Js.startsWith model "text-curie" = false ->
          encoding b = Some p50k_base /\ encodingName model = cl100k_base)).
Proof.
  cbn zeta. unfold getTokenBreakdown, countTokens.
  destruct (getEncoder get_encoding model) as [encoder|];
    [|split; [reflexivity|discriminate]].
  destruct (encoder text) as [tokens|]; [|split; [reflexivity|discriminate]].
  split; [reflexivity|]. intros _. cbn [encoding].
  unfold encodingName.
  destruct (Js.startsWith model "gpt-4") eqn:E4.
  - cbn. split; [split; reflexivity|discriminate].
  - destruct (Js.startsWith model "gpt-3.5") eqn:E35.
    + assert (Hd : Js.startsWith model "text-davinci" = false)
        by (eapply startsWith_first; [|exact E35]; reflexivity).
      assert (Hc : Js.startsWith model "text-curie" = false)
        by (eapply startsWith_first; [|exact E35]; reflexivity).
      rewrite Hd, Hc. cbn.
      split; [split; discriminate|]. intros _. split; reflexivity.
    + destruct (Js.startsWith model "text-davinci"),
        (Js.startsWith model "text-curie"), (Js.startsWith model "gemini"); cbn;
        (split;
         [split; intros H; (reflexivity || discriminate H)
         |intros H; (discriminate H || (split; reflexivity))]).
Qed.

End TokenCounts.

Section TokenCountsExample.
Import TokenizerManager Claimed Examples.

Lemma countMessageTokens_adds_witness :
  countMessageTokens char_encoding [user_says "hi"] "gpt-4" = 12%Z
  /\ countMessageTokens char_encoding ([user_says "hi"] ++ [user_says "you"]) "gpt-4"
     = (countMessageTokens char_encoding [user_says "hi"] "gpt-4"
        + countMessageTokens char_encoding [user_says "you"] "gpt-4" - 3)%Z.
Proof.
  destruct (countMessageTokens_adds char_encoding "gpt-4" char_encoder
              [user_says "hi"] [user_says "you"]) as (Hcount & Hadd & _).
  - reflexivity.
  - intros text. eexists. reflexivity.
  - split; [rewrite Hcount; reflexivity | exact Hadd].
Defined.

End TokenCountsExample.

(** ** Pruning the conversation context *)

Section Pruning.
Import Schema ConversationMemoryManager Claimed.

Variable get_encoding :
  TokenizerManager.EncodingName -> option TokenizerManager.TikTokenEncoder.

Lemma content_tokens_app (model : string) (a b : list ConversationMessage) :
  content_tokens get_encoding model (a ++ b)
  = (content_tokens get_encoding model a + content_tokens get_encoding model b)%Z.
Proof.
  induction a as [|m a IH]; [reflexivity|].
  cbn [app content_tokens fold_right].
  fold (content_tokens get_encoding model (a ++ b)).
  fold (content_tokens get_encoding model a). rewrite IH. lia.
Qed.

Lemma file_tokens_app (model : string) (a b : list ContextFile) :
  file_tokens get_encoding model (a ++ b)
  = (file_tokens get_encoding model a + file_tokens get_encoding model b)%Z.
Proof.
  induction a as [|f a IH]; [reflexivity|].
  cbn [app file_tokens fold_right].
  fold (file_tokens get_encoding model (a ++ b)).
  fold (file_tokens get_encoding model a). rewrite IH. lia.
Qed.

(** The loop of [pruneMessages] takes a first part of the list it walks
    and stops at the first message that does not fit. *)
Lemma pruneMessages_loop_takes (maxTokens : float) (model : string)
  (newestFirst : list ConversationMessage) :
  forall totalTokens result,
  exists taken rest,
    newestFirst = taken ++ rest
    /\ pruneMessages_loop get_encoding newestFirst maxTokens model totalTokens result
       = rev taken ++ result
    /\ (taken <> [] ->
        ~ over (totalTokens + content_tokens get_encoding model (rev taken)) maxTokens)
    /\ (forall d rest', rest = d :: rest' ->
        over (totalTokens + content_tokens get_encoding model (rev taken)
              + TokenizerManager.countTokens get_encoding (content d) model)
             maxTokens).
Proof.
  induction newestFirst as [|message older IH]; intros totalTokens result.
  - exists [], []. repeat split; [congruence | discriminate].
  - cbn [pruneMessages_loop].
    destruct (Js.gt (Js.of_int
                (totalTokens
                 + TokenizerManager.countTokens get_encoding (content message) model))
                maxTokens) eqn:Hover.
    + exists [], (message :: older). repeat split; [congruence|].
      intros d rest' [= <- <-]. unfold over. cbn [rev content_tokens fold_right].
      rewrite Z.add_0_r. exact Hover.
    + destruct (IH (totalTokens
                    + TokenizerManager.countTokens get_encoding (content message) model)%Z
                   (message :: result))
        as (taken & rest & -> & Hloop & Hfit & Hstop).
      exists (message :: taken), rest.
      assert (Hsum : (totalTokens
                      + content_tokens get_encoding model (rev (message :: taken))
                      = totalTokens
                        + TokenizerManager.countTokens get_encoding (content message) model
                        + content_tokens get_encoding model (rev taken))%Z).
      { cbn [rev]. rewrite content_tokens_app. cbn [content_tokens fold_right]. lia. }
      split; [reflexivity|]. split; [|split].
      * rewrite Hloop. cbn [rev]. rewrite <- app_assoc. reflexivity.
      * intros _. rewrite Hsum. destruct taken as [|t taken'].
        -- cbn [rev content_tokens fold_right]. rewrite Z.add_0_r.
           unfold over. rewrite Hover. discriminate.
        -- apply Hfit. discriminate.
      * intros d rest' Hrest. rewrite Hsum. exact (Hstop d rest' Hrest).
Qed.

(** X14.  [pruneMessages] keeps a run of the newest messages, in their
    order: what it returns is the end of its input; what it keeps is not
    over the limit; and the newest message it drops would have put the
    kept ones over the limit (older messages are dropped with it, however
    small). *)
Theorem pruneMessages_keeps_newest (messages : list ConversationMessage)
  (maxTokens : float) (model : string) :
  let kept := pruneMessages get_encoding messages maxTokens model in
  exists dropped,
    messages = dropped ++ kept
    /\ (kept <> [] -> ~ over (content_tokens get_encoding model kept) maxTokens)
    /\ (forall older d, dropped = older ++ [d] ->
        over (content_tokens get_encoding model kept
              + TokenizerManager.countTokens get_encoding (content d) model)
             maxTokens).
Proof.
  cbn zeta. unfold pruneMessages.
  destruct (pruneMessages_loop_takes maxTokens model (rev messages) 0 [])
    as (taken & rest & Hsplit & Hloop & Hfit & Hstop).
  rewrite Hloop, app_nil_r. exists (rev rest).
  split; [|split].
  - rewrite <- rev_app_distr, <- Hsplit, rev_involutive. reflexivity.
  - intros Hkept. apply Hfit. intros ->. apply Hkept. reflexivity.
  - intros older d Hdropped.
    assert (Hrest : rest = d :: rev older).
    { rewrite <- (rev_involutive rest), Hdropped, rev_app_distr. reflexivity. }
    exact (Hstop d (rev older) Hrest).
Qed.

Lemma pruneFiles_loop_takes (maxTokens : float) (model : string)
  (files : list ContextFile) :
  forall totalTokens result,
  exists taken rest,
    files = taken ++ rest
    /\ pruneFiles_loop get_encoding files maxTokens model totalTokens result
       = result ++ taken
    /\ (taken <> [] ->
        ~ over (totalTokens + file_tokens get_encoding model taken) maxTokens)
    /\ (forall d rest', rest = d :: rest' ->
        over (totalTokens + file_tokens get_encoding model taken
              + TokenizerManager.countTokens get_encoding (content_of d) model)
             maxTokens).
Proof.
  induction files as [|file more IH]; intros totalTokens result.
  - exists [], []. rewrite !app_nil_r. repeat split; [congruence | discriminate].
  - cbn [pruneFiles_loop].
    destruct (Js.gt (Js.of_int
                (totalTokens
                 + TokenizerManager.countTokens get_encoding (content_of file) model))
                maxTokens) eqn:Hover.
    + exists [], (file :: more). rewrite !app_nil_r. repeat split; [congruence|].
      intros d rest' [= <- <-]. unfold over. cbn [file_tokens fold_right].
      rewrite Z.add_0_r. exact Hover.
    + destruct (IH (totalTokens
                    + TokenizerManager.countTokens get_encoding (content_of file) model)%Z
                   (result ++ [file]))
        as (taken & rest & -> & Hloop & Hfit & Hstop).
      exists (file :: taken), rest.
      assert (Hsum : (totalTokens + file_tokens get_encoding model (file :: taken)
                      = totalTokens
                        + TokenizerManager.countTokens get_encoding (content_of file) model
                        + file_tokens get_encoding model taken)%Z).
      { unfold file_tokens. cbn [fold_right]. lia. }
      split; [reflexivity|]. split; [|split].
      * rewrite Hloop, <- app_assoc. reflexivity.
      * intros _. rewrite Hsum. destruct taken as [|t taken'].
        -- cbn [file_tokens fold_right]. rewrite Z.add_0_r.
           unfold over. rewrite Hover. discriminate.
        -- apply Hfit. discriminate.
      * intros d rest' Hrest. rewrite Hsum. exact (Hstop d rest' Hrest).
Qed.

(** X15.  [pruneFiles] keeps a first run of its input, which comes most
    recently accessed first: what it keeps is not over the limit, and the
    first file it drops would have put the kept ones over the limit; the
    files after that one are dropped with it, however small. *)
Theorem pruneFiles_keeps_first (files : list ContextFile)
  (maxTokens : float) (model : string) :
  let kept := pruneFiles get_encoding files maxTokens model in
  exists dropped,
    files = kept ++ dropped
    /\ (kept <> [] -> ~ over (file_tokens get_encoding model kept) maxTokens)
    /\ (forall d later, dropped = d :: later ->
        over (file_tokens get_encoding model kept
              + TokenizerManager.countTokens get_encoding (content_of d) model)
             maxTokens).
Proof.
  cbn zeta. unfold pruneFiles.
  destruct (pruneFiles_loop_takes maxTokens model files 0 [])
    as (taken & rest & Hsplit & Hloop & Hfit & Hstop).
  rewrite Hloop. cbn [app]. exists rest.
  split; [exact Hsplit|]. split; [exact Hfit | exact Hstop].
Qed.


End Pruning.

(** ** Several files in one call *)

Section FilesInOneCall.
Import Schema ConversationMemoryManager Claimed.

(** The message of the error thrown for a statement that libsql refuses. *)
Variable failed_query : Schema.Statement -> string.

Variable sha256 : string -> string.

Lemma insert_file_taken (refused : string) (values : NewFile) (now : Z)
  (db db' : Db) :
  insert_file refused values now db = inr db' ->
  file_hash_taken db' (new_sessionId values) (Some (new_contentHash values)) = true
  /\ (forall sessionId hash,
        file_hash_taken db sessionId (Some hash) = true ->
        file_hash_taken db' sessionId (Some hash) = true).
Proof.
  unfold insert_file.
  destruct (negb (references_ok db (new_sessionId values))); [discriminate|].
  destruct (file_hash_taken db (new_sessionId values)
              (Some (new_contentHash values))); [discriminate|].
  intros [= <-]. unfold file_hash_taken. cbn [conversationFiles].
  split.
  - rewrite existsb_app. cbn [existsb file_sessionId contentHash].
    rewrite !String.eqb_refl. cbn. apply orb_true_r.
  - intros sessionId hash H. rewrite existsb_app, H. reflexivity.
Qed.

Lemma insert_files_taken (refused : string) (rows : list NewFile) (now : Z) :
  forall db db',
    insert_files refused rows now db = inr db' ->
    (forall values, In values rows ->
       file_hash_taken db' (new_sessionId values)
         (Some (new_contentHash values)) = true)
    /\ (forall sessionId hash,
          file_hash_taken db sessionId (Some hash) = true ->
          file_hash_taken db' sessionId (Some hash) = true).
Proof.
  induction rows as [|values rows IH]; intros db db'; cbn [insert_files].
  - intros [= <-]. split; [intros values []|auto].
  - destruct (insert_file refused values now db) as [e|db1] eqn:E;
      [discriminate|].
    intros Hrest.
    destruct (insert_file_taken refused values now db db1 E) as [Hv Hmono].
    destruct (IH db1 db' Hrest) as [Hrows Hmono'].
    split.
    + intros v [<-|Hin]; [apply Hmono', Hv | apply Hrows, Hin].
    + intros sessionId hash H. apply Hmono', Hmono, H.
Qed.

Lemma insert_files_app (refused : string) (a b : list NewFile) (now : Z) :
  forall db,
    insert_files refused (a ++ b) now db
    = match insert_files refused a now db with
      | inl e => inl e
      | inr db' => insert_files refused b now db'
      end.
Proof.
  induction a as [|values a IH]; intros db; cbn [app insert_files];
    [reflexivity|].
  destruct (insert_file refused values now db) as [e|db1];
    [reflexivity | apply IH].
Qed.

(** The unique index lets no multi-row insert through that carries one
    [(sessionId, contentHash)] twice. *)
Lemma insert_files_twice_fails (refused : string) (a b c : list NewFile)
  (v1 v2 : NewFile) (now : Z) (db : Db) :
  new_sessionId v1 = new_sessionId v2 ->
  new_contentHash v1 = new_contentHash v2 ->
  exists e, insert_files refused (a ++ v1 :: b ++ v2 :: c) now db = inl e.
Proof.
  intros Hs Hh.
  replace (a ++ v1 :: b ++ v2 :: c) with ((a ++ v1 :: b) ++ v2 :: c)
    by (rewrite <- app_assoc; reflexivity).
  rewrite insert_files_app.
  destruct (insert_files refused (a ++ v1 :: b) now db) as [e|db1] eqn:E;
    [exists e; reflexivity|].
  destruct (insert_files_taken refused _ now db db1 E) as [Htaken _].
  specialize (Htaken v1 (in_elt v1 a b)). rewrite Hs, Hh in Htaken.
  cbn [insert_files]. unfold insert_file.
  destruct (negb (references_ok db1 (new_sessionId v2)));
    [eexists; reflexivity|].
  rewrite Htaken. eexists. reflexivity.
Qed.

Lemma plan_files_app (sessionId : string) (existingFiles : list ConversationFile)
  (a b : list FileData) :
  plan_files sessionId existingFiles (a ++ b)
  = (fst (plan_files sessionId existingFiles a)
       ++ fst (plan_files sessionId existingFiles b),
     snd (plan_files sessionId existingFiles a)
       ++ snd (plan_files sessionId existingFiles b)).
Proof.
  induction a as [|file a IH]; cbn [app plan_files].
  - destruct (plan_files sessionId existingFiles b); reflexivity.
  - rewrite IH.
    destruct (plan_files sessionId existingFiles a) as [ins upd].
    cbn [fst snd].
    destruct (existingHashMap_get existingFiles (data_contentHash file));
      reflexivity.
Qed.

(** No row of the hash, none selected for it. *)
Lemma existingHashMap_get_none (sessionId hash : string) (db : Db)
  (keep : ConversationFile -> bool) :
  rows_of sessionId hash db = [] ->
  existingHashMap_get
    (filter (fun f => String.eqb (file_sessionId f) sessionId && keep f)
       (conversationFiles db)) hash = None.
Proof.
  intros Hrows. unfold existingHashMap_get.
  destruct (find (hash_is hash) (rev _)) as [x|] eqn:E; [|reflexivity].
  apply find_some in E. destruct E as [Hin Hhash].
  apply in_rev, filter_In in Hin. destruct Hin as [Hin Hsel].
  apply andb_true_iff in Hsel. destruct Hsel as [Hsession _].
  assert (Hx : In x (rows_of sessionId hash db)).
  { unfold rows_of. apply filter_In. split; [exact Hin|].
    rewrite Hsession, Hhash. reflexivity. }
  rewrite Hrows in Hx. destruct Hx.
Qed.

(** X17.  One call of [addFiles] that carries the same new content twice
    (two files whose hashes are equal and have no row in the session yet)
    plans two rows of one hash; the insert is refused (the unique index
    on [(sessionId, contentHash)] lets no second row of the hash in), so
    the call throws an error whose message starts with
    [Failed to add files: ] and the transaction leaves the database as
    it was: none of the files of the call is stored. *)
Theorem addFiles_same_content_in_one_call (sessionId : string)
  (before between after : list FileInput) (f1 f2 : FileInput) (now : Z) (db : Db) :
  sha256 (in_content f1) = sha256 (in_content f2) ->
  rows_of sessionId (sha256 (in_content f1)) db = [] ->
  exists e,
    addFiles failed_query sha256 sessionId (before ++ f1 :: between ++ f2 :: after) now db
    = (inl ("Failed to add files: " ++ e)%string, db).
Proof.
  intros Hsame Hrows. unfold addFiles, addFiles_tx.
  set (fileData := map _ (before ++ f1 :: between ++ f2 :: after)).
  set (existingFiles := if (0 <? _)%nat then _ else []).
  assert (Hnone : existingHashMap_get existingFiles (sha256 (in_content f1)) = None).
  { subst existingFiles. destruct (0 <? _)%nat; [|reflexivity].
    apply (existingHashMap_get_none sessionId _ db
             (fun f => inArray (contentHash f) (map data_contentHash fileData))).
    exact Hrows. }
  assert (Hplan : exists a b c v1 v2,
            fst (plan_files sessionId existingFiles fileData)
            = a ++ v1 :: b ++ v2 :: c
            /\ new_sessionId v1 = new_sessionId v2
            /\ new_contentHash v1 = new_contentHash v2).
  { subst fileData. rewrite map_app. cbn [map]. rewrite map_app. cbn [map].
    rewrite plan_files_app. cbn [fst].
    match goal with
    | |- context [plan_files _ _ (?d1 :: ?m ++ ?d2 :: ?p)] =>
        change (d1 :: m ++ d2 :: p) with ([d1] ++ m ++ [d2] ++ p)
    end.
    rewrite !plan_files_app. cbn [fst plan_files data_contentHash].
    rewrite <- Hsame, Hnone. cbn [fst app].
    do 5 eexists. split; [reflexivity|]. split; [reflexivity|].
    reflexivity. }
  destruct (plan_files sessionId existingFiles fileData)
    as [filesToInsert filesToUpdate].
  cbn [fst] in Hplan.
  destruct Hplan as (a & b & c & v1 & v2 & -> & Hs & Hh).
  destruct (insert_files_twice_fails
              (failed_query
                 (insert_into_conversation_files (nextId db)
                    (a ++ v1 :: b ++ v2 :: c) now))
              a b c v1 v2 now db Hs Hh) as [e He].
  replace (0 <? List.length (a ++ v1 :: b ++ v2 :: c))%nat with true
    by (rewrite length_app; cbn [List.length]; symmetry; apply Nat.ltb_lt; lia).
  rewrite He. exists e. reflexivity.
Qed.

Lemma update_file_twice (now : Z) (db : Db) (u : FileUpdate) :
  update_file now (update_file now db u) u = update_file now db u.
Proof.
  unfold update_file. cbn [conversationFiles sessions conversationMessages
                           conversationBudgets nextId foreignKeys].
  f_equal. rewrite map_map. apply map_ext. intros f. unfold apply_update.
  destruct (file_id f =? update_id u)%nat eqn:E; cbn [file_id]; rewrite E;
    reflexivity.
Qed.

Lemma update_file_repeat (now : Z) (u : FileUpdate) (n : nat) :
  forall db,
    fold_left (update_file now) (repeat u (S n)) db = update_file now db u.
Proof.
  induction n as [|n IH]; intros db; [reflexivity|].
  change (fold_left (update_file now) (repeat u (S (S n))) db)
    with (fold_left (update_file now) (repeat u (S n)) (update_file now db u)).
  rewrite IH. apply update_file_twice.
Qed.

(** X18.  One call of [addFiles] that carries a stored content several
    times counts one access: each copy plans the same update, computed
    from the row as it was read, so the row's [accessCount] goes up by 1,
    however many the copies (one call for each copy would add 1 each). *)
Theorem addFiles_copies_count_once (sessionId : string) (f : FileInput)
  (n : nat) (now : Z) (db : Db) (r : ConversationFile) :
  rows_of sessionId (sha256 (in_content f)) db = [r] ->
  let after := addFiles failed_query sha256 sessionId (repeat f (S n)) now db in
  fst after = inr tt
  /\ after = addFiles failed_query sha256 sessionId [f] now db
  /\ exists row,
       rows_of sessionId (sha256 (in_content f)) (snd after) = [row]
       /\ file_id row = file_id r
       /\ accessCount row = (accessCount r + 1)%Z
       /\ lastAccessedAt row = now.
Proof.
  intros Hrows. cbn zeta.
  assert (Hcall : addFiles failed_query sha256 sessionId (repeat f (S n)) now db
                  = (inr tt,
                     update_file now db
                       {| update_id := file_id r;
                          update_accessCount := (accessCount r + 1)%Z |})).
  { unfold addFiles, addFiles_tx.
    rewrite !map_repeat. cbn [data_contentHash].
    rewrite repeat_length. cbn [Nat.ltb Nat.leb].
    assert (Hexisting :
      filter (fun f0 => String.eqb (file_sessionId f0) sessionId
                        && inArray (contentHash f0)
                             (repeat (sha256 (in_content f)) (S n)))
             (conversationFiles db) = [r]).
    { rewrite <- Hrows. unfold rows_of. apply filter_ext. intros f0.
      f_equal. unfold inArray, hash_is. destruct (contentHash f0) as [h|];
        [|reflexivity].
      induction n as [|k IH]; cbn [repeat existsb] in *.
      - apply orb_false_r.
      - rewrite IH. destruct (String.eqb h (sha256 (in_content f))); reflexivity. }
    rewrite Hexisting.
    assert (Hget : existingHashMap_get [r] (sha256 (in_content f)) = Some r).
    { unfold existingHashMap_get. cbn [rev app find].
      rewrite (rows_of_hash_is sessionId _ db r)
        by (rewrite Hrows; left; reflexivity).
      reflexivity. }
    assert (Hplan : forall k,
      plan_files sessionId [r]
        (repeat {| data_filePath := in_filePath f;
                   data_content := in_content f;
                   data_contentHash := sha256 (in_content f) |} k)
      = ([], repeat {| update_id := file_id r;
                       update_accessCount := (accessCount r + 1)%Z |} k)).
    { induction k as [|k IH]; [reflexivity|].
      cbn [repeat plan_files data_contentHash]. rewrite IH, Hget. reflexivity. }
    rewrite Hplan. cbn [List.length Nat.ltb Nat.leb].
    rewrite update_file_repeat. reflexivity. }
  rewrite Hcall. cbn [fst snd].
  split; [reflexivity|]. split.
  - symmetry.
    apply (addFiles_existing failed_query sha256 sessionId f now db r Hrows).
  - rewrite (rows_of_updated sessionId _ now db r Hrows).
    eexists. split; [reflexivity|]. repeat split.
Qed.

End FilesInOneCall.

Section FilesInOneCallExample.
Import Schema ConversationMemoryManager Claimed Examples.

Lemma addFiles_same_content_in_one_call_witness :
  exists e,
    addFiles driver_message verbatim_digest "s" [x_ts; y_ts] 10 empty_db
    = (inl ("Failed to add files: " ++ e)%string, empty_db).
Proof.
  exact (addFiles_same_content_in_one_call driver_message verbatim_digest "s"
           [] [] [] x_ts y_ts 10 empty_db eq_refl eq_refl).
Defined.

Lemma addFiles_copies_count_once_witness :
  exists row,
    rows_of "s" "HELLO" (snd (addFiles driver_message verbatim_digest "s" [x_ts; x_ts; x_ts] 10 x_ts_db))
    = [row]
    /\ accessCount row = 4%Z.
Proof.
  destruct (addFiles_copies_count_once driver_message verbatim_digest "s" x_ts 2 10 x_ts_db
              x_ts_row eq_refl) as (_ & _ & row & Hrow & _ & Hcount & _).
  exists row. split; [exact Hrow | exact Hcount].
Defined.

End FilesInOneCallExample.

(** ** Budgets *)

Section Budgets.
Import Schema ConversationMemoryManager Claimed.

(** The message of the error thrown for a statement that libsql refuses. *)
Variable failed_query : Schema.Statement -> string.

Lemma find_map_preserved {A : Type} (p : A -> bool) (g : A -> A) (l : list A) :
  (forall x, p (g x) = p x) ->
  find p (map g l) = option_map g (find p l).
Proof.
  intros Hp. induction l as [|x l IH]; cbn [map find]; [reflexivity|].
  rewrite Hp. destruct (p x); [reflexivity | exact IH].
Qed.

Lemma nearest_double_safe (n : Z) :
  Js.safe_integer n = true -> Js.nearest_double n = n.
Proof.
  unfold Js.safe_integer, Js.nearest_double. intros H.
  apply Z.leb_le in H. cbv zeta.
  replace (Z.log2 (Z.abs n) + 1 <=? 53)%Z with true; [reflexivity|].
  symmetry. apply Z.leb_le.
  destruct (Z.eq_dec (Z.abs n) 0) as [E|E].
  - rewrite E. cbn. lia.
  - assert (Hpos : (0 < Z.abs n)%Z) by lia.
    assert (Hlt : (Z.abs n < 2 ^ 53)%Z)
      by (change (2 ^ 53)%Z with 9007199254740992%Z; lia).
    apply (Z.log2_lt_pow2 _ _ Hpos) in Hlt. lia.
Qed.

Lemma finite_safe (n : Z) :
  Js.safe_integer n = true -> Js.finite_integer n = true.
Proof.
  unfold Js.safe_integer, Js.finite_integer. intros H.
  apply Z.leb_le in H. apply Z.ltb_lt.
  assert (Hpow : (2 ^ 53 < 2 ^ 1024)%Z) by (apply Z.pow_lt_mono_r; lia).
  change (2 ^ 53)%Z with 9007199254740992%Z in Hpow. lia.
Qed.

Lemma reads_safe (n : Z) :
  Js.safe_integer n = true -> reads_as_number n = true.
Proof. unfold reads_as_number. intros ->. reflexivity. Qed.

Lemma budget_row_add_usage (sessionId : string) (tokens : Z) (costUsd : float)
  (durationMs now : Z) (db : Db) (b : ConversationBudget) :
  budget_row sessionId db = Some b ->
  readable b = true ->
  Js.safe_integer (usedTokens b + tokens) = true ->
  Js.safe_integer (usedDurationMs b + durationMs) = true ->
  PrimFloat.is_finite (usedCostUsd b + costUsd)%float = true ->
  budget_row sessionId (updateBudgetUsage sessionId tokens costUsd durationMs now db)
  = Some {| budget_id := budget_id b;
            budget_sessionId := budget_sessionId b;
            maxTokens := maxTokens b;
            maxCostUsd := maxCostUsd b;
            maxDurationMs := maxDurationMs b;
            usedTokens := (usedTokens b + tokens)%Z;
            usedCostUsd := (usedCostUsd b + costUsd)%float;
            usedDurationMs := (usedDurationMs b + durationMs)%Z;
            budget_createdAt := budget_createdAt b;
            budget_updatedAt := now |}.
Proof.
  intros Hrow Hread Htokens Hduration Hcost.
  unfold updateBudgetUsage. rewrite budget_of_find, Hrow.
  unfold usage_binds.
  rewrite Hread, !nearest_double_safe, !finite_safe, Hcost by assumption.
  cbn [andb].
  unfold budget_row, with_budgets. cbn [conversationBudgets].
  rewrite find_map_preserved.
  - fold (budget_row sessionId db). rewrite Hrow. cbn [option_map].
    unfold add_usage. rewrite Nat.eqb_refl.
    rewrite !nearest_double_safe by assumption. reflexivity.
  - intros x. unfold add_usage.
    destruct (budget_id x =? budget_id b)%nat; reflexivity.
Qed.

Lemma reported_row (sessionId : string) (reports : list UsageReport) :
  forall db b,
    budget_row sessionId db = Some b ->
    limit_reads (maxTokens b) = true ->
    limit_reads (maxDurationMs b) = true ->
    safe_sums (usedTokens b) (usedDurationMs b) (usedCostUsd b) reports = true ->
    exists b',
      budget_row sessionId (reported sessionId reports db) = Some b'
      /\ usedTokens b' = (usedTokens b + sum_tokens reports)%Z
      /\ usedDurationMs b' = (usedDurationMs b + sum_durations reports)%Z
      /\ usedCostUsd b' = sum_costs (usedCostUsd b) reports
      /\ maxTokens b' = maxTokens b
      /\ maxCostUsd b' = maxCostUsd b
      /\ maxDurationMs b' = maxDurationMs b.
Proof.
  induction reports as [|u reports IH]; intros db b Hrow Hmt Hmd Hsafe.
  - exists b. cbn. rewrite !Z.add_0_r. repeat split. exact Hrow.
  - cbn [safe_sums] in Hsafe.
    apply andb_true_iff in Hsafe. destruct Hsafe as [Hnow Hsafe].
    apply andb_true_iff in Hnow. destruct Hnow as [Ht0 Hd0].
    apply andb_true_iff in Hsafe. destruct Hsafe as [Hstep Hrest].
    apply andb_true_iff in Hstep. destruct Hstep as [_ Hcost].
    pose proof Hrest as Hnext. destruct reports as [|u' reports'];
      cbn [safe_sums] in Hnext;
      apply andb_true_iff in Hnext; destruct Hnext as [Hnext _];
      apply andb_true_iff in Hnext; destruct Hnext as [Ht1 Hd1].
    all: assert (Hread : readable b = true)
      by (unfold readable; rewrite Hmt, Hmd, !reads_safe by assumption;
          reflexivity).
    all: pose proof (budget_row_add_usage sessionId (report_tokens u)
                       (report_costUsd u) (report_durationMs u) (report_now u)
                       db b Hrow Hread Ht1 Hd1 Hcost) as Hstep.
    all: destruct (IH _ _ Hstep Hmt Hmd Hrest)
      as (b' & Hrow' & Ht & Hd & Hc & Hmt' & Hmc' & Hmd').
    all: exists b';
      cbn [usedTokens usedDurationMs usedCostUsd maxTokens maxCostUsd
           maxDurationMs] in *.
    all: split; [exact Hrow'|].
    all: unfold sum_tokens, sum_durations, sum_costs in *.
    all: cbn [fold_right fold_left] in *.
    all: repeat split; try assumption; lia.
Qed.

(** X19.  [updateBudgetUsage] accumulates, as long as the numbers are
    within what the columns hold exactly (the budget row can be read; the
    used tokens and the used duration, what each call adds and every sum
    on the way are safe integers, below [2^53] in magnitude; every sum of
    costs on the way is finite): after such calls for a session that has
    a budget, the used tokens and the used duration are what they were
    plus the sums reported, the used cost is the costs added in order,
    and the limits are as they were; so the token limit is reported
    exceeded exactly when the tokens used before plus those reported
    reach it, and, no report being negative, a limit once exceeded stays
    exceeded. *)
Theorem updateBudgetUsage_accumulates (sessionId : string)
  (reports : list UsageReport) (db : Db) (b : ConversationBudget) :
  budget_row sessionId db = Some b ->
  readable b = true ->
  safe_sums (usedTokens b) (usedDurationMs b) (usedCostUsd b) reports = true ->
  let db' := reported sessionId reports db in
  (exists b',
     budget_row sessionId db' = Some b'
     /\ usedTokens b' = (usedTokens b + sum_tokens reports)%Z
     /\ usedDurationMs b' = (usedDurationMs b + sum_durations reports)%Z
     /\ usedCostUsd b' = sum_costs (usedCostUsd b) reports
     /\ maxTokens b' = maxTokens b
     /\ maxCostUsd b' = maxCostUsd b
     /\ maxDurationMs b' = maxDurationMs b)
  /\ tokenLimitExceeded (checkBudgetLimits sessionId db')
     = match maxTokens b with
       | Some limit => (usedTokens b + sum_tokens reports >=? limit)%Z
       | None => false
       end
  /\ ((forall u, In u reports -> (0 <= report_tokens u)%Z) ->
      tokenLimitExceeded (checkBudgetLimits sessionId db) = true ->
      tokenLimitExceeded (checkBudgetLimits sessionId db') = true).
Proof.
  intros Hrow Hread Hsafe. cbn zeta.
  assert (Hlimits : limit_reads (maxTokens b) = true
                    /\ limit_reads (maxDurationMs b) = true).
  { unfold readable in Hread.
    destruct (limit_reads (maxTokens b)); [|discriminate].
    destruct (limit_reads (maxDurationMs b)); [|discriminate].
    split; reflexivity. }
  destruct Hlimits as [Hlt Hld].
  destruct (reported_row sessionId reports db b Hrow Hlt Hld Hsafe)
    as (b' & Hrow' & Ht & Hd & Hc & Hmt & Hmc & Hmd).
  assert (Hflag : tokenLimitExceeded
                    (checkBudgetLimits sessionId (reported sessionId reports db))
                  = match maxTokens b with
                    | Some limit => (usedTokens b + sum_tokens reports >=? limit)%Z
                    | None => false
                    end).
  { unfold checkBudgetLimits. rewrite budget_of_find, Hrow'.
    cbn [tokenLimitExceeded]. rewrite Hmt, Ht. reflexivity. }
  split; [exists b'; repeat split; assumption|].
  split; [exact Hflag|].
  intros Hpos. rewrite Hflag.
  unfold checkBudgetLimits. rewrite budget_of_find, Hrow.
  cbn [tokenLimitExceeded].
  destruct (maxTokens b) as [limit|]; [|discriminate].
  intros Hbefore. apply Z.geb_le in Hbefore. apply Z.geb_le.
  assert (Hsum : (0 <= sum_tokens reports)%Z).
  { clear -Hpos. induction reports as [|u reports IH]; [cbn; lia|].
    unfold sum_tokens in *. cbn [fold_right].
    pose proof (Hpos u (or_introl eq_refl)).
    assert (0 <= fold_right (fun u0 sum => report_tokens u0 + sum) 0 reports)%Z
      by (apply IH; intros u' Hu'; apply Hpos; right; exact Hu').
    lia. }
  lia.
Qed.

Lemma reported_without_budget (sessionId : string) (reports : list UsageReport)
  (db : Db) :
  budget_row sessionId db = None -> reported sessionId reports db = db.
Proof.
  intros Hrow. induction reports as [|u reports IH]; [reflexivity|].
  unfold reported in *. cbn [fold_left].
  unfold updateBudgetUsage at 2. rewrite budget_of_find, Hrow. exact IH.
Qed.

Lemma budget_row_taken (sessionId : string) (db : Db) :
  budget_row sessionId db = None -> budget_session_taken db sessionId = false.
Proof.
  unfold budget_row, budget_session_taken.
  induction (conversationBudgets db) as [|b l IH]; cbn [find existsb];
    [reflexivity|].
  destruct (String.eqb (budget_sessionId b) sessionId); [discriminate|exact IH].
Qed.

Lemma budget_row_snoc (sessionId : string) (rows : list ConversationBudget)
  (row : ConversationBudget) :
  find (fun b => String.eqb (budget_sessionId b) sessionId) rows = None ->
  budget_sessionId row = sessionId ->
  find (fun b => String.eqb (budget_sessionId b) sessionId) (rows ++ [row])
  = Some row.
Proof.
  intros Hnone Hrow. induction rows as [|b l IH]; cbn [app find] in *.
  - rewrite Hrow, String.eqb_refl. reflexivity.
  - destruct (String.eqb (budget_sessionId b) sessionId);
      [discriminate | exact (IH Hnone)].
Qed.

Lemma budget_row_not_In (sessionId : string) (db : Db) :
  budget_row sessionId db = None ->
  ~ In sessionId (map budget_sessionId (conversationBudgets db)).
Proof.
  unfold budget_row. intros Hnone Hin. apply in_map_iff in Hin.
  destruct Hin as [b [Hb Hin]].
  pose proof (find_none _ _ Hnone b Hin) as H. cbn in H.
  rewrite Hb, String.eqb_refl in H. discriminate.
Qed.

Lemma limits_bind_safe (limitTokens : option Z) (limitCostUsd : option float)
  (limitDurationMs : option Z) :
  safe_limits limitTokens limitCostUsd limitDurationMs = true ->
  limits_bind limitTokens limitCostUsd limitDurationMs = true
  /\ limit_reads limitTokens = true
  /\ limit_reads limitDurationMs = true.
Proof.
  unfold safe_limits, limits_bind, limit_reads. intros H.
  apply andb_true_iff in H. destruct H as [H Hd].
  apply andb_true_iff in H. destruct H as [Ht Hc].
  rewrite Hc.
  destruct limitTokens as [t|], limitDurationMs as [d|];
    rewrite ?finite_safe, ?reads_safe by assumption; repeat split.
Qed.

Lemma readable_set_limits (limitTokens : option Z) (limitCostUsd : option float)
  (limitDurationMs : option Z) (now : Z) (b : ConversationBudget) :
  limit_reads limitTokens = true ->
  limit_reads limitDurationMs = true ->
  readable b = true ->
  readable (set_limits limitTokens limitCostUsd limitDurationMs now
              (budget_id b) b) = true.
Proof.
  intros Ht Hd. unfold set_limits. rewrite Nat.eqb_refl.
  unfold readable. cbn [maxTokens maxDurationMs usedTokens usedDurationMs].
  intros H.
  apply andb_true_iff in H. destruct H as [H ->].
  apply andb_true_iff in H. destruct H as [H ->].
  apply andb_true_iff in H. destruct H as [Hbt Hbd].
  destruct limitTokens, limitDurationMs; cbn [set_column];
    rewrite ?Ht, ?Hd, ?Hbt, ?Hbd; reflexivity.
Qed.

Lemma limit_reads_false (limit : option Z) (n : Z) :
  limit = Some n ->
  Js.safe_integer n = false -> (Z.abs n < 2 ^ 63)%Z ->
  limit_reads limit = false.
Proof.
  intros -> Hsafe Hbits. unfold limit_reads, reads_as_number.
  rewrite Hsafe. apply Z.leb_gt. exact Hbits.
Qed.

(** X20.  [setBudget] never resets what was used.  With limits that the
    columns hold exactly (safe integers, below [2^53] in magnitude, for
    the tokens and the duration; a finite cost), for a session that has a
    budget, one that can be read, it keeps the row, its used counters and
    the one row for each session, and only changes the limits that are
    passed: a limit that is left out stays in force, so no call of
    [setBudget] lifts a limit.  For a session that has none it inserts a
    row whose counters are 0 and whose limits are the ones passed.  That
    insert is refused when foreign keys are enforced and the session does
    not exist; and a token or a duration limit that is an integer of 64
    bits beyond the safe integers is refused, for a session with or
    without a budget, because the row cannot be read back: the call
    throws an error whose message starts with [Failed to set budget: ],
    and nothing is stored. *)
Theorem setBudget_keeps_usage (sessionId : string) (limitTokens : option Z)
  (limitCostUsd : option float) (limitDurationMs : option Z) (now : Z) (db : Db) :
  let r := setBudget failed_query sessionId limitTokens limitCostUsd limitDurationMs now db in
  (safe_limits limitTokens limitCostUsd limitDurationMs = true ->
   forall b, budget_row sessionId db = Some b -> readable b = true ->
     exists b',
       fst r = inr b'
       /\ budget_row sessionId (snd r) = Some b'
       /\ budget_id b' = budget_id b
       /\ usedTokens b' = usedTokens b
       /\ usedCostUsd b' = usedCostUsd b
       /\ usedDurationMs b' = usedDurationMs b
       /\ limit_after limitTokens (maxTokens b) (maxTokens b')
       /\ limit_after limitCostUsd (maxCostUsd b) (maxCostUsd b')
       /\ limit_after limitDurationMs (maxDurationMs b) (maxDurationMs b')
       /\ map budget_sessionId (conversationBudgets (snd r))
          = map budget_sessionId (conversationBudgets db))
  /\ (safe_limits limitTokens limitCostUsd limitDurationMs = true ->
      budget_row sessionId db = None -> references_ok db sessionId = true ->
      exists b',
        fst r = inr b'
        /\ budget_row sessionId (snd r) = Some b'
        /\ usedTokens b' = 0%Z
        /\ usedCostUsd b' = 0%float
        /\ usedDurationMs b' = 0%Z
        /\ maxTokens b' = limitTokens
        /\ maxCostUsd b' = limitCostUsd
        /\ maxDurationMs b' = limitDurationMs
        /\ conversationBudgets (snd r) = conversationBudgets db ++ [b'])
  /\ (budget_row sessionId db = None -> references_ok db sessionId = false ->
      exists e, r = (inl ("Failed to set budget: " ++ e)%string, db))
  /\ (forall limit,
        limitTokens = Some limit \/ limitDurationMs = Some limit ->
        Js.safe_integer limit = false -> (Z.abs limit < 2 ^ 63)%Z ->
        exists e, r = (inl ("Failed to set budget: " ++ e)%string, db))
  /\ (one_budget_each db -> one_budget_each (snd r)).
Proof.
  cbn zeta. unfold setBudget, setBudget_tx. rewrite budget_of_find.
  destruct (budget_row sessionId db) as [b|] eqn:Hrow.
  - cbv zeta.
    assert (Hkeys : forall x,
              budget_sessionId
                (set_limits limitTokens limitCostUsd limitDurationMs now
                   (budget_id b) x) = budget_sessionId x).
    { intros x. unfold set_limits.
      destruct (budget_id x =? budget_id b)%nat; reflexivity. }
    assert (Hsessions :
              map budget_sessionId
                (map (set_limits limitTokens limitCostUsd limitDurationMs now
                        (budget_id b)) (conversationBudgets db))
              = map budget_sessionId (conversationBudgets db)).
    { rewrite map_map. apply map_ext. exact Hkeys. }
    split; [|split; [discriminate|split; [discriminate|split]]].
    + intros Hsafe b0 [= <-] Hread.
      destruct (limits_bind_safe _ _ _ Hsafe) as (Hbind & Hlt & Hld).
      rewrite Hread, Hbind,
        (readable_set_limits _ limitCostUsd _ now b Hlt Hld Hread).
      cbn [negb fst snd].
      eexists. split; [reflexivity|].
      split.
      { unfold budget_row, with_budgets. cbn [conversationBudgets].
        rewrite find_map_preserved.
        - fold (budget_row sessionId db). rewrite Hrow. reflexivity.
        - intros x. rewrite Hkeys. reflexivity. }
      unfold set_limits at 1 2 3 4 5 6 7. rewrite Nat.eqb_refl.
      cbn [budget_id usedTokens usedCostUsd usedDurationMs maxTokens
           maxCostUsd maxDurationMs].
      repeat split.
      * destruct limitTokens; reflexivity.
      * destruct limitCostUsd; reflexivity.
      * destruct limitDurationMs; reflexivity.
      * unfold with_budgets. cbn [conversationBudgets]. exact Hsessions.
    + intros limit Hlimit Hunsafe Hbits.
      destruct (readable b); cbn [negb]; [|eexists; reflexivity].
      destruct (limits_bind limitTokens limitCostUsd limitDurationMs);
        cbn [negb]; [|eexists; reflexivity].
      replace (readable (set_limits limitTokens limitCostUsd limitDurationMs
                           now (budget_id b) b)) with false;
        [eexists; reflexivity|].
      symmetry. unfold set_limits. rewrite Nat.eqb_refl.
      unfold readable. cbn [maxTokens maxDurationMs usedTokens usedDurationMs].
      destruct Hlimit as [-> | ->]; cbn [set_column].
      * rewrite (limit_reads_false (Some limit) limit eq_refl Hunsafe Hbits).
        reflexivity.
      * rewrite (limit_reads_false (Some limit) limit eq_refl Hunsafe Hbits).
        rewrite andb_false_r. reflexivity.
    + destruct (negb (readable b)); [auto|].
      destruct (negb (limits_bind limitTokens limitCostUsd limitDurationMs));
        [auto|].
      destruct (negb (readable _)); [auto|].
      unfold one_budget_each, with_budgets. cbn [snd conversationBudgets].
      rewrite Hsessions. auto.
  - unfold insert_budget. cbv zeta.
    rewrite (budget_row_taken sessionId db Hrow).
    split; [discriminate|]. split; [|split; [|split]].
    + intros Hsafe _ Hfk.
      destruct (limits_bind_safe _ _ _ Hsafe) as (Hbind & Hlt & Hld).
      rewrite Hbind, Hfk, Hlt, Hld. cbn [negb andb fst snd].
      eexists. split; [reflexivity|].
      split; [|repeat split].
      unfold budget_row. cbn [conversationBudgets].
      apply budget_row_snoc; [exact Hrow | reflexivity].
    + intros _ Hfk. rewrite Hfk. cbn [negb].
      destruct (negb (limits_bind limitTokens limitCostUsd limitDurationMs));
        eexists; reflexivity.
    + intros limit Hlimit Hunsafe Hbits.
      destruct (negb (limits_bind limitTokens limitCostUsd limitDurationMs));
        [eexists; reflexivity|].
      destruct (negb (references_ok db sessionId)); [eexists; reflexivity|].
      replace (limit_reads limitTokens && limit_reads limitDurationMs)
        with false; [eexists; reflexivity|].
      symmetry. destruct Hlimit as [Hlimit | Hlimit];
        rewrite (limit_reads_false _ limit Hlimit Hunsafe Hbits);
        [reflexivity | apply andb_false_r].
    + destruct (negb (limits_bind limitTokens limitCostUsd limitDurationMs));
        [auto|].
      destruct (negb (references_ok db sessionId)); [auto|].
      destruct (negb (limit_reads limitTokens && limit_reads limitDurationMs));
        [auto|].
      unfold one_budget_each. cbn [snd conversationBudgets]. intros Huniq.
      rewrite map_app. cbn [map budget_sessionId].
      apply NoDup_app; [exact Huniq | repeat constructor; intros []|].
      intros a Ha [<-|[]].
      exact (budget_row_not_In sessionId db Hrow Ha).
Qed.

(** X21.  Usage that is reported for a session before it has a budget is
    not kept: [updateBudgetUsage] does nothing then, and a budget set
    afterwards starts from zero, so under a positive token limit (a safe
    integer, below [2^53]) the session is within its limits whatever was
    reported. *)
Theorem updateBudgetUsage_before_budget (sessionId : string)
  (reports : list UsageReport) (limit : Z) (now : Z) (db : Db) :
  budget_row sessionId db = None ->
  references_ok db sessionId = true ->
  (0 < limit)%Z ->
  Js.safe_integer limit = true ->
  let db1 := reported sessionId reports db in
  let r := setBudget failed_query sessionId (Some limit) None None now db1 in
  db1 = db
  /\ (exists b', fst r = inr b' /\ usedTokens b' = 0%Z)
  /\ withinLimits (checkBudgetLimits sessionId (snd r)) = true.
Proof.
  intros Hrow Hfk Hlimit Hsafe. cbn zeta.
  rewrite (reported_without_budget sessionId reports db Hrow).
  split; [reflexivity|].
  unfold setBudget, setBudget_tx, insert_budget. cbv zeta.
  rewrite budget_of_find, Hrow, (budget_row_taken sessionId db Hrow), Hfk.
  unfold limits_bind, limit_reads.
  rewrite (finite_safe limit Hsafe), (reads_safe limit Hsafe).
  cbn [negb andb fst snd]. split; [eexists; split; reflexivity|].
  unfold checkBudgetLimits. rewrite budget_of_find.
  unfold budget_row. cbn [conversationBudgets].
  rewrite budget_row_snoc; [|exact Hrow|reflexivity].
  cbn [withinLimits maxTokens maxCostUsd maxDurationMs usedTokens].
  replace (0 >=? limit)%Z with false
    by (symmetry; rewrite Z.geb_leb; apply Z.leb_gt; lia).
  reflexivity.
Qed.

End Budgets.

Section BudgetsExample.
Import Schema ConversationMemoryManager Claimed Examples.

Lemma updateBudgetUsage_accumulates_witness :
  exists b',
    budget_row "s" (reported "s" two_reports budget_db) = Some b'
    /\ usedTokens b' = 210%Z.
Proof.
  destruct (updateBudgetUsage_accumulates "s" two_reports budget_db
              spent_budget eq_refl eq_refl eq_refl)
    as [(b' & Hrow & Htokens & _) _].
  exists b'. split; [exact Hrow | exact Htokens].
Defined.

(** X20 on a budget of 100 tokens, all used: a duration limit is set and
    the rest stays; a token limit of [2^53] is refused. *)
Lemma setBudget_keeps_usage_witness :
  (exists b',
     fst (setBudget driver_message "s" None None (Some 60000%Z) 9 budget_db)
     = inr b'
     /\ usedTokens b' = 100%Z
     /\ maxTokens b' = Some 100%Z
     /\ maxDurationMs b' = Some 60000%Z)
  /\ exists e,
       setBudget driver_message "s" (Some 9007199254740992%Z) None None 9
         budget_db
       = (inl ("Failed to set budget: " ++ e)%string, budget_db).
Proof.
  split.
  - destruct (setBudget_keeps_usage driver_message "s" None None
                (Some 60000%Z) 9 budget_db) as [Hkept _].
    destruct (Hkept eq_refl spent_budget eq_refl eq_refl)
      as (b' & Hcall & _ & _ & Hused & _ & _ & Htokens & _ & Hduration & _).
    exists b'. split; [exact Hcall|]. split; [exact Hused|].
    split; [exact Htokens | exact Hduration].
  - destruct (setBudget_keeps_usage driver_message "s"
                (Some 9007199254740992%Z) None None 9 budget_db)
      as (_ & _ & _ & Hrefused & _).
    apply (Hrefused 9007199254740992%Z); [left; reflexivity | reflexivity|].
    vm_compute. reflexivity.
Defined.

Lemma updateBudgetUsage_before_budget_witness :
  reported "s" two_reports empty_db = empty_db
  /\ withinLimits
       (checkBudgetLimits "s"
          (snd (setBudget driver_message "s" (Some 100%Z) None None 3
                  (reported "s" two_reports empty_db)))) = true.
Proof.
  destruct (updateBudgetUsage_before_budget driver_message "s" two_reports
              100 3 empty_db eq_refl eq_refl eq_refl eq_refl)
    as (Hsame & _ & Hwithin).
  split; [exact Hsame | exact Hwithin].
Defined.

End BudgetsExample.

(** ** Sessions *)

Section Sessions.
Import Schema ConversationMemoryManager Claimed.

(** The message of the error thrown for a statement that libsql refuses. *)
Variable failed_query : Schema.Statement -> string.

Variable randomUUID : nat -> string.

Variable get_encoding :
  TokenizerManager.EncodingName -> option TokenizerManager.TikTokenEncoder.

Lemma firstn_1_filter {A : Type} (p : A -> bool) (l : list A) :
  firstn 1 (filter p l)
  = match find p l with
    | Some x => [x]
    | None => []
    end.
Proof.
  induction l as [|x l IH]; cbn [filter find]; [reflexivity|].
  destruct (p x); [reflexivity | exact IH].
Qed.

Lemma find_existsb {A : Type} (p : A -> bool) (l : list A) :
  existsb p l = match find p l with
                | Some _ => true
                | None => false
                end.
Proof.
  induction l as [|x l IH]; cbn [existsb find]; [reflexivity|].
  destruct (p x); [reflexivity | exact IH].
Qed.

Lemma find_snoc_new {A : Type} (p : A -> bool) (l : list A) (x : A) :
  find p l = None -> p x = true -> find p (l ++ [x]) = Some x.
Proof.
  intros Hnone Hx. induction l as [|y l IH]; cbn [app find] in *.
  - rewrite Hx. reflexivity.
  - destruct (p y); [discriminate | exact (IH Hnone)].
Qed.

(** X22.  With a session id that is not empty, [getOrCreateSession]
    always succeeds, returns a session of that id, changes nothing when
    the session exists, and is idempotent: every later call with the id
    returns the same row and leaves the database alone, whatever the name
    it passes (the name of an existing session is never updated). *)
Theorem getOrCreateSession_idempotent (id : string) (name : option string)
  (now : Z) (db : Db) :
  Js.truthy_string id = true ->
  exists s db1,
    getOrCreateSession failed_query randomUUID (Some id) name now db = (inr s, db1)
    /\ session_id s = id
    /\ (session_exists db id = true -> db1 = db)
    /\ (session_exists db id = false -> session_name s = name)
    /\ forall name' now',
         getOrCreateSession failed_query randomUUID (Some id) name' now' db1 = (inr s, db1).
Proof.
  intros Hid. unfold getOrCreateSession. rewrite Hid, firstn_1_filter.
  unfold session_exists. rewrite find_existsb.
  destruct (find (fun s => String.eqb (session_id s) id) (sessions db))
    as [s|] eqn:Hfind.
  - exists s, db. split; [reflexivity|].
    split; [apply find_some in Hfind; apply String.eqb_eq, Hfind|].
    split; [reflexivity|]. split; [discriminate|].
    intros name' now'. rewrite firstn_1_filter, Hfind. reflexivity.
  - unfold insert_session, session_exists. rewrite find_existsb, Hfind.
    eexists. eexists. split; [reflexivity|]. cbn [session_id session_name].
    split; [reflexivity|]. split; [discriminate|]. split; [reflexivity|].
    intros name' now'. cbn [sessions]. rewrite firstn_1_filter.
    rewrite (find_snoc_new _ _ _ Hfind); [reflexivity|].
    cbn [session_id]. apply String.eqb_refl.
Qed.

(** X23.  The empty string is no session id for the lookup of
    [getOrCreateSession] but it is one for its insert: the first call
    with [''] creates the session whose id is empty, and every later call
    with [''] has its insert refused by the primary key and throws an
    error whose message starts with [Failed to get or create session: ],
    instead of returning the session; the database stays as it was. *)
Theorem getOrCreateSession_empty_id (name : option string) (now : Z) (db : Db) :
  let r := getOrCreateSession failed_query randomUUID (Some "") name now db in
  (session_exists db "" = true ->
   exists e,
     r = (inl ("Failed to get or create session: " ++ e)%string, db))
  /\ (session_exists db "" = false ->
      exists s,
        fst r = inr s
        /\ session_id s = ""
        /\ forall name' now',
             exists e,
               getOrCreateSession failed_query randomUUID (Some "") name' now'
                 (snd r)
               = (inl ("Failed to get or create session: " ++ e)%string,
                  snd r)).
Proof.
  cbn zeta. unfold getOrCreateSession.
  replace (Js.truthy_string "") with false by reflexivity.
  unfold insert_session.
  destruct (session_exists db "") eqn:Hexists.
  - split; [intros _; eexists; reflexivity | discriminate].
  - split; [discriminate|]. intros _. cbn [fst snd].
    eexists. split; [reflexivity|]. split; [reflexivity|].
    intros name' now'.
    replace (session_exists _ "") with true; [eexists; reflexivity|].
    unfold session_exists. cbn [sessions]. rewrite existsb_app.
    cbn. rewrite orb_true_r. reflexivity.
Qed.

Lemma session_exists_set_status (sessionId changed : string) (status : Status)
  (now : Z) (l : list Session) :
  existsb (fun s => String.eqb (session_id s) sessionId)
          (map (set_status changed status now) l)
  = existsb (fun s => String.eqb (session_id s) sessionId) l.
Proof.
  induction l as [|s l IH]; cbn [map existsb]; [reflexivity|].
  rewrite IH. f_equal. unfold set_status.
  destruct (String.eqb (session_id s) changed); reflexivity.
Qed.

Lemma In_insert_sorted {A : Type} (before : A -> A -> bool) (x y : A) (l : list A) :
  In y (insert_sorted before x l) <-> y = x \/ In y l.
Proof.
  induction l as [|z l IH]; cbn [insert_sorted].
  - cbn. intuition.
  - destruct (before x z); cbn [In]; [intuition|].
    rewrite IH. intuition.
Qed.

Lemma In_orderBy {A : Type} (before : A -> A -> bool) (y : A) (l : list A) :
  In y (orderBy before l) <-> In y l.
Proof.
  induction l as [|x l IH]; cbn [orderBy]; [reflexivity|].
  rewrite In_insert_sorted, IH. cbn. intuition.
Qed.

Lemma length_insert_sorted {A : Type} (before : A -> A -> bool) (x : A)
  (l : list A) :
  List.length (insert_sorted before x l) = S (List.length l).
Proof.
  induction l as [|z l IH]; cbn [insert_sorted]; [reflexivity|].
  destruct (before x z); cbn [List.length]; [reflexivity|].
  rewrite IH. reflexivity.
Qed.

Lemma length_orderBy {A : Type} (before : A -> A -> bool) (l : list A) :
  List.length (orderBy before l) = List.length l.
Proof.
  induction l as [|x l IH]; cbn [orderBy]; [reflexivity|].
  rewrite length_insert_sorted, IH. reflexivity.
Qed.

Lemma In_page {A : Type} (limit offset : nat) (x : A) (l : list A) :
  In x (firstn limit (skipn offset l)) -> In x l.
Proof.
  intros H. rewrite <- (firstn_skipn offset l). apply in_or_app. right.
  rewrite <- (firstn_skipn limit (skipn offset l)). apply in_or_app. left.
  exact H.
Qed.

(** The two counts over the joined rows that start from rows of one
    session. *)
Lemma leftJoin_files_counts (s : Session) (db : Db)
  (rows : list (Session * option ConversationMessage)) :
  (forall row, In row rows -> fst row = s) ->
  let joined :=
    leftJoin (fun row f => String.eqb (session_id (fst row)) (file_sessionId f))
      rows (conversationFiles db) in
  count (fun row => option_map message_id (snd (fst row))) joined
  = (count (fun row => option_map message_id (snd row)) rows
     * Z.of_nat (Nat.max 1 (files_in (session_id s) db)))%Z
  /\ count (fun row => option_map file_id (snd row)) joined
     = (Z.of_nat (List.length rows) * Z.of_nat (files_in (session_id s) db))%Z.
Proof.
  intros Hrows. cbn zeta. unfold count, leftJoin, files_in.
  induction rows as [|row rows IH]; [cbn; split; reflexivity|].
  cbn [flat_map]. rewrite !filter_app, !length_app.
  destruct IH as [IHm IHf]; [intros r Hr; apply Hrows; right; exact Hr|].
  rewrite (Hrows row (or_introl eq_refl)).
  set (fs := filter (fun f => String.eqb (session_id s) (file_sessionId f))
               (conversationFiles db)) in *.
  assert (Hchunk :
    forall matching : list ConversationFile,
      List.length
        (filter (fun r : Session * option ConversationMessage * option ConversationFile =>
                   match option_map message_id (snd (fst r)) with
                   | Some _ => true
                   | None => false
                   end)
           (map (fun y => (row, Some y)) matching))
      = (if match option_map message_id (snd row) with
            | Some _ => true
            | None => false
            end then List.length matching else 0)%nat
      /\ List.length
           (filter (fun r : Session * option ConversationMessage * option ConversationFile =>
                      match option_map file_id (snd r) with
                      | Some _ => true
                      | None => false
                      end)
              (map (fun y => (row, Some y)) matching))
         = List.length matching).
  { induction matching as [|y matching IHy]; cbn [map filter fst snd option_map];
      [destruct (option_map message_id (snd row)); split; reflexivity|].
    destruct IHy as [IH1 IH2].
    destruct (option_map message_id (snd row)); cbn [List.length];
      rewrite ?IH1, ?IH2; split; reflexivity. }
  cbn [filter fst snd].
  destruct fs as [|f fs'] eqn:Hfs.
  - cbn [filter fst snd option_map List.length Nat.max].
    destruct (snd row) as [m|]; cbn [option_map List.length filter] in *;
      split; lia.
  - destruct (Hchunk (f :: fs')) as [H1 H2]. rewrite H1, H2.
    cbn [filter].
    destruct (snd row) as [m|]; cbn [option_map List.length] in *;
      split; lia.
Qed.

Lemma group_of_counts (s : Session) (db : Db) :
  count (fun row => option_map message_id (snd (fst row))) (group_of s db)
  = Z.of_nat (messages_in (session_id s) db
              * Nat.max 1 (files_in (session_id s) db))
  /\ count (fun row => option_map file_id (snd row)) (group_of s db)
     = Z.of_nat (files_in (session_id s) db
                 * Nat.max 1 (messages_in (session_id s) db)).
Proof.
  unfold group_of.
  set (rows := leftJoin (fun s0 m => String.eqb (session_id s0) (message_sessionId m))
                 [s] (conversationMessages db)).
  assert (Hrows : forall row, In row rows -> fst row = s).
  { subst rows. unfold leftJoin. cbn [flat_map]. rewrite app_nil_r.
    intros row. destruct (filter _ _) as [|m ms].
    - intros [<-|[]]. reflexivity.
    - intros Hin. apply in_map_iff in Hin. destruct Hin as [y [<- _]].
      reflexivity. }
  destruct (leftJoin_files_counts s db rows Hrows) as [Hm Hf].
  rewrite Hm, Hf. clear Hm Hf Hrows.
  subst rows. unfold leftJoin, count, messages_in. cbn [flat_map].
  rewrite app_nil_r.
  destruct (filter (fun m => String.eqb (session_id s) (message_sessionId m))
              (conversationMessages db)) as [|m ms].
  - cbn [map filter snd option_map List.length Nat.mul Nat.max].
    rewrite Nat.mul_1_r. split; lia.
  - assert (Hall :
      forall l : list ConversationMessage,
        List.length
          (filter (fun row : Session * option ConversationMessage =>
                     match option_map message_id (snd row) with
                     | Some _ => true
                     | None => false
                     end)
             (map (fun y => (s, Some y)) l)) = List.length l).
    { induction l as [|y l IHl]; [reflexivity|].
      cbn [map filter snd option_map List.length]. rewrite IHl. reflexivity. }
    rewrite Hall, length_map. cbn [List.length Nat.max].
    rewrite !Nat2Z.inj_mul. split; lia.
Qed.

(** X24.  The counts of [listSessions] are counts of joined rows, not of
    messages and files: every summary it returns is of a session in the
    status asked for, and for a session with [m] messages and [f] files
    its [messageCount] is [m * max(1, f)] and its [fileCount] is
    [f * max(1, m)]; so both are [m * f] when the session has messages
    and files. *)
Theorem listSessions_counts (status : Status) (limit offset : nat) (now : Z)
  (db : Db) (summary : SessionSummary) :
  In summary (list_sessions (listSessions status limit offset now db)) ->
  exists s,
    In s (sessions db)
    /\ session_status s = status
    /\ summary_id summary = session_id s
    /\ summary_status summary = status
    /\ messageCount summary
       = Z.of_nat (messages_in (session_id s) db
                   * Nat.max 1 (files_in (session_id s) db))
    /\ fileCount summary
       = Z.of_nat (files_in (session_id s) db
                   * Nat.max 1 (messages_in (session_id s) db))
    /\ ((0 < messages_in (session_id s) db)%nat ->
        (0 < files_in (session_id s) db)%nat ->
        messageCount summary
        = Z.of_nat (messages_in (session_id s) db * files_in (session_id s) db)
        /\ fileCount summary = messageCount summary).
Proof.
  unfold listSessions. cbn [list_sessions]. intros Hin.
  apply in_map_iff in Hin. destruct Hin as [data [<- Hdata]].
  cbn [summary_id summary_status messageCount fileCount].
  apply In_page in Hdata.
  unfold sessionData_all in Hdata.
  apply In_orderBy, in_map_iff in Hdata. destruct Hdata as [s [<- Hs]].
  apply filter_In in Hs. destruct Hs as [Hs Hstatus].
  cbn [data_id data_status data_messageCount data_fileCount].
  assert (Hst : session_status s = status)
    by (destruct (session_status s), status; (reflexivity || discriminate)).
  exists s. destruct (group_of_counts s db) as [Hm Hf].
  split; [exact Hs|]. split; [exact Hst|]. split; [reflexivity|].
  split; [exact Hst|]. split; [exact Hm|]. split; [exact Hf|].
  intros Hmessages Hfiles. rewrite Hm, Hf.
  rewrite !Nat.max_r by lia. split; [reflexivity|].
  f_equal. apply Nat.mul_comm.
Qed.


(** X26.  [updateSessionStatus] is a soft change that nothing but
    [listSessions] looks at: after it, for any status, the context, the
    budget check and what [addMessage] returns are what they were (a
    session that is archived or deleted still takes messages), and the
    session is no longer listed under any other status. *)
Theorem updateSessionStatus_soft (sessionId : string) (status : Status)
  (now : Z) (db : Db) :
  let db' := updateSessionStatus sessionId status now db in
  (forall id maxTokens includeFiles model,
     getConversationContext get_encoding id maxTokens includeFiles model db'
     = getConversationContext get_encoding id maxTokens includeFiles model db)
  /\ (forall id, checkBudgetLimits id db' = checkBudgetLimits id db)
  /\ (forall id r text tool parent meta t,
        fst (addMessage failed_query id r text tool parent meta t db')
        = fst (addMessage failed_query id r text tool parent meta t db))
  /\ (forall other limit offset t summary,
        other <> status ->
        In summary (list_sessions (listSessions other limit offset t db')) ->
        summary_id summary <> sessionId).
Proof.
  cbn zeta. split; [reflexivity|]. split; [reflexivity|]. split.
  - intros id r text tool parent meta t.
    unfold addMessage, addMessage_tx, insert_message, references_ok,
      session_exists, message_index_taken.
    cbn [updateSessionStatus sessions conversationMessages foreignKeys nextId].
    rewrite session_exists_set_status.
    fold (session_exists db id). fold (references_ok db id).
    destruct (negb (references_ok db id)); [reflexivity|].
    destruct (existsb _ (conversationMessages db)); reflexivity.
  - intros other limit offset t summary Hother Hin Hid.
    unfold listSessions in Hin. cbn [list_sessions] in Hin.
    apply in_map_iff in Hin. destruct Hin as [data [<- Hdata]].
    cbn [summary_id] in Hid.
    apply In_page in Hdata. unfold sessionData_all in Hdata.
    apply In_orderBy, in_map_iff in Hdata. destruct Hdata as [s [<- Hs]].
    cbn [data_id] in Hid.
    apply filter_In in Hs. destruct Hs as [Hs Hstatus].
    cbn [updateSessionStatus sessions] in Hs.
    apply in_map_iff in Hs. destruct Hs as [s0 [<- _]].
    unfold set_status in Hid, Hstatus.
    destruct (String.eqb (session_id s0) sessionId) eqn:E.
    + cbn [session_status] in Hstatus. apply Hother.
      destruct status, other; (reflexivity || discriminate).
    + cbn in Hid. rewrite Hid, String.eqb_refl in E. discriminate.
Qed.

(** X27.  Where foreign keys are enforced, a message for a session that
    does not exist is refused: [addMessage] throws an error whose message
    starts with [Failed to add message: ] and nothing is stored; once
    [getOrCreateSession] has been called with the id, [addMessage]
    succeeds. *)
Theorem addMessage_needs_session (sessionId : string) (name : option string)
  (r : Role) (text : string) (tool parent meta : option string) (t0 t1 : Z)
  (db : Db) :
  foreignKeys db = true ->
  session_exists db sessionId = false ->
  Js.truthy_string sessionId = true ->
  (exists e,
     addMessage failed_query sessionId r text tool parent meta t1 db
     = (inl ("Failed to add message: " ++ e)%string, db))
  /\ exists m,
       fst (addMessage failed_query sessionId r text tool parent meta t1
              (snd (getOrCreateSession failed_query randomUUID (Some sessionId) name t0 db)))
       = inr m
       /\ message_sessionId m = sessionId
       /\ content m = text.
Proof.
  intros Hfk Hnone Hid. split.
  - unfold addMessage, addMessage_tx, insert_message, references_ok.
    rewrite Hfk, Hnone. eexists. reflexivity.
  - unfold getOrCreateSession. rewrite Hid, firstn_1_filter.
    pose proof Hnone as Hfind. unfold session_exists in Hfind.
    rewrite find_existsb in Hfind.
    destruct (find (fun s => String.eqb (session_id s) sessionId) (sessions db));
      [discriminate|].
    unfold insert_session. rewrite Hnone. cbn [snd].
    unfold addMessage, addMessage_tx, insert_message.
    rewrite selected_index, next_index_free.
    replace (references_ok _ sessionId) with true.
    + cbn [negb fst]. eexists. repeat split.
    + unfold references_ok, session_exists. cbn [sessions foreignKeys].
      rewrite existsb_app. cbn [existsb session_id].
      rewrite String.eqb_refl, !orb_true_r. reflexivity.
Qed.

End Sessions.

Section SessionsExample.
Import Schema ConversationMemoryManager Claimed Examples.

Lemma getOrCreateSession_idempotent_witness :
  exists s db1,
    getOrCreateSession driver_message numbered_uuid (Some "s") (Some "first") 1 empty_db
    = (inr s, db1)
    /\ getOrCreateSession driver_message numbered_uuid (Some "s") (Some "second") 2 db1
       = (inr s, db1).
Proof.
  destruct (getOrCreateSession_idempotent driver_message numbered_uuid "s" (Some "first") 1
              empty_db eq_refl) as (s & db1 & Hfirst & _ & _ & _ & Hlater).
  exists s, db1. split; [exact Hfirst | apply Hlater].
Defined.

(** Two messages and three files are listed as six of each. *)
Lemma listSessions_counts_witness :
  exists summary,
    In summary (list_sessions (listSessions active 50 0 9 busy_db))
    /\ messageCount summary = 6%Z
    /\ fileCount summary = 6%Z.
Proof.
  destruct (list_sessions (listSessions active 50 0 9 busy_db))
    as [|summary l] eqn:Hlist; [vm_compute in Hlist; discriminate Hlist|].
  exists summary. split; [left; reflexivity|].
  destruct (listSessions_counts active 50 0 9 busy_db summary)
    as (s & Hs & _ & _ & _ & Hm & Hf & _).
  - rewrite Hlist. left. reflexivity.
  - destruct Hs as [<-|[]]. split; [exact Hm | exact Hf].
Defined.

Lemma addMessage_needs_session_witness :
  (exists e,
     addMessage driver_message "s" user "hello" None None None 2 strict_db
     = (inl ("Failed to add message: " ++ e)%string, strict_db))
  /\ exists m,
       fst (addMessage driver_message "s" user "hello" None None None 2
              (snd (getOrCreateSession driver_message numbered_uuid (Some "s") None 1 strict_db)))
       = inr m.
Proof.
  destruct (addMessage_needs_session driver_message numbered_uuid "s" None
              user "hello"
              None None None 1 2 strict_db eq_refl eq_refl eq_refl)
    as (Hrefused & m & Hm & _).
  split; [exact Hrefused | exists m; exact Hm].
Defined.

End SessionsExample.

(** ** Truncating to a token limit *)

Section Truncation.
Import TokenizerManager.

Variable get_encoding : EncodingName -> option TikTokenEncoder.
Variable get_decoding : EncodingName -> list nat -> option string.

Lemma substring_prefix (n : nat) (s : string) :
  exists rest,
    s = (String.substring 0 n s ++ rest)%string
    /\ String.length (String.substring 0 n s) = Nat.min n (String.length s).
Proof.
  revert n. induction s as [|c s IH]; intros n.
  - exists ""%string. destruct n; split; reflexivity.
  - destruct n as [|n].
    + exists (String c s). split; reflexivity.
    + destruct (IH n) as [rest [Hs Hlen]]. exists rest.
      cbn [String.substring String.length append Nat.min].
      rewrite <- Hs, Hlen. split; reflexivity.
Qed.

(** X28.  [truncateToTokenLimit] agrees with [countTokens]: a text that
    counts no more tokens than the limit is returned as it is, with
    tiktoken or without.  Without tiktoken, what it returns is the
    beginning of the text and, the limit not being negative, counts no
    more tokens than the limit. *)
Theorem truncateToTokenLimit_fits (text : string) (maxTokens : Z) (model : string) :
  let truncated :=
    truncateToTokenLimit get_encoding get_decoding text maxTokens model in
  ((countTokens get_encoding text model <= maxTokens)%Z -> truncated = text)
  /\ (getEncoder get_encoding model = None ->
      (exists rest, text = (truncated ++ rest)%string)
      /\ ((0 <= maxTokens)%Z ->
          (countTokens get_encoding truncated model <= maxTokens)%Z)).
Proof.
  cbn zeta. unfold truncateToTokenLimit, countTokens.
  assert (Hchars : forall s, (ceil_quarter (String.length s) <= maxTokens)%Z <->
                             (Z.of_nat (String.length s) <= maxTokens * 4)%Z).
  { intros s. unfold ceil_quarter.
    pose proof (Z.div_mod (Z.of_nat (String.length s) + 3) 4 ltac:(lia)).
    pose proof (Z.mod_pos_bound (Z.of_nat (String.length s) + 3) 4 ltac:(lia)).
    lia. }
  assert (Hfallback : (ceil_quarter (String.length text) <= maxTokens)%Z ->
                      truncate_chars text maxTokens = text).
  { intros H. apply Hchars in H. unfold truncate_chars.
    apply Z.leb_le in H. rewrite H. reflexivity. }
  split.
  - destruct (getEncoder get_encoding model) as [encoder|]; [|exact Hfallback].
    destruct (encoder text) as [tokens|]; [|exact Hfallback].
    intros H. apply Z.leb_le in H. rewrite H. reflexivity.
  - intros Hnone. rewrite Hnone. unfold truncate_chars.
    destruct (Z.of_nat (String.length text) <=? maxTokens * 4)%Z eqn:Hfits.
    + split; [exists ""%string; symmetry; apply append_empty_r|].
      intros _. apply Hchars. apply Z.leb_le. exact Hfits.
    + destruct (substring_prefix (Z.to_nat (maxTokens * 4)) text)
        as [rest [Hs Hlen]].
      split; [exists rest; exact Hs|].
      intros Hpos. apply Hchars. rewrite Hlen. lia.
Qed.

End Truncation.

(** ** The continuation tool *)

Section Continuation.
Import Schema ConversationMemoryManager UltraTools Claimed.

(** The message of the error thrown for a statement that libsql refuses. *)
Variable failed_query : Schema.Statement -> string.

Variable get_encoding :
  TokenizerManager.EncodingName -> option TokenizerManager.TikTokenEncoder.
Variable getProvider : option string -> string + AIProvider.
Variable JSON_stringify : Metadata -> string.
Variable lengthToString : nat -> string.



End Continuation.

Section ContinuationExample.
Import Schema ConversationMemoryManager UltraTools Claimed Examples.



End ContinuationExample.
